(** * flayke: the distance-field transform and grid/symmetry engine

    A shallow embedding of [src/grid.js], [src/state.js], [src/presets.js]
    and the cell-drawing call sites of [src/main.js] and [src/export.js].

    JavaScript numbers are IEEE-754 doubles.  The engine is written once,
    over an interface [JsNumber] of the arithmetic it uses, and the
    interface has two implementations:

    - [FloatNumber]: Rocq's primitive binary64 floats, bit-exact and
      executable, used to run the code on concrete inputs;
    - [IdealNumber]: exact real arithmetic extended with [NaN] and the two
      infinities (no rounding, no overflow, no signed zero), used for the
      statements that quantify over every configuration.

    Theorems that do not depend on arithmetic are stated for every
    implementation of the interface. *)

From Stdlib Require Import ZArith List String Ascii Bool Lia.
From Stdlib Require Import DecimalString DecimalNat.
From Stdlib Require Import Floats.
From Stdlib Require Import Reals Lra.
Import ListNotations.

Set Implicit Arguments.

(* ===================================================================== *)
(** ** Numbers *)
(* ===================================================================== *)

(** The range of [Math.floor] and [Math.round]: an integer, or one of the
    three non-finite doubles the argument is passed through as.  (The sign
    of a zero result is dropped: nothing in the engine observes it.) *)
Inductive rounded : Type :=
| RInt (z : Z)
| RNaN
| RPosInf
| RNegInf.

(** The operators and [Math] functions used by the engine. *)
Class JsNumber (num : Type) : Type := {
  of_Z : Z -> num;                   (* integer literals and integer fields *)
  NaN : num;
  add : num -> num -> num;           (* a + b *)
  sub : num -> num -> num;           (* a - b *)
  mul : num -> num -> num;           (* a * b *)
  div : num -> num -> num;           (* a / b *)
  rem : num -> num -> num;           (* a % b *)
  ltb : num -> num -> bool;          (* a < b *)
  leb : num -> num -> bool;          (* a <= b *)
  Math_sqrt : num -> num;
  Math_min : num -> num -> num;
  Math_floor : num -> rounded;
  Math_round : num -> rounded;
  isFinite : num -> bool;
  isNegZero : num -> bool;           (* Object.is(a, -0) *)
}.

(** The trigonometric part of [Math], which primitive floats do not
    provide: the platform's libm. *)
Class JsTrig (num : Type) : Type := {
  Math_PI : num;
  Math_sin : num -> num;
  Math_cos : num -> num;
  Math_atan2 : num -> num -> num;
}.

Declare Scope js_scope.
Delimit Scope js_scope with js.
Infix "+" := add : js_scope.
Infix "-" := sub : js_scope.
Infix "*" := mul : js_scope.
Infix "/" := div : js_scope.
Infix "<?" := ltb : js_scope.
Infix "<=?" := leb : js_scope.

Section NumberHelpers.
Context {num : Type} `{JsNumber num}.

(** A decimal literal [n/d] such as [0.5] or [0.1]: the double nearest
    to the quotient, which a correctly rounded division of two exactly
    representable integers yields. *)
Definition dec (n d : Z) : num := (of_Z n / of_Z d)%js.

(** [a > b] and [a >= b]. *)
Definition gtb (a b : num) : bool := (b <? a)%js.
Definition geb (a b : num) : bool := (b <=? a)%js.

(** The number a [Math.floor]/[Math.round] result stands for. *)
Definition of_rounded (r : rounded) : num :=
  match r with
  | RInt z => of_Z z
  | RNaN => NaN
  | RPosInf => (of_Z 1 / of_Z 0)%js
  | RNegInf => (of_Z (-1) / of_Z 0)%js
  end.

(** [Math.pow(x, n)] for a literal natural exponent; the source only
    uses [n = 2], for which engines compute [x * x]. *)
Fixpoint Math_pow (x : num) (n : nat) : num :=
  match n with
  | O => of_Z 1
  | S O => x
  | S n' => (x * Math_pow x n')%js
  end.
End NumberHelpers.

(* --------------------------------------------------------------------- *)
(** *** Binary64 implementation *)
(* --------------------------------------------------------------------- *)

Module F64.

(** A finite double as [m * 2^e] with a signed mantissa. *)
Inductive repr : Type :=
| Dyadic (m e : Z)
| NotANumber
| Infinite (negative : bool).

Definition view (f : float) : repr :=
  match Prim2SF f with
  | S754_zero _ => Dyadic 0 0
  | S754_finite s m e => Dyadic (if s then Z.neg m else Z.pos m) e
  | S754_infinity s => Infinite s
  | S754_nan => NotANumber
  end.

Definition of_Z (z : Z) : float :=
  SF2Prim (binary_normalize prec emax z 0 false).

(** IEEE [fmod]: the remainder has the sign of the dividend and is
    always exactly representable. *)
Definition rem (x y : float) : float :=
  match view x, view y with
  | NotANumber, _ | _, NotANumber => nan
  | Infinite _, _ => nan
  | Dyadic _ _, Infinite _ => x
  | Dyadic mx ex, Dyadic my ey =>
      if Z.eqb my 0 then nan
      else if Z.eqb mx 0 then x
      else
        let e := Z.min ex ey in
        let X := Z.shiftl mx (ex - e) in
        let Y := Z.shiftl my (ey - e) in
        SF2Prim (binary_normalize prec emax (Z.rem X Y) e (get_sign x))
  end.

Definition min (x y : float) : float :=
  if is_nan x || is_nan y then nan
  else if PrimFloat.ltb y x then y
  else if PrimFloat.ltb x y then x
  else if get_sign x then x else y.    (* min(-0, +0) = -0 *)

Definition floor (x : float) : rounded :=
  match view x with
  | NotANumber => RNaN
  | Infinite s => if s then RNegInf else RPosInf
  | Dyadic m e =>
      RInt (if Z.leb 0 e then Z.shiftl m e else Z.shiftr m (- e))
  end.

(** [Math.round]: the nearest integer, ties towards +infinity, that is
    the floor of the exact [x + 1/2]. *)
Definition round (x : float) : rounded :=
  match view x with
  | NotANumber => RNaN
  | Infinite s => if s then RNegInf else RPosInf
  | Dyadic m e =>
      RInt (if Z.leb 0 e then Z.shiftl m e
            else Z.shiftr (m + Z.shiftl 1 (- e - 1)) (- e))
  end.

Definition isNegZero (x : float) : bool :=
  is_zero x && get_sign x.

End F64.

#[export] Instance FloatNumber : JsNumber float := {|
  of_Z := F64.of_Z;
  NaN := nan;
  add := PrimFloat.add;
  sub := PrimFloat.sub;
  mul := PrimFloat.mul;
  div := PrimFloat.div;
  rem := F64.rem;
  ltb := PrimFloat.ltb;
  leb := PrimFloat.leb;
  Math_sqrt := PrimFloat.sqrt;
  Math_min := F64.min;
  Math_floor := F64.floor;
  Math_round := F64.round;
  isFinite := is_finite;
  isNegZero := F64.isNegZero;
|}.

(* --------------------------------------------------------------------- *)
(** *** Exact implementation: reals with NaN and infinities *)
(* --------------------------------------------------------------------- *)

Module Ideal.

Inductive xreal : Type :=
| Fin (r : R)
| PInf
| NInf
| XNaN.

Definition sgn (r : R) : comparison :=
  match total_order_T r 0 with
  | inleft (left _) => Lt
  | inleft (right _) => Eq
  | inright _ => Gt
  end.

(** The infinity of a given sign; a zero sign stands for [0 * inf] and
    [0 / 0]. *)
Definition inf_of (c : comparison) : xreal :=
  match c with Lt => NInf | Eq => XNaN | Gt => PInf end.

Definition plus (a b : xreal) : xreal :=
  match a, b with
  | XNaN, _ | _, XNaN => XNaN
  | Fin x, Fin y => Fin (x + y)
  | PInf, NInf | NInf, PInf => XNaN
  | PInf, _ | _, PInf => PInf
  | NInf, _ | _, NInf => NInf
  end.

Definition opp (a : xreal) : xreal :=
  match a with
  | Fin x => Fin (- x)
  | PInf => NInf
  | NInf => PInf
  | XNaN => XNaN
  end.

Definition minus (a b : xreal) : xreal := plus a (opp b).

Definition times (a b : xreal) : xreal :=
  match a, b with
  | XNaN, _ | _, XNaN => XNaN
  | Fin x, Fin y => Fin (x * y)
  | Fin x, PInf | PInf, Fin x => inf_of (sgn x)
  | Fin x, NInf | NInf, Fin x => inf_of (CompOpp (sgn x))
  | PInf, PInf | NInf, NInf => PInf
  | PInf, NInf | NInf, PInf => NInf
  end.

(** A zero divisor is read as [+0]. *)
Definition quot (a b : xreal) : xreal :=
  match a, b with
  | XNaN, _ | _, XNaN => XNaN
  | Fin x, Fin y => if Req_dec_T y 0 then inf_of (sgn x) else Fin (x / y)
  | Fin _, _ => Fin 0
  | PInf, Fin y => if Rlt_dec y 0 then NInf else PInf
  | NInf, Fin y => if Rlt_dec y 0 then PInf else NInf
  | _, _ => XNaN
  end.

Definition trunc (r : R) : Z :=
  if Rlt_dec r 0 then (- Int_part (- r))%Z else Int_part r.

Definition fmod (a b : xreal) : xreal :=
  match a, b with
  | XNaN, _ | _, XNaN => XNaN
  | Fin x, Fin y =>
      if Req_dec_T y 0 then XNaN else Fin (x - y * IZR (trunc (x / y)))
  | Fin x, _ => Fin x
  | _, _ => XNaN
  end.

Definition lt (a b : xreal) : bool :=
  match a, b with
  | XNaN, _ | _, XNaN => false
  | Fin x, Fin y => if Rlt_dec x y then true else false
  | NInf, NInf | PInf, _ | _, NInf => false
  | _, _ => true
  end.

Definition le (a b : xreal) : bool :=
  match a, b with
  | XNaN, _ | _, XNaN => false
  | Fin x, Fin y => if Rle_dec x y then true else false
  | NInf, _ | _, PInf => true
  | _, _ => false
  end.

Definition root (a : xreal) : xreal :=
  match a with
  | Fin x => if Rlt_dec x 0 then XNaN else Fin (sqrt x)
  | PInf => PInf
  | _ => XNaN
  end.

Definition least (a b : xreal) : xreal :=
  match a, b with
  | XNaN, _ | _, XNaN => XNaN
  | NInf, _ | _, NInf => NInf
  | PInf, c | c, PInf => c
  | Fin x, Fin y => Fin (Rmin x y)
  end.

Definition floor (a : xreal) : rounded :=
  match a with
  | Fin x => RInt (Int_part x)
  | PInf => RPosInf
  | NInf => RNegInf
  | XNaN => RNaN
  end.

Definition round (a : xreal) : rounded :=
  match a with
  | Fin x => RInt (Int_part (x + / 2))
  | PInf => RPosInf
  | NInf => RNegInf
  | XNaN => RNaN
  end.

Definition finite (a : xreal) : bool :=
  match a with Fin _ => true | _ => false end.

Definition lift (f : R -> R) (a : xreal) : xreal :=
  match a with Fin x => Fin (f x) | _ => XNaN end.

Definition atan2 (y x : xreal) : xreal :=
  match y, x with
  | XNaN, _ | _, XNaN => XNaN
  | Fin b, Fin a =>
      match sgn a, sgn b with
      | Gt, _ => Fin (atan (b / a))
      | Lt, Lt => Fin (atan (b / a) - PI)
      | Lt, _ => Fin (atan (b / a) + PI)
      | Eq, Lt => Fin (- (PI / 2))
      | Eq, Eq => Fin 0
      | Eq, Gt => Fin (PI / 2)
      end
  | Fin b, PInf => Fin 0
  | Fin b, NInf => if Rlt_dec b 0 then Fin (- PI) else Fin PI
  | PInf, Fin _ => Fin (PI / 2)
  | NInf, Fin _ => Fin (- (PI / 2))
  | PInf, PInf => Fin (PI / 4)
  | PInf, NInf => Fin (3 * PI / 4)
  | NInf, PInf => Fin (- (PI / 4))
  | NInf, NInf => Fin (- (3 * PI / 4))
  end.

End Ideal.

#[export] Instance IdealNumber : JsNumber Ideal.xreal := {|
  of_Z := fun z => Ideal.Fin (IZR z);
  NaN := Ideal.XNaN;
  add := Ideal.plus;
  sub := Ideal.minus;
  mul := Ideal.times;
  div := Ideal.quot;
  rem := Ideal.fmod;
  ltb := Ideal.lt;
  leb := Ideal.le;
  Math_sqrt := Ideal.root;
  Math_min := Ideal.least;
  Math_floor := Ideal.floor;
  Math_round := Ideal.round;
  isFinite := Ideal.finite;
  isNegZero := fun _ => false;
|}.

#[export] Instance IdealTrig : JsTrig Ideal.xreal := {|
  Math_PI := Ideal.Fin PI;
  Math_sin := Ideal.lift sin;
  Math_cos := Ideal.lift cos;
  Math_atan2 := Ideal.atan2;
|}.

(* ===================================================================== *)
(** ** State ([src/state.js]) *)
(* ===================================================================== *)

(** The configuration objects, with the field names of the source.  Grid
    dimensions and the radial count are integers (the panel steps them by
    1); every other numeric field is a [num]. *)

Module Grid.
Record t (num : Type) : Type := mk {
  cols : Z;
  rows : Z;
  cellSize : num;
  offsetX : num;
  offsetY : num;
  symmetry : string;       (* none, horizontal, vertical, both, radial *)
  symmetryCount : Z;       (* for radial symmetry *)
}.
End Grid.

Module Shape.
Record t (num : Type) : Type := mk {
  type : string;
  size : num;
  rotation : num;
  rotationAuto : bool;
  rotationSpeed : num;
  scaleMode : string;      (* none, linear, easeIn, easeOut, easeInOut, step *)
  scaleMin : num;
  scaleMax : num;
  scalePower : num;
  rotateMode : string;     (* none, linear, easeIn, easeOut *)
  rotateMin : num;
  rotateMax : num;
  fillMode : string;       (* solid, gradient, distance, random *)
  fillColor : string;
  fillOpacity : num;
  strokeMode : string;     (* none, solid, gradient, distance *)
  strokeColor : string;
  strokeWeight : num;
  strokeOpacity : num;
  blendMode : string;
}.
End Shape.

Module Pattern.
Record t (num : Type) : Type := mk {
  enabled : bool;
  seed : num;
  noiseScale : num;
  noiseIntensity : num;
}.
End Pattern.

Module Animation.
Record t (num : Type) : Type := mk {
  enabled : bool;
  speed : num;
  loopDuration : num;      (* frames *)
  playing : bool;
  animateSize : bool;
  animateRotation : bool;
  animateColor : bool;
}.
End Animation.

Module Palette.
Record t : Type := mk {
  colors : list string;
}.
End Palette.

(** The ambient state every engine function reads. *)
Record State (num : Type) : Type := mkState {
  grid : Grid.t num;
  shape : Shape.t num;
  pattern : Pattern.t num;
  animation : Animation.t num;
  palette : Palette.t;
  customPaths : nat;         (* customShape.paths.length *)
}.

(** A cell as [applySymmetry] builds it; [rotation] is present on radial
    copies only. *)
Module Cell.
Record t (num : Type) : Type := mk {
  x : num;
  y : num;
  col : Z;
  row : Z;
  dist : num;
  isOriginal : bool;
  rotation : option num;
}.
End Cell.

(** Exceptions, and the result of a call that may throw. *)
Inductive jsError : Type :=
| ReferenceError (identifier : string)
| TypeError (message : string)
| SyntaxError.

Inductive outcome (A : Type) : Type :=
| Ok (a : A)
| Throw (e : jsError).
Arguments Ok {A} a.
Arguments Throw {A} e.

Definition bind {A B : Type} (m : outcome A) (k : A -> outcome B) : outcome B :=
  match m with
  | Ok a => k a
  | Throw e => Throw e
  end.

Notation "'let*' x ':=' m 'in' k" := (bind m (fun x => k))
  (at level 10, x name, m at level 100, k at level 200).

(** A colour slot: a string, [undefined] (an array read out of range) or
    [null] (no stroke). *)
Inductive colorValue : Type :=
| CStr (s : string)
| CUndefined
| CNull.

(* ===================================================================== *)
(** ** Strings: the built-ins [interpolateColor] relies on *)
(* ===================================================================== *)

(** Strings are ASCII, which covers every colour notation the tool reads
    or writes. *)

Open Scope string_scope.

(** [s.slice(from, to)] for literal non-negative bounds. *)
Definition slice (s : string) (from to : nat) : string :=
  substring from (to - from) s.

Definition hexDigitValue (c : ascii) : option Z :=
  let n := Z.of_nat (nat_of_ascii c) in
  if (48 <=? n)%Z && (n <=? 57)%Z then Some (n - 48)%Z          (* 0-9 *)
  else if (97 <=? n)%Z && (n <=? 102)%Z then Some (n - 87)%Z    (* a-f *)
  else if (65 <=? n)%Z && (n <=? 70)%Z then Some (n - 55)%Z     (* A-F *)
  else None.

Definition isWhiteSpace (c : ascii) : bool :=
  let n := nat_of_ascii c in
  ((9 <=? n) && (n <=? 13))%nat || (n =? 32)%nat.

Fixpoint trimStart (s : string) : string :=
  match s with
  | String c s' => if isWhiteSpace c then trimStart s' else s
  | EmptyString => s
  end.

(** The value of the longest prefix of hexadecimal digits, if there is
    at least one digit. *)
Fixpoint hexPrefix (s : string) (acc : option Z) : option Z :=
  match s with
  | String c s' =>
      match hexDigitValue c with
      | Some d =>
          hexPrefix s' (Some (match acc with
                              | Some a => 16 * a + d
                              | None => d
                              end)%Z)
      | None => acc
      end
  | EmptyString => acc
  end.

Definition stripHexMarker (s : string) : string :=
  match s with
  | String "0" (String "x" s') => s'
  | String "0" (String "X" s') => s'
  | _ => s
  end.

(** [parseInt(s, 16)]; [None] is [NaN]. *)
Definition parseInt16 (s : string) : option Z :=
  match trimStart s with
  | String "-" s' => option_map Z.opp (hexPrefix (stripHexMarker s') None)
  | String "+" s' => hexPrefix (stripHexMarker s') None
  | s' => hexPrefix (stripHexMarker s') None
  end.

Definition hexDigit (d : Z) : ascii :=
  ascii_of_nat (Z.to_nat (if (d <? 10)%Z then d + 48 else d + 87)%Z).

Fixpoint hexDigits (fuel : nat) (n : Z) (acc : string) : string :=
  let acc' := String (hexDigit (n mod 16)) acc in
  match fuel with
  | O => acc'
  | S fuel' => if (n <? 16)%Z then acc' else hexDigits fuel' (n / 16) acc'
  end.

(** [n.toString(16)] for the result of a [Math.round]. *)
Definition toString16 (r : rounded) : string :=
  match r with
  | RInt z =>
      let digits := hexDigits (Z.to_nat (Z.log2 (Z.abs z))) (Z.abs z) "" in
      if (z <? 0)%Z then String "-" digits else digits
  | RNaN => "NaN"
  | RPosInf => "Infinity"
  | RNegInf => "-Infinity"
  end.

(** [s.padStart(2, '0')]. *)
Definition padStart2 (s : string) : string :=
  match String.length s with
  | 0%nat => "00"
  | 1%nat => String "0" s
  | _ => s
  end.

(** [colors[i]] for a numeric index: out of range, negative, [NaN] and
    infinite indices all read [undefined]. *)
Definition arrayGet (colors : list string) (i : rounded) : colorValue :=
  match i with
  | RInt z =>
      if (z <? 0)%Z then CUndefined
      else match nth_error colors (Z.to_nat z) with
           | Some c => CStr c
           | None => CUndefined
           end
  | _ => CUndefined
  end.

(** [colors[k % colors.length]] for a cell index [k]: the remainder by
    zero is [NaN], which reads [undefined]. *)
Definition arrayGetMod (colors : list string) (k : nat) : colorValue :=
  match List.length colors with
  | O => CUndefined
  | n => arrayGet colors (RInt (Z.of_nat (k mod n)))
  end.

(** The receiver of a method call: calling [.slice] on [undefined] or
    [null] throws. *)
Definition receiver (c : colorValue) : outcome string :=
  match c with
  | CStr s => Ok s
  | CUndefined => Throw (TypeError "Cannot read properties of undefined")
  | CNull => Throw (TypeError "Cannot read properties of null")
  end.

(* ===================================================================== *)
(** ** The engine ([src/state.js], [src/grid.js]) *)
(* ===================================================================== *)

Section Engine.
Context {num : Type} `{JsNumber num} `{JsTrig num}.

(** [createNoise2D()] of the simplex-noise package. *)
Variable noise2D : num -> num -> num.

Variable st : State num.

Local Open Scope js_scope.

(** *** Easing functions and the distance mappers of [state.js] *)

Definition easings_linear (t : num) : num := t.
Definition easings_easeIn (t : num) : num := t * t.
Definition easings_easeOut (t : num) : num :=
  of_Z 1 - (of_Z 1 - t) * (of_Z 1 - t).
Definition easings_easeInOut (t : num) : num :=
  if t <? dec 1 2 then of_Z 2 * t * t
  else of_Z 1 - Math_pow (of_Z (-2) * t + of_Z 2) 2 / of_Z 2.
Definition easings_step (t : num) : num :=
  if gtb t (dec 1 2) then of_Z 1 else of_Z 0.
Definition easings_swirl (t power : num) : num :=
  Math_sin (t * Math_PI * power) * dec 1 2 + dec 1 2.

Definition calculateScale (distNormalized : num) : num :=
  let mode := Shape.scaleMode (shape st) in
  if mode =? "none" then Shape.size (shape st)
  else
    let t := of_Z 1 - distNormalized in
    let eased :=
      if mode =? "easeIn" then easings_easeIn t
      else if mode =? "easeOut" then easings_easeOut t
      else if mode =? "easeInOut" then easings_easeInOut t
      else if mode =? "step" then easings_step t
      else if mode =? "swirl" then
        easings_swirl t (Shape.scalePower (shape st))
      else easings_linear t in
    Shape.scaleMin (shape st)
    + (Shape.scaleMax (shape st) - Shape.scaleMin (shape st)) * eased.

Definition calculateRotation (distNormalized baseRotation : num) : num :=
  let mode := Shape.rotateMode (shape st) in
  if mode =? "none" then baseRotation
  else
    let t := of_Z 1 - distNormalized in
    let eased :=
      if mode =? "easeIn" then easings_easeIn t
      else if mode =? "easeOut" then easings_easeOut t
      else easings_linear t in
    baseRotation + Shape.rotateMin (shape st)
    + (Shape.rotateMax (shape st) - Shape.rotateMin (shape st)) * eased.

(** *** Distance field *)

Definition getGridCenter : num * num :=
  let g := grid st in
  ((of_Z (Grid.cols g) * Grid.cellSize g) / of_Z 2 + Grid.offsetX g,
   (of_Z (Grid.rows g) * Grid.cellSize g) / of_Z 2 + Grid.offsetY g).

Definition getNormalizedDistance (x y : num) : num :=
  let g := grid st in
  let center := getGridCenter in
  let maxDist :=
    Math_sqrt
      (Math_pow (of_Z (Grid.cols g) * Grid.cellSize g / of_Z 2) 2
       + Math_pow (of_Z (Grid.rows g) * Grid.cellSize g / of_Z 2) 2) in
  let dist :=
    Math_sqrt
      (Math_pow (x - fst center) 2 + Math_pow (y - snd center) 2) in
  Math_min (dist / maxDist) (of_Z 1).

(** *** Symmetry expander *)

(** The values of [i] in [for (let i = 1; i < n; i++)]. *)
Definition radialIndices (n : Z) : list Z :=
  map Z.of_nat (seq 1 (Z.to_nat n - 1)).

Definition applySymmetry (x y : num) (col row : Z) (dist : num)
    (center : num * num) : list (Cell.t num) :=
  let g := grid st in
  let original := Cell.mk x y col row dist true None in
  let horizontal :=
    Cell.mk (fst center * of_Z 2 - x) y
            (Grid.cols g - 1 - col) row dist false None in
  let vertical :=
    Cell.mk x (snd center * of_Z 2 - y)
            col (Grid.rows g - 1 - row) dist false None in
  let mode := Grid.symmetry g in
  if mode =? "horizontal" then [original; horizontal]
  else if mode =? "vertical" then [original; vertical]
  else if mode =? "both" then
    [original; horizontal; vertical;
     Cell.mk (fst center * of_Z 2 - x) (snd center * of_Z 2 - y)
             (Grid.cols g - 1 - col) (Grid.rows g - 1 - row)
             dist false None]
  else if mode =? "radial" then
    let dx := x - fst center in
    let dy := y - snd center in
    let baseAngle := Math_atan2 dy dx in
    let radius := Math_sqrt (dx * dx + dy * dy) in
    original ::
    map (fun i =>
           let angle :=
             baseAngle
             + (Math_PI * of_Z 2 * of_Z i) / of_Z (Grid.symmetryCount g) in
           Cell.mk (fst center + Math_cos angle * radius)
                   (snd center + Math_sin angle * radius)
                   col row dist false
                   (Some ((of_Z 360 * of_Z i)
                          / of_Z (Grid.symmetryCount g))))
        (radialIndices (Grid.symmetryCount g))
  else [original].

(** *** Cell enumerator *)

(** The values of [k] in [for (let k = 0; k < n; k++)]. *)
Definition loopIndices (n : Z) : list Z :=
  map Z.of_nat (seq 0 (Z.to_nat n)).

Definition getGridCells : list (Cell.t num) :=
  let g := grid st in
  let center := getGridCenter in
  flat_map (fun row =>
    flat_map (fun col =>
      let x := of_Z col * Grid.cellSize g + Grid.cellSize g / of_Z 2
               + Grid.offsetX g in
      let y := of_Z row * Grid.cellSize g + Grid.cellSize g / of_Z 2
               + Grid.offsetY g in
      let dist := getNormalizedDistance x y in
      applySymmetry x y col row dist center)
    (loopIndices (Grid.cols g)))
  (loopIndices (Grid.rows g)).

(** *** Size and rotation mappers *)

Definition getNoiseValue (dist time : num) : num :=
  if negb (Pattern.enabled (pattern st)) then dec 1 2
  else
    let scale := Pattern.noiseScale (pattern st) in
    let seed := Pattern.seed (pattern st) in
    let nx := dist * scale * of_Z 10 + seed in
    let ny := time * scale + seed in
    let val := noise2D nx ny in
    (val + of_Z 1) * dec 1 2.

Definition getShapeSize (dist time : num) : num :=
  let baseSize := Grid.cellSize (grid st) * Shape.size (shape st) in
  let scale := calculateScale dist in
  let scale :=
    if Pattern.enabled (pattern st) then
      let noiseVal := getNoiseValue dist time in
      scale * (dec 1 2 + noiseVal * dec 1 2)
    else scale in
  baseSize * scale.

Definition getShapeRotation (dist baseRotation time : num) : num :=
  let rotation := calculateRotation dist baseRotation in
  if Shape.rotationAuto (shape st) then
    rotation + time * of_Z 360 * Shape.rotationSpeed (shape st)
  else rotation.

(** *** Colour mappers *)

Definition parseIntHex (s : string) : num :=
  match parseInt16 s with
  | Some z => of_Z z
  | None => NaN
  end.

Definition interpolateColor (c1 c2 : colorValue) (t : num)
    : outcome string :=
  let* s1 := receiver c1 in
  let r1 := parseIntHex (slice s1 1 3) in
  let g1 := parseIntHex (slice s1 3 5) in
  let b1 := parseIntHex (slice s1 5 7) in
  let* s2 := receiver c2 in
  let r2 := parseIntHex (slice s2 1 3) in
  let g2 := parseIntHex (slice s2 3 5) in
  let b2 := parseIntHex (slice s2 5 7) in
  let r := Math_round (r1 + (r2 - r1) * t) in
  let g := Math_round (g1 + (g2 - g1) * t) in
  let b := Math_round (b1 + (b2 - b1) * t) in
  Ok ("#" ++ padStart2 (toString16 r) ++ padStart2 (toString16 g)
          ++ padStart2 (toString16 b)).

(** [i + 1] for a floored index. *)
Definition nextIndex (i : rounded) : rounded :=
  match i with
  | RInt z => RInt (z + 1)
  | other => other
  end.

Definition getFillColor (dist : num) (index : nat) (time : num)
    : outcome colorValue :=
  let mode := Shape.fillMode (shape st) in
  let colors := Palette.colors (palette st) in
  let last := (Z.of_nat (List.length colors) - 1)%Z in
  if mode =? "solid" then Ok (CStr (Shape.fillColor (shape st)))
  else if mode =? "distance" then
    let t := dist * of_Z last in
    let i := Math_floor t in
    let frac := t - of_rounded i in
    if geb (of_rounded i) (of_Z last) then Ok (arrayGet colors (RInt last))
    else
      let* c := interpolateColor (arrayGet colors i)
                                 (arrayGet colors (nextIndex i)) frac in
      Ok (CStr c)
  else if mode =? "palette" then Ok (arrayGetMod colors index)
  else if mode =? "random" then Ok (arrayGetMod colors (index * 7))
  else Ok (CStr (Shape.fillColor (shape st))).

Definition getStrokeColor (dist : num) (index : nat) : outcome colorValue :=
  if Shape.strokeMode (shape st) =? "none" then Ok CNull
  else if Shape.strokeMode (shape st) =? "solid" then
    Ok (CStr (Shape.strokeColor (shape st)))
  else getFillColor dist index (of_Z 0).

(** *** Animation time *)

(** An identifier that no import, declaration or parameter of the
    enclosing module binds raises a [ReferenceError] when it is read. *)
Definition resolve (scope : list string) (identifier : string)
    : outcome unit :=
  if existsb (String.eqb identifier) scope then Ok tt
  else Throw (ReferenceError identifier).

(** [getAnimationTime], evaluated in a module whose bindings are
    [scope]. *)
Definition getAnimationTime (scope : list string) (frameCount : num)
    : outcome num :=
  let* _ := resolve scope "animation" in
  if negb (Animation.enabled (animation st)) then Ok (of_Z 0)
  else
    let loopFrames := Animation.loopDuration (animation st) in
    let frame := rem frameCount loopFrames in
    Ok (frame / loopFrames).

End Engine.

(* ===================================================================== *)
(** ** Rendering call sites ([src/main.js], [src/export.js]) *)
(* ===================================================================== *)

(** The bindings each module has in scope: its imports and its top-level
    declarations. *)
Definition grid_js_scope : list string :=
  (* import { ... } from './state.js' *)
  ["grid"; "shape"; "canvas"; "calculateScale"; "calculateRotation";
   "palette"; "pattern"; "mask";
  (* import { ... } from 'simplex-noise' *)
   "createNoise2D"; "createNoise3D";
  (* top-level declarations *)
   "noise2D"; "noise3D"; "getGridCenter"; "getNormalizedDistance";
   "getGridCells"; "applySymmetry"; "getShapeSize"; "getShapeRotation";
   "getNoiseValue"; "getFillColor"; "getStrokeColor"; "interpolateColor";
   "getMaskValue"; "updateCanvasSize"; "getAnimationTime"].

Definition main_js_scope : list string :=
  ["p5"; "canvas"; "grid"; "shape"; "pattern"; "animation"; "customShape";
   "mask"; "updateCanvasSize"; "getAnimationTime"; "setupUI"; "refreshUI";
   "setStatus"; "getGridCells"; "getShapeSize"; "getShapeRotation";
   "getFillColor"; "getStrokeColor"; "drawShape"; "drawSVGPath";
   "loadSVGFile"; "parseSVG"; "exportComposition"; "getIsRecording";
   "isSetup"; "frameCount"; "sketch"; "setupDragDrop"; "handleFile";
   "loadImage"].

(** What a cell hands to the renderer: the arguments of [drawShape] (or of
    [drawSVGPath] for a custom shape) and the colours set before it. *)
Module DrawCall.
Record t (num : Type) : Type := mk {
  custom : bool;
  type : string;
  x : num;
  y : num;
  size : num;
  rotation : num;
  fill : colorValue;
  stroke : option string;        (* [None]: noStroke() *)
}.
End DrawCall.

Section Rendering.
Context {num : Type} `{JsNumber num} `{JsTrig num}.
Variable noise2D : num -> num -> num.
Variable st : State num.

Local Open Scope js_scope.

(** [stroke && shape.strokeMode !== 'none'] *)
Definition strokeToApply (stroke : colorValue) : option string :=
  match stroke with
  | CStr s =>
      if (s =? "")%string then None
      else if Shape.strokeMode (shape st) =? "none" then None
      else Some s
  | _ => None
  end.

Definition isCustom : bool :=
  (Shape.type (shape st) =? "custom") && (0 <? customPaths st)%nat.

(** [drawCell] of [main.js]. *)
Definition drawCell (cell : Cell.t num) (index : nat) (time : num)
    : outcome (DrawCall.t num) :=
  let x := Cell.x cell in
  let y := Cell.y cell in
  let dist := Cell.dist cell in
  let size := getShapeSize noise2D st dist time in
  let rotation :=
    getShapeRotation st dist (Shape.rotation (shape st)) time in
  let a := animation st in
  let animated := Animation.enabled a && Animation.playing a in
  let size :=
    if animated && Animation.animateSize a then
      let noise :=
        Math_sin (time * Math_PI * of_Z 2
                  + of_Z (Z.of_nat index) * dec 1 10) * dec 1 2
        + dec 1 2 in
      size * (dec 7 10 + noise * dec 6 10)
    else size in
  let rotation :=
    if animated && Animation.animateRotation a then
      rotation + time * of_Z 360 * Animation.speed a
    else rotation in
  let* fill := getFillColor st dist index time in
  let* stroke := getStrokeColor st dist index in
  Ok (DrawCall.mk isCustom (Shape.type (shape st)) x y size rotation
                  fill (strokeToApply stroke)).

(** The body of [p.draw] of [main.js], from the animation time on. *)
Definition draw (frameCount : num) : outcome (list (DrawCall.t num)) :=
  let* _ := resolve main_js_scope "animation" in
  let* time :=
    if Animation.enabled (animation st) then
      getAnimationTime st grid_js_scope frameCount
    else Ok (of_Z 0) in
  let cells := getGridCells st in
  (fix each (cells : list (Cell.t num)) (i : nat) :=
     match cells with
     | [] => Ok []
     | cell :: rest =>
         let* call := drawCell cell i time in
         let* calls := each rest (S i) in
         Ok (call :: calls)
     end) cells 0%nat.

(** [drawCell] of [export.js]. *)
Definition export_drawCell (cell : Cell.t num) (index : nat)
    (scale time : num) : outcome (DrawCall.t num) :=
  let x := Cell.x cell * scale in
  let y := Cell.y cell * scale in
  let dist := Cell.dist cell in
  let size := getShapeSize noise2D st dist time * scale in
  let rotation :=
    getShapeRotation st dist (Shape.rotation (shape st)) time in
  let a := animation st in
  let size :=
    if Animation.enabled a && Animation.animateSize a then
      let noise :=
        Math_sin (time * Math_PI * of_Z 2
                  + of_Z (Z.of_nat index) * dec 1 10) * dec 1 2
        + dec 1 2 in
      size * (dec 7 10 + noise * dec 6 10)
    else size in
  let rotation :=
    if Animation.enabled a && Animation.animateRotation a then
      rotation + time * of_Z 360
    else rotation in
  let* fill := getFillColor st dist index time in
  let* stroke := getStrokeColor st dist index in
  Ok (DrawCall.mk isCustom (Shape.type (shape st)) x y size rotation
                  fill (strokeToApply stroke)).

End Rendering.

(* ===================================================================== *)
(** ** Persistence ([src/presets.js], [cloneState]/[applyState]) *)
(* ===================================================================== *)

(** The preset code copies the configuration objects without looking at
    their fields, so here they are dynamic values.  An object is its list
    of own properties in insertion order; an array is an object whose
    properties are its indices. *)
Unset Elimination Schemes.
Inductive value (num : Type) : Type :=
| VUndefined
| VNull
| VBool (b : bool)
| VNum (n : num)
| VStr (s : string)
| VObj (isArray : bool) (props : list (string * value num)).
Set Elimination Schemes.
Arguments VUndefined {num}.
Arguments VNull {num}.
Arguments VBool {num} b.
Arguments VStr {num} s.

Definition object (num : Type) : Type := list (string * value num).

(** What a file handed to [importState] contains: a JSON document, given
    by the value it denotes, or text that is not JSON. *)
Inductive fileContent (num : Type) : Type :=
| Json (document : value num)
| NotJson.
Arguments NotJson {num}.

(** The six objects of [state.js] that the preset code touches. *)
Module Store.
Record t (num : Type) : Type := mk {
  canvas : object num;
  grid : object num;
  shape : object num;
  pattern : object num;
  animation : object num;
  palette : object num;
}.
End Store.

Definition string_of_nat (n : nat) : string :=
  NilEmpty.string_of_uint (Nat.to_uint n).

(** The array index a property key denotes, if it is one. *)
Definition indexOfKey (key : string) : option nat :=
  match NilEmpty.uint_of_string key with
  | Some u =>
      let n := Nat.of_uint u in
      if string_of_nat n =? key then Some n else None
  | None => None
  end.

Section Persistence.
Context {num : Type} `{JsNumber num}.


Fixpoint lookup (key : string) (props : object num) : option (value num) :=
  match props with
  | [] => None
  | (k, v) :: rest => if k =? key then Some v else lookup key rest
  end.

(** [obj[key]] *)
Definition getProp (key : string) (props : object num) : value num :=
  match lookup key props with
  | Some v => v
  | None => VUndefined
  end.

(** [obj[key] = v] *)
Fixpoint setProp (key : string) (v : value num) (props : object num)
    : object num :=
  match props with
  | [] => [(key, v)]
  | (k, old) :: rest =>
      if k =? key then (k, v) :: rest else (k, old) :: setProp key v rest
  end.

Fixpoint indexed (from : nat) (items : list (value num)) : object num :=
  match items with
  | [] => []
  | v :: rest => (string_of_nat from, v) :: indexed (S from) rest
  end.

(** An array literal. *)
Definition arrayOf (items : list (value num)) : value num :=
  VObj true (indexed 0 items).

(** [arr.length]: one more than the largest index. *)
Definition arrayLength (props : object num) : nat :=
  fold_right (fun kv len =>
                match indexOfKey (fst kv) with
                | Some i => Nat.max (S i) len
                | None => len
                end) 0%nat props.

(** [v.key] for a key that no built-in prototype defines. *)
Definition getMember (v : value num) (key : string) : outcome (value num) :=
  match v with
  | VUndefined => Throw (TypeError "Cannot read properties of undefined")
  | VNull => Throw (TypeError "Cannot read properties of null")
  | VObj _ props => Ok (getProp key props)
  | _ => Ok VUndefined
  end.

Definition truthy (v : value num) : bool :=
  match v with
  | VUndefined | VNull => false
  | VBool b => b
  | VNum n => ltb n (of_Z 0) || ltb (of_Z 0) n
  | VStr s => negb (s =? "")
  | VObj _ _ => true
  end.

(** *** The JSON built-ins *)

(** The value that [JSON.parse(JSON.stringify(v))] builds; [None] where
    [JSON.stringify] yields [undefined].  A number that is not finite is
    written as [null], negative zero as [0], and a finite double is read
    back as itself.  An [undefined] property is left out of an object
    and is [null] in an array; an array keeps its indexed elements
    only. *)
Fixpoint toJSON (v : value num) : option (value num) :=
  match v with
  | VUndefined => None
  | VNull => Some VNull
  | VBool b => Some (VBool b)
  | VNum n =>
      Some (if isFinite n
            then VNum (if isNegZero n then of_Z 0 else n)
            else VNull)
  | VStr s => Some (VStr s)
  | VObj isArray props =>
      let converted := map (fun kv => (fst kv, toJSON (snd kv))) props in
      if isArray then
        Some (arrayOf
                (map (fun i =>
                        match find (fun kv => fst kv =? string_of_nat i)
                                   converted with
                        | Some (_, Some j) => j
                        | _ => VNull
                        end)
                     (seq 0 (arrayLength props))))
      else
        Some (VObj false
                (flat_map (fun kv =>
                             match snd kv with
                             | Some j => [(fst kv, j)]
                             | None => []
                             end) converted))
  end.

Definition JSON_stringify (v : value num) : fileContent num :=
  match toJSON v with
  | Some document => Json document
  | None => NotJson
  end.

Definition JSON_parse (text : fileContent num) : outcome (value num) :=
  match text with
  | Json document => Ok document
  | NotJson => Throw SyntaxError
  end.

(** *** [state.js]: deep clone and deep merge *)

Definition cloneState (obj : value num) : outcome (value num) :=
  JSON_parse (JSON_stringify obj).

(** [Object.keys(source)] paired with [source[key]]. *)
Definition charEntries (s : string) : object num :=
  indexed 0 (map (fun c => VStr (String c "")) (list_ascii_of_string s)).

(** One step of the loop over [Object.keys(source)]: merge into a
    nested object, or assign.  ([applyState] is only ever called on a
    truthy source, so [Object.keys] does not throw.) *)
Definition assign (merge : object num -> value num -> object num)
    (target : object num) (entry : string * value num) : object num :=
  let key := fst entry in
  match snd entry, getProp key target with
  | VObj false _, VObj targetIsArray targetProps =>
      setProp key (VObj targetIsArray (merge targetProps (snd entry)))
              target
  | _, _ => setProp key (snd entry) target
  end.

Fixpoint applyState (target : object num) (source : value num)
    {struct source} : object num :=
  match source with
  | VObj _ props => fold_left (assign applyState) props target
  | VStr s =>
      (* the characters of a string are not objects: plain assignments *)
      fold_left (fun target entry => setProp (fst entry) (snd entry) target)
                (charEntries s) target
  | _ => target
  end.

(** *** [presets.js] *)

(** [[...v]]: the elements of an array or the characters of a string;
    anything else is not iterable. *)
Definition spread (v : value num) : outcome (list (value num)) :=
  match v with
  | VObj true props =>
      Ok (map (fun i => getProp (string_of_nat i) props)
              (seq 0 (arrayLength props)))
  | VStr s => Ok (map snd (charEntries s))
  | _ => Throw (TypeError "not iterable")
  end.

Definition exportCurrentState (s : Store.t num)
    : outcome (fileContent num) :=
  let* grid := cloneState (VObj false (Store.grid s)) in
  let* shape := cloneState (VObj false (Store.shape s)) in
  let* pattern := cloneState (VObj false (Store.pattern s)) in
  let* animation := cloneState (VObj false (Store.animation s)) in
  let* colors := spread (getProp "colors" (Store.palette s)) in
  let data :=
    VObj false
      [("grid", grid); ("shape", shape); ("pattern", pattern);
       ("animation", animation);
       ("palette", VObj false [("colors", arrayOf colors)]);
       ("canvas",
        VObj false
          [("background", getProp "background" (Store.canvas s))])] in
  Ok (JSON_stringify data).

(** Statements that mutate the state objects and may throw half-way:
    the store reached so far is kept when they do. *)
Definition command : Type := Store.t num -> Store.t num * outcome unit.

Definition skip : command := fun s => (s, Ok tt).

Definition andThen (c1 c2 : command) : command :=
  fun s =>
    match c1 s with
    | (s', Ok _) => c2 s'
    | (s', Throw e) => (s', Throw e)
    end.

(** Evaluate an expression, then run the statement that uses it. *)
Definition eval {A : Type} (e : outcome A) (k : A -> command) : command :=
  fun s =>
    match e with
    | Ok a => k a s
    | Throw err => (s, Throw err)
    end.

(** [if (v) c] *)
Definition whenTruthy (v : value num) (c : command) : command :=
  if truthy v then c else skip.

Definition mergeInto (field : string) (source : value num) : command :=
  fun s =>
    let merged target := applyState target source in
    (if field =? "grid" then
       Store.mk (Store.canvas s) (merged (Store.grid s)) (Store.shape s)
                (Store.pattern s) (Store.animation s) (Store.palette s)
     else if field =? "shape" then
       Store.mk (Store.canvas s) (Store.grid s) (merged (Store.shape s))
                (Store.pattern s) (Store.animation s) (Store.palette s)
     else if field =? "pattern" then
       Store.mk (Store.canvas s) (Store.grid s) (Store.shape s)
                (merged (Store.pattern s)) (Store.animation s)
                (Store.palette s)
     else if field =? "animation" then
       Store.mk (Store.canvas s) (Store.grid s) (Store.shape s)
                (Store.pattern s) (merged (Store.animation s))
                (Store.palette s)
     else
       Store.mk (merged (Store.canvas s)) (Store.grid s) (Store.shape s)
                (Store.pattern s) (Store.animation s) (Store.palette s),
     Ok tt).

(** [palette.colors = items] *)
Definition setPaletteColors (items : list (value num)) : command :=
  fun s =>
    (Store.mk (Store.canvas s) (Store.grid s) (Store.shape s)
              (Store.pattern s) (Store.animation s)
              (setProp "colors" (arrayOf items) (Store.palette s)),
     Ok tt).

Definition applyPreset (preset : value num) : command :=
  andThen (eval (getMember preset "grid") (fun v =>
             whenTruthy v (mergeInto "grid" v)))
 (andThen (eval (getMember preset "shape") (fun v =>
             whenTruthy v (mergeInto "shape" v)))
 (andThen (eval (getMember preset "pattern") (fun v =>
             whenTruthy v (mergeInto "pattern" v)))
 (andThen (eval (getMember preset "animation") (fun v =>
             whenTruthy v (mergeInto "animation" v)))
 (andThen (eval (getMember preset "palette") (fun pal =>
             whenTruthy pal
               (eval (getMember pal "colors") (fun colors =>
                  whenTruthy colors
                    (eval (spread colors) setPaletteColors)))))
          (eval (getMember preset "canvas") (fun v =>
             whenTruthy v (mergeInto "canvas" v))))))).

(** [importState]: the store afterwards and the returned flag.  A
    preset that throws half-way has been applied up to that point. *)
Definition importState (json : fileContent num) (s : Store.t num)
    : Store.t num * bool :=
  match JSON_parse json with
  | Throw _ => (s, false)
  | Ok data =>
      match applyPreset data s with
      | (s', Ok _) => (s', true)
      | (s', Throw _) => (s', false)
      end
  end.

(** Export, then import what was exported. *)
Definition exportThenImport (s : Store.t num)
    : outcome (Store.t num * bool) :=
  let* json := exportCurrentState s in
  Ok (importState json s).

(** The initial objects of [state.js]. *)
Definition defaultStore : Store.t num :=
  let n (z : Z) : value num := VNum (of_Z z) in
  let d (a b : Z) : value num := VNum (dec a b) in
  (Store.mk
    [("width", n 800); ("height", n 800); ("scale", d 95 100);
     ("ratio", VStr "1:1"); ("background", VStr "#111111");
     ("showGrid", VBool false); ("gridColor", VStr "#333333")]
    [("cols", n 12); ("rows", n 12); ("cellSize", n 60);
     ("offsetX", n 0); ("offsetY", n 0); ("symmetry", VStr "none");
     ("symmetryCount", n 6)]
    [("type", VStr "circle"); ("size", d 8 10); ("rotation", n 0);
     ("rotationAuto", VBool false); ("rotationSpeed", d 1 2);
     ("scaleMode", VStr "linear"); ("scaleMin", d 2 10);
     ("scaleMax", n 1); ("scalePower", n 1);
     ("rotateMode", VStr "none"); ("rotateMin", n 0);
     ("rotateMax", n 360);
     ("fillMode", VStr "solid"); ("fillColor", VStr "#4a9eff");
     ("fillOpacity", n 1); ("strokeMode", VStr "none");
     ("strokeColor", VStr "#ffffff"); ("strokeWeight", n 1);
     ("strokeOpacity", n 1); ("blendMode", VStr "blend")]
    [("enabled", VBool false); ("seed", n 1); ("noiseScale", d 1 10);
     ("noiseIntensity", d 1 2); ("noiseOctaves", n 1);
     ("seedRandom", VBool true)]
    [("enabled", VBool false); ("speed", n 1); ("loopDuration", n 120);
     ("currentFrame", n 0); ("playing", VBool false);
     ("record", VBool false); ("animateSize", VBool true);
     ("animateRotation", VBool false); ("animateColor", VBool false);
     ("animatePosition", VBool false); ("sizeRange", d 3 10);
     ("rotationRange", n 180); ("colorShift", d 1 10);
     ("positionRange", n 10)]
    [("colors",
      arrayOf [VStr "#4a9eff"; VStr "#ff6b6b"; VStr "#4ecdc4";
               VStr "#ffe66d"; VStr "#a8e6cf"]);
     ("useGradient", VBool false); ("gradientAngle", n 0)])%Z.

End Persistence.

(* ===================================================================== *)
(** ** Configurations used in the statements *)
(* ===================================================================== *)

Section Configurations.
Context {num : Type} `{JsNumber num}.

(** The initial values of [state.js]. *)
Definition defaultGrid : Grid.t num :=
  Grid.mk 12 12 (of_Z 60) (of_Z 0) (of_Z 0) "none" 6.

Definition defaultShape : Shape.t num :=
  Shape.mk "circle" (dec 8 10) (of_Z 0) false (dec 1 2)
           "linear" (dec 2 10) (of_Z 1) (of_Z 1)
           "none" (of_Z 0) (of_Z 360)
           "solid" "#4a9eff" (of_Z 1)
           "none" "#ffffff" (of_Z 1) (of_Z 1)
           "blend".

Definition defaultPattern : Pattern.t num :=
  Pattern.mk false (of_Z 1) (dec 1 10) (dec 1 2).

Definition defaultAnimation : Animation.t num :=
  Animation.mk false (of_Z 1) (of_Z 120) false true false false.

Definition defaultPalette : Palette.t :=
  Palette.mk ["#4a9eff"; "#ff6b6b"; "#4ecdc4"; "#ffe66d"; "#a8e6cf"].

Definition defaultState : State num :=
  mkState defaultGrid defaultShape defaultPattern defaultAnimation
          defaultPalette 0.

(** Assignments to single fields. *)
Definition withGrid (g : Grid.t num) (st : State num) : State num :=
  mkState g (shape st) (pattern st) (animation st) (palette st)
          (customPaths st).

Definition withShape (s : Shape.t num) (st : State num) : State num :=
  mkState (grid st) s (pattern st) (animation st) (palette st)
          (customPaths st).

Definition withAnimation (a : Animation.t num) (st : State num)
    : State num :=
  mkState (grid st) (shape st) (pattern st) a (palette st)
          (customPaths st).

Definition withColors (colors : list string) (st : State num)
    : State num :=
  mkState (grid st) (shape st) (pattern st) (animation st)
          (Palette.mk colors) (customPaths st).

Definition setSymmetry (mode : string) (count : Z) (g : Grid.t num)
    : Grid.t num :=
  Grid.mk (Grid.cols g) (Grid.rows g) (Grid.cellSize g) (Grid.offsetX g)
          (Grid.offsetY g) mode count.

Definition setCellSize (c : num) (g : Grid.t num) : Grid.t num :=
  Grid.mk (Grid.cols g) (Grid.rows g) c (Grid.offsetX g)
          (Grid.offsetY g) (Grid.symmetry g) (Grid.symmetryCount g).

Definition setScaleMode (mode : string) (s : Shape.t num) : Shape.t num :=
  Shape.mk (Shape.type s) (Shape.size s) (Shape.rotation s)
           (Shape.rotationAuto s) (Shape.rotationSpeed s)
           mode (Shape.scaleMin s) (Shape.scaleMax s) (Shape.scalePower s)
           (Shape.rotateMode s) (Shape.rotateMin s) (Shape.rotateMax s)
           (Shape.fillMode s) (Shape.fillColor s) (Shape.fillOpacity s)
           (Shape.strokeMode s) (Shape.strokeColor s)
           (Shape.strokeWeight s) (Shape.strokeOpacity s)
           (Shape.blendMode s).

Definition setFillMode (mode : string) (s : Shape.t num) : Shape.t num :=
  Shape.mk (Shape.type s) (Shape.size s) (Shape.rotation s)
           (Shape.rotationAuto s) (Shape.rotationSpeed s)
           (Shape.scaleMode s) (Shape.scaleMin s) (Shape.scaleMax s)
           (Shape.scalePower s)
           (Shape.rotateMode s) (Shape.rotateMin s) (Shape.rotateMax s)
           mode (Shape.fillColor s) (Shape.fillOpacity s)
           (Shape.strokeMode s) (Shape.strokeColor s)
           (Shape.strokeWeight s) (Shape.strokeOpacity s)
           (Shape.blendMode s).

Definition setEnabled (b : bool) (a : Animation.t num) : Animation.t num :=
  Animation.mk b (Animation.speed a) (Animation.loopDuration a)
               (Animation.playing a) (Animation.animateSize a)
               (Animation.animateRotation a) (Animation.animateColor a).

(** [cell.rotation = r] *)
Definition setTag (r : option num) (c : Cell.t num) : Cell.t num :=
  Cell.mk (Cell.x c) (Cell.y c) (Cell.col c) (Cell.row c) (Cell.dist c)
          (Cell.isOriginal c) r.

(** What the symmetry table of the data model promises per base cell. *)
Definition instancesPerCell (g : Grid.t num) : Z :=
  let mode := Grid.symmetry g in
  if mode =? "horizontal" then 2
  else if mode =? "vertical" then 2
  else if mode =? "both" then 4
  else if mode =? "radial" then Grid.symmetryCount g
  else 1.
(** The mode strings the panel offers. *)
Definition knownScaleMode (mode : string) : Prop :=
  mode = "none" \/ mode = "linear" \/ mode = "easeIn" \/ mode = "easeOut"
  \/ mode = "easeInOut" \/ mode = "step" \/ mode = "swirl".

Definition knownFillMode (mode : string) : Prop :=
  mode = "solid" \/ mode = "distance" \/ mode = "palette"
  \/ mode = "random".

Definition knownSymmetry (mode : string) : Prop :=
  mode = "none" \/ mode = "horizontal" \/ mode = "vertical"
  \/ mode = "both" \/ mode = "radial".
End Configurations.

(* ===================================================================== *)
(** ** Concrete inputs *)
(* ===================================================================== *)

Module Inputs.
Local Open Scope float_scope.

(** The default configuration with radial symmetry of count 4. *)
Definition radial4 : State float :=
  withGrid (setSymmetry "radial" 4 defaultGrid) defaultState.

(** The default configuration with [grid.cellSize = 0]. *)
Definition zeroCellSize : State float :=
  withGrid (setCellSize 0 defaultGrid) defaultState.

(** Distance-gradient fill over a palette written in upper case. *)
Definition upperCasePalette : State float :=
  withColors ["#FF0000"; "#00FF00"]
             (withShape (setFillMode "distance" defaultShape)
                        defaultState).

(** Distance-gradient fill over the default palette. *)
Definition gradient : State float :=
  withShape (setFillMode "distance" defaultShape) defaultState.

(** Index-scattered fill over the default palette of five colours. *)
Definition scattered : State float :=
  withShape (setFillMode "random" defaultShape) defaultState.

(** The default configuration with the animation switched on. *)
Definition animated : State float :=
  withAnimation (setEnabled true defaultAnimation) defaultState.

(** A preset file whose cell size is written [1e999], which
    [JSON.parse] reads as [Infinity]. *)
Definition overflowPreset : fileContent float :=
  Json (VObj false [("grid", VObj false [("cellSize", VNum infinity)])]).

(** The store after importing it into the initial state. *)
Definition overflowStore : Store.t float :=
  fst (importState overflowPreset defaultStore).

(** A preset file whose horizontal offset is written [-0]. *)
Definition negativeZeroPreset : fileContent float :=
  Json (VObj false [("grid", VObj false [("offsetX", VNum (-0))])]).
End Inputs.

(* ===================================================================== *)
(** ** Colour notation *)
(* ===================================================================== *)

Definition isHexDigit (c : ascii) : bool :=
  match hexDigitValue c with
  | Some _ => true
  | None => false
  end.

(** A colour written as [#] and six hexadecimal digits, in either case. *)
Definition isHexColor (s : string) : bool :=
  match s with
  | String "#" digits =>
      (String.length digits =? 6)%nat
      && forallb isHexDigit (list_ascii_of_string digits)
  | _ => false
  end.

Definition toLowerAscii (c : ascii) : ascii :=
  let n := nat_of_ascii c in
  if ((65 <=? n) && (n <=? 90))%nat then ascii_of_nat (n + 32) else c.

(** [s.toLowerCase()] *)
Fixpoint toLowerCase (s : string) : string :=
  match s with
  | String c s' => String (toLowerAscii c) (toLowerCase s')
  | EmptyString => EmptyString
  end.

(** The three channels [interpolateColor] reads from a colour. *)
Definition channels (s : string) : option (Z * Z * Z) :=
  match parseInt16 (slice s 1 3), parseInt16 (slice s 3 5),
        parseInt16 (slice s 5 7) with
  | Some r, Some g, Some b => Some (r, g, b)
  | _, _, _ => None
  end.

(** A channel as [interpolateColor] prints it. *)
Definition hex2 (z : Z) : string := padStart2 (toString16 (RInt z)).

(** The linear blend of two channel values, rounded to the nearest
    integer with ties upwards. *)
Definition blend (v1 v2 : Z) (t : R) : Z :=
  Int_part (IZR v1 + (IZR v2 - IZR v1) * t + / 2)%R.

(** Every character, and the check that printing a parsed pair of digits
    gives the pair back in lower case. *)
Definition allAscii : list ascii := map ascii_of_nat (seq 0 256).

Definition channelOk (a b : ascii) : bool :=
  if isHexDigit a && isHexDigit b then
    match parseInt16 (String a (String b "")) with
    | Some z =>
        (hex2 z =? String (toLowerAscii a) (String (toLowerAscii b) ""))
    | None => false
    end
  else true.

(** The exact-arithmetic counterparts of the concrete inputs. *)
Module IdealInputs.
Definition gradient : State Ideal.xreal :=
  withShape (setFillMode "distance" defaultShape) defaultState.

Definition scattered : State Ideal.xreal :=
  withShape (setFillMode "random" defaultShape) defaultState.

Definition uniform : State Ideal.xreal :=
  withShape (setScaleMode "none" defaultShape) defaultState.

Definition both2x3 : State Ideal.xreal :=
  withGrid (Grid.mk 2 3 (of_Z 60) (of_Z 0) (of_Z 0) "both" 6) defaultState.

(** Mode strings that no [switch] knows. *)
Definition unknownModes : State Ideal.xreal :=
  withGrid (setSymmetry "kaleidoscope" 6 defaultGrid)
    (withShape (setScaleMode "bounce" (setFillMode "rainbow" defaultShape))
               defaultState).

(** A noise sampler that is 0 everywhere. *)
Definition flatNoise (x y : Ideal.xreal) : Ideal.xreal := Ideal.Fin 0.
End IdealInputs.

(* ===================================================================== *)
(** ** Values that JSON can write *)
(* ===================================================================== *)

Section Representable.
Context {num : Type} `{JsNumber num}.

Fixpoint keysDistinct (keys : list string) : bool :=
  match keys with
  | [] => true
  | k :: rest => negb (existsb (String.eqb k) rest) && keysDistinct rest
  end.

(** The keys of an array without holes or named properties:
    [from], [from + 1], ... in order. *)
Fixpoint keysCount (keys : list string) (from : nat) : bool :=
  match keys with
  | [] => true
  | k :: rest => (k =? string_of_nat from) && keysCount rest (S from)
  end.

(** A value that [JSON.stringify] writes without loss: its numbers are
    finite and not [-0], nothing in it is [undefined], its arrays are
    dense and its objects have each key once. *)
Fixpoint representable (v : value num) : bool :=
  match v with
  | VUndefined => false
  | VNull | VBool _ | VStr _ => true
  | VNum n => isFinite n && negb (isNegZero n)
  | VObj isArray props =>
      forallb (fun kv => representable (snd kv)) props
      && (if isArray then keysCount (map fst props) 0
          else keysDistinct (map fst props))
  end.

(** A state whose persisted part JSON can write: the four configuration
    objects, the palette colours (an array) and the canvas
    background. *)
Definition persistable (s : Store.t num) : bool :=
  representable (VObj false (Store.grid s))
  && representable (VObj false (Store.shape s))
  && representable (VObj false (Store.pattern s))
  && representable (VObj false (Store.animation s))
  && match getProp "colors" (Store.palette s) with
     | VObj true items => representable (VObj true items)
     | _ => false
     end
  && representable (getProp "background" (Store.canvas s)).
End Representable.

(* ===================================================================== *)
(** ** Further configuration helpers and the SVG shape list *)
(* ===================================================================== *)

(** [Math.abs], which only [updateCanvasSize] uses. *)
Class JsAbs (num : Type) : Type := {
  Math_abs : num -> num;
}.

#[export] Instance FloatAbs : JsAbs float := {|
  Math_abs := PrimFloat.abs;
|}.

#[export] Instance IdealAbs : JsAbs Ideal.xreal := {|
  Math_abs := fun a =>
    match a with
    | Ideal.Fin x => Ideal.Fin (Rabs x)
    | Ideal.XNaN => Ideal.XNaN
    | _ => Ideal.PInf
    end;
|}.

(** The mask object of [state.js]; [image] is [null] until a file is
    dropped, and then holds the image's width and height. *)
Module Mask.
Record t (num : Type) : Type := mk {
  enabled : bool;
  image : option (num * num);
}.
End Mask.

(** An entry of the list [exportSVG] hands to [generateSVG]. *)
Module SvgShape.
Record t (num : Type) : Type := mk {
  type : string;
  x : num;
  y : num;
  size : num;
  rotation : num;
  fill : colorValue;
  stroke : colorValue;
  strokeWidth : num;
  opacity : num;
}.
End SvgShape.

Section MoreEngine.
Context {num : Type} `{JsNumber num} `{JsTrig num} `{JsAbs num}.
Variable noise2D : num -> num -> num.
Variable st : State num.

Local Open Scope js_scope.

Definition withPattern (p : Pattern.t num) (s : State num) : State num :=
  mkState (grid s) (shape s) p (animation s) (palette s) (customPaths s).

Definition setNoiseIntensity (k : num) (p : Pattern.t num) : Pattern.t num :=
  Pattern.mk (Pattern.enabled p) (Pattern.seed p) (Pattern.noiseScale p) k.

Definition setAnimateColor (b : bool) (a : Animation.t num)
    : Animation.t num :=
  Animation.mk (Animation.enabled a) (Animation.speed a)
               (Animation.loopDuration a) (Animation.playing a)
               (Animation.animateSize a) (Animation.animateRotation a) b.

(** The position [getGridCells] gives to a column and to a row. *)
Definition cellX (col : Z) : num :=
  of_Z col * Grid.cellSize (grid st) + Grid.cellSize (grid st) / of_Z 2
  + Grid.offsetX (grid st).

Definition cellY (row : Z) : num :=
  of_Z row * Grid.cellSize (grid st) + Grid.cellSize (grid st) / of_Z 2
  + Grid.offsetY (grid st).

(** [updateCanvasSize]: the new [canvas.width] and [canvas.height]. *)
Definition updateCanvasSize : num * num :=
  let g := grid st in
  (of_Z (Grid.cols g) * Grid.cellSize g
   + Math_abs (Grid.offsetX g) * of_Z 2,
   of_Z (Grid.rows g) * Grid.cellSize g
   + Math_abs (Grid.offsetY g) * of_Z 2).

(** [mx < 0 || mx >= imgW] for a floored coordinate. *)
Definition outside (m : rounded) (bound : num) : bool :=
  ltb (of_rounded m) (of_Z 0) || geb (of_rounded m) bound.

(** [getMaskValue], for a canvas of the given width and height. *)
Definition getMaskValue (mask : Mask.t num) (canvasWidth canvasHeight : num)
    (x y : num) : num :=
  match Mask.image mask with
  | None => of_Z 1
  | Some (imgW, imgH) =>
      if negb (Mask.enabled mask) then of_Z 1
      else
        let mx := Math_floor ((x / canvasWidth) * imgW) in
        let my := Math_floor ((y / canvasHeight) * imgH) in
        if outside mx imgW || outside my imgH then of_Z 1
        else of_Z 1
  end.

(** The loop of [exportSVG] of [export.js]: one shape per cell. *)
Definition exportSVG_shape (cell : Cell.t num) (i : nat)
    : outcome (SvgShape.t num) :=
  let dist := Cell.dist cell in
  let size := getShapeSize noise2D st dist (of_Z 0) * Shape.size (shape st) in
  let rotation :=
    getShapeRotation st dist (Shape.rotation (shape st)) (of_Z 0) in
  let* fill := getFillColor st dist i (of_Z 0) in
  let* stroke := getStrokeColor st dist i in
  Ok (SvgShape.mk (Shape.type (shape st)) (Cell.x cell) (Cell.y cell)
                  size rotation fill stroke
                  (if negb (Shape.strokeMode (shape st) =? "none")
                   then Shape.strokeWeight (shape st) else of_Z 0)
                  (Shape.fillOpacity (shape st))).

Definition exportSVG_shapes : outcome (list (SvgShape.t num)) :=
  (fix each (cells : list (Cell.t num)) (i : nat) :=
     match cells with
     | [] => Ok []
     | cell :: rest =>
         let* s := exportSVG_shape cell i in
         let* shapes := each rest (S i) in
         Ok (s :: shapes)
     end) (getGridCells st) 0%nat.

(** The loop of [exportPNG] of [export.js]: every cell at time 0. *)
Definition exportPNG_calls (scale : num)
    : outcome (list (DrawCall.t num)) :=
  (fix each (cells : list (Cell.t num)) (i : nat) :=
     match cells with
     | [] => Ok []
     | cell :: rest =>
         let* call := export_drawCell noise2D st cell i scale (of_Z 0) in
         let* calls := each rest (S i) in
         Ok (call :: calls)
     end) (getGridCells st) 0%nat.

End MoreEngine.

(** Checks behind the range of a channel: two hexadecimal digits parse to
    a value of 0 to 255, and such a value prints as two hexadecimal
    digits. *)
Definition channelInRange (a b : ascii) : bool :=
  if isHexDigit a && isHexDigit b then
    match parseInt16 (String a (String b "")) with
    | Some z => (0 <=? z)%Z && (z <=? 255)%Z
    | None => false
    end
  else true.

Definition printsTwoDigits (z : Z) : bool :=
  match hex2 z with
  | String a (String b "") => isHexDigit a && isHexDigit b
  | _ => false
  end.

(** Further inputs in exact arithmetic. *)
Module MoreInputs.
(** The default configuration with the noise pattern switched on. *)
Definition patterned : State Ideal.xreal :=
  withPattern (Pattern.mk true (of_Z 1) (dec 1 10) (dec 1 2)) defaultState.

(** Rotation by distance, linear from 0 to 360 degrees. *)
Definition rotating : State Ideal.xreal :=
  withShape
    (Shape.mk "circle" (dec 8 10) (of_Z 0) false (dec 1 2)
              "linear" (dec 2 10) (of_Z 1) (of_Z 1)
              "linear" (of_Z 0) (of_Z 360)
              "solid" "#4a9eff" (of_Z 1)
              "distance" "#ffffff" (of_Z 1) (of_Z 1)
              "blend")
    defaultState.

(** The default grid under horizontal symmetry, and under radial
    symmetry of count 6. *)
Definition horizontal : State Ideal.xreal :=
  withGrid (setSymmetry "horizontal" 6 defaultGrid) defaultState.

Definition radial6 : State Ideal.xreal :=
  withGrid (setSymmetry "radial" 6 defaultGrid) defaultState.

(** Distance-gradient fill on a grid whose cell size is 0. *)
Definition collapsedGradient : State Ideal.xreal :=
  withGrid (setCellSize (of_Z 0) defaultGrid) IdealInputs.gradient.

(** The default grid moved 20 to the right and 10 down. *)
Definition shifted : State Ideal.xreal :=
  withGrid (Grid.mk 12 12 (of_Z 60) (of_Z 20) (of_Z 10) "none" 6)
           defaultState.

(** The first two cells the default grid emits under horizontal
    symmetry: the cell of column 0, row 0 and its mirror. *)
Definition firstCell : Cell.t Ideal.xreal :=
  Cell.mk (cellX horizontal 0) (cellY horizontal 0) 0 0
          (getNormalizedDistance horizontal (cellX horizontal 0)
                                 (cellY horizontal 0))
          true None.

Definition firstMirror : Cell.t Ideal.xreal :=
  Cell.mk (sub (mul (fst (getGridCenter horizontal)) (of_Z 2))
               (cellX horizontal 0))
          (cellY horizontal 0) 11 0
          (getNormalizedDistance horizontal (cellX horizontal 0)
                                 (cellY horizontal 0))
          false None.
End MoreInputs.

(* ===================================================================== *)
(** ** Presets ([src/presets.js]) *)
(* ===================================================================== *)

(** The user presets object.  Assigning an object to the key
    ["__proto__"] does not create a property but replaces the prototype,
    whose properties are then found by every later read. *)
Module UserPresets.
Record t (num : Type) : Type := mk {
  own : object num;
  proto : option (object num);
}.
End UserPresets.

(** The names [Object.prototype] defines.  Reading one of them from an
    object without an own property of that name yields an inherited
    member, which is truthy and has none of the members a preset has. *)
Definition objectPrototypeNames : list string :=
  ["constructor"; "__defineGetter__"; "__defineSetter__"; "hasOwnProperty";
   "__lookupGetter__"; "__lookupSetter__"; "isPrototypeOf";
   "propertyIsEnumerable"; "toString"; "valueOf"; "__proto__";
   "toLocaleString"].

Section Presets.
Context {num : Type} `{JsNumber num}.

Definition num_ (z : Z) : value num := VNum (of_Z z).
Definition dec_ (n d : Z) : value num := VNum (dec n d).
Definition colors_ (cs : list string) : value num :=
  VObj false [("colors", arrayOf (map VStr cs))].

Definition builtInPresets : object num :=
  [("Radial Gradient",
    VObj false
      [("grid", VObj false [("cols", num_ 15); ("rows", num_ 15);
                            ("cellSize", num_ 40);
                            ("symmetry", VStr "radial");
                            ("symmetryCount", num_ 8)]);
       ("shape", VObj false [("type", VStr "circle"); ("size", dec_ 9 10);
                             ("scaleMode", VStr "easeOut");
                             ("scaleMin", dec_ 1 10);
                             ("scaleMax", num_ 1)]);
       ("palette", colors_ ["#ff6b6b"; "#feca57"; "#48dbfb"; "#ff9ff3";
                            "#54a0ff"])]);
   ("Geometric Mandala",
    VObj false
      [("grid", VObj false [("cols", num_ 12); ("rows", num_ 12);
                            ("cellSize", num_ 50);
                            ("symmetry", VStr "radial");
                            ("symmetryCount", num_ 12)]);
       ("shape", VObj false [("type", VStr "hexagon"); ("size", dec_ 7 10);
                             ("rotation", num_ 30);
                             ("scaleMode", VStr "linear");
                             ("scaleMin", dec_ 3 10);
                             ("scaleMax", dec_ 9 10)]);
       ("palette", colors_ ["#2d3436"; "#636e72"; "#b2bec3"; "#dfe6e9";
                            "#74b9ff"])]);
   ("Organic Swirl",
    VObj false
      [("grid", VObj false [("cols", num_ 20); ("rows", num_ 20);
                            ("cellSize", num_ 30);
                            ("symmetry", VStr "none")]);
       ("shape", VObj false [("type", VStr "circle"); ("size", dec_ 6 10);
                             ("scaleMode", VStr "swirl");
                             ("scaleMin", dec_ 2 10);
                             ("scaleMax", num_ 1);
                             ("scalePower", num_ 2)]);
       ("pattern", VObj false [("enabled", VBool true);
                               ("noiseScale", dec_ 2 10);
                               ("noiseIntensity", dec_ 6 10);
                               ("seed", num_ 42)]);
       ("palette", colors_ ["#00b894"; "#00cec9"; "#0984e3"; "#6c5ce7";
                            "#fd79a8"])]);
   ("Star Burst",
    VObj false
      [("grid", VObj false [("cols", num_ 10); ("rows", num_ 10);
                            ("cellSize", num_ 60);
                            ("symmetry", VStr "radial");
                            ("symmetryCount", num_ 6)]);
       ("shape", VObj false [("type", VStr "star"); ("size", dec_ 8 10);
                             ("rotation", num_ 0);
                             ("scaleMode", VStr "easeIn");
                             ("scaleMin", dec_ 1 10);
                             ("scaleMax", dec_ 12 10)]);
       ("palette", colors_ ["#ffeaa7"; "#fdcb6e"; "#e17055"; "#d63031";
                            "#e84393"])]);
   ("Minimal Cross",
    VObj false
      [("grid", VObj false [("cols", num_ 8); ("rows", num_ 8);
                            ("cellSize", num_ 70);
                            ("symmetry", VStr "both")]);
       ("shape", VObj false [("type", VStr "cross"); ("size", dec_ 6 10);
                             ("rotation", num_ 45);
                             ("scaleMode", VStr "linear");
                             ("scaleMin", dec_ 4 10);
                             ("scaleMax", num_ 1)]);
       ("palette", colors_ ["#2d3436"; "#636e72"; "#b2bec3"; "#dfe6e9";
                            "#ffffff"])]);
   ("Triangular Flow",
    VObj false
      [("grid", VObj false [("cols", num_ 16); ("rows", num_ 16);
                            ("cellSize", num_ 35);
                            ("symmetry", VStr "vertical")]);
       ("shape", VObj false [("type", VStr "triangle");
                             ("size", dec_ 75 100);
                             ("rotation", num_ 0);
                             ("scaleMode", VStr "easeInOut");
                             ("scaleMin", dec_ 3 10);
                             ("scaleMax", num_ 1)]);
       ("palette", colors_ ["#a8e6cf"; "#dcedc1"; "#ffd3b6"; "#ffaaa5";
                            "#ff8b94"])]);
   ("Neon Circles",
    VObj false
      [("grid", VObj false [("cols", num_ 8); ("rows", num_ 8);
                            ("cellSize", num_ 80);
                            ("symmetry", VStr "none")]);
       ("shape", VObj false [("type", VStr "circle"); ("size", dec_ 12 10);
                             ("scaleMode", VStr "linear");
                             ("scaleMin", dec_ 2 10);
                             ("scaleMax", num_ 1);
                             ("blendMode", VStr "add")]);
       ("palette", colors_ ["#ff00ff"; "#00ffff"; "#ffff00"; "#ff0080";
                            "#8000ff"])]);
   ("Diamond Echo",
    VObj false
      [("grid", VObj false [("cols", num_ 14); ("rows", num_ 14);
                            ("cellSize", num_ 45);
                            ("symmetry", VStr "horizontal")]);
       ("shape", VObj false [("type", VStr "diamond");
                             ("size", dec_ 65 100);
                             ("rotation", num_ 0);
                             ("scaleMode", VStr "step");
                             ("scaleMin", dec_ 2 10);
                             ("scaleMax", num_ 1)]);
       ("palette", colors_ ["#2c3e50"; "#34495e"; "#7f8c8d"; "#95a5a6";
                            "#bdc3c7"])]);
   ("Hearts Bloom",
    VObj false
      [("grid", VObj false [("cols", num_ 10); ("rows", num_ 10);
                            ("cellSize", num_ 55);
                            ("symmetry", VStr "radial");
                            ("symmetryCount", num_ 8)]);
       ("shape", VObj false [("type", VStr "heart"); ("size", dec_ 7 10);
                             ("rotation", num_ 0);
                             ("scaleMode", VStr "easeOut");
                             ("scaleMin", dec_ 15 100);
                             ("scaleMax", dec_ 9 10)]);
       ("palette", colors_ ["#ff9a9e"; "#fecfef"; "#fad0c4"; "#ffecd2";
                            "#fcb69f"])]);
   ("Noise Texture",
    VObj false
      [("grid", VObj false [("cols", num_ 25); ("rows", num_ 25);
                            ("cellSize", num_ 24);
                            ("symmetry", VStr "none")]);
       ("shape", VObj false [("type", VStr "square"); ("size", dec_ 9 10);
                             ("rotation", num_ 45);
                             ("scaleMode", VStr "linear");
                             ("scaleMin", dec_ 1 10);
                             ("scaleMax", dec_ 5 10)]);
       ("pattern", VObj false [("enabled", VBool true);
                               ("noiseScale", dec_ 3 10);
                               ("noiseIntensity", dec_ 8 10);
                               ("seed", num_ 123)]);
       ("palette", colors_ ["#1a1a2e"; "#16213e"; "#0f3460"; "#533483";
                            "#e94560"])]);
   ("Retro Grid",
    VObj false
      [("grid", VObj false [("cols", num_ 12); ("rows", num_ 8);
                            ("cellSize", num_ 60);
                            ("symmetry", VStr "horizontal")]);
       ("shape", VObj false [("type", VStr "square"); ("size", dec_ 5 10);
                             ("rotation", num_ 0);
                             ("scaleMode", VStr "linear");
                             ("scaleMin", dec_ 3 10);
                             ("scaleMax", num_ 1)]);
       ("palette", colors_ ["#ff006e"; "#8338ec"; "#3a86ff"; "#06ffa5";
                            "#ffbe0b"])]);
   ("Spiral Galaxy",
    VObj false
      [("grid", VObj false [("cols", num_ 20); ("rows", num_ 20);
                            ("cellSize", num_ 30);
                            ("symmetry", VStr "radial");
                            ("symmetryCount", num_ 5)]);
       ("shape", VObj false [("type", VStr "circle"); ("size", dec_ 5 10);
                             ("rotation", num_ 0);
                             ("scaleMode", VStr "swirl");
                             ("scaleMin", dec_ 1 10);
                             ("scaleMax", dec_ 8 10);
                             ("scalePower", num_ 3)]);
       ("pattern", VObj false [("enabled", VBool true);
                               ("noiseScale", dec_ 15 100);
                               ("noiseIntensity", dec_ 4 10);
                               ("seed", num_ 777)]);
       ("palette", colors_ ["#0c0c1d"; "#16213e"; "#4a1c40"; "#c7417b";
                            "#ff9a8b"])])].

(** A member inherited from [Object.prototype], as far as [applyPreset]
    can tell: an object with none of the six preset members. *)
Definition inheritedMember : value num := VObj false [].

(** [obj[name]] for an object literal with the given own properties and,
    possibly, a prototype set through ["__proto__"]. *)
Definition readMember (own : object num) (proto : option (object num))
    (name : string) : value num :=
  match lookup name own with
  | Some v => v
  | None =>
      match proto with
      | Some inherited =>
          if name =? "__proto__" then VObj false inherited
          else
            match lookup name inherited with
            | Some v => v
            | None =>
                if existsb (String.eqb name) objectPrototypeNames
                then inheritedMember else VUndefined
            end
      | None =>
          if existsb (String.eqb name) objectPrototypeNames
          then inheritedMember else VUndefined
      end
  end.

(** [getPresetNames] *)
Definition getPresetNames (users : UserPresets.t num) : list string :=
  ["** Default **"] ++ map fst builtInPresets
  ++ ["--- User Presets ---"] ++ map fst (UserPresets.own users).

(** Assignments of [resetToDefault] to single fields. *)
Definition setGridField (key : string) (v : value num) (s : Store.t num)
    : Store.t num :=
  Store.mk (Store.canvas s) (setProp key v (Store.grid s)) (Store.shape s)
           (Store.pattern s) (Store.animation s) (Store.palette s).

Definition setShapeField (key : string) (v : value num) (s : Store.t num)
    : Store.t num :=
  Store.mk (Store.canvas s) (Store.grid s) (setProp key v (Store.shape s))
           (Store.pattern s) (Store.animation s) (Store.palette s).

Definition setPatternField (key : string) (v : value num) (s : Store.t num)
    : Store.t num :=
  Store.mk (Store.canvas s) (Store.grid s) (Store.shape s)
           (setProp key v (Store.pattern s)) (Store.animation s)
           (Store.palette s).

Definition setAnimationField (key : string) (v : value num)
    (s : Store.t num) : Store.t num :=
  Store.mk (Store.canvas s) (Store.grid s) (Store.shape s)
           (Store.pattern s) (setProp key v (Store.animation s))
           (Store.palette s).

Definition setPaletteField (key : string) (v : value num) (s : Store.t num)
    : Store.t num :=
  Store.mk (Store.canvas s) (Store.grid s) (Store.shape s)
           (Store.pattern s) (Store.animation s)
           (setProp key v (Store.palette s)).

Definition setCanvasField (key : string) (v : value num) (s : Store.t num)
    : Store.t num :=
  Store.mk (setProp key v (Store.canvas s)) (Store.grid s) (Store.shape s)
           (Store.pattern s) (Store.animation s) (Store.palette s).

(** The assignments of [resetToDefault], in source order. *)
Definition gridDefaults : object num :=
  [("cols", num_ 12); ("rows", num_ 12); ("cellSize", num_ 60);
   ("offsetX", num_ 0); ("offsetY", num_ 0); ("symmetry", VStr "none");
   ("symmetryCount", num_ 6)].

Definition shapeDefaults : object num :=
  [("type", VStr "circle"); ("size", dec_ 8 10); ("rotation", num_ 0);
   ("rotationAuto", VBool false); ("scaleMode", VStr "linear");
   ("scaleMin", dec_ 2 10); ("scaleMax", num_ 1);
   ("fillMode", VStr "solid"); ("fillColor", VStr "#4a9eff");
   ("strokeMode", VStr "none"); ("blendMode", VStr "blend")].

Definition patternDefaults : object num :=
  [("enabled", VBool false); ("seed", num_ 1); ("noiseScale", dec_ 1 10);
   ("noiseIntensity", dec_ 5 10)].

Definition animationDefaults : object num :=
  [("enabled", VBool false); ("playing", VBool false); ("speed", num_ 1);
   ("loopDuration", num_ 120)].

Definition assignAll (set : string -> value num -> Store.t num -> Store.t num)
    (fields : object num) (s : Store.t num) : Store.t num :=
  fold_left (fun s kv => set (fst kv) (snd kv) s) fields s.

(** [resetToDefault] of [presets.js]. *)
Definition resetToDefault (s : Store.t num) : Store.t num :=
  let s := assignAll setGridField gridDefaults s in
  let s := assignAll setShapeField shapeDefaults s in
  let s := assignAll setPatternField patternDefaults s in
  let s := assignAll setAnimationField animationDefaults s in
  let s :=
    setPaletteField "colors"
      (arrayOf (map VStr ["#4a9eff"; "#ff6b6b"; "#4ecdc4"; "#ffe66d";
                          "#a8e6cf"])) s in
  setCanvasField "background" (VStr "#111111") s.

(** [loadPreset]: the store afterwards and the returned flag, or the
    exception [applyPreset] throws. *)
Definition loadPreset (users : UserPresets.t num) (name : string)
    (s : Store.t num) : Store.t num * outcome bool :=
  if name =? "** Default **" then (resetToDefault s, Ok true)
  else
    let builtIn := readMember builtInPresets None name in
    let preset :=
      if truthy builtIn then builtIn
      else readMember (UserPresets.own users) (UserPresets.proto users)
                      name in
    if negb (truthy preset) then (s, Ok false)
    else
      match applyPreset preset s with
      | (s', Ok _) => (s', Ok true)
      | (s', Throw e) => (s', Throw e)
      end.

(** The object [saveUserPreset] and [exportCurrentState] build. *)
Definition snapshot (s : Store.t num) : outcome (value num) :=
  let* grid := cloneState (VObj false (Store.grid s)) in
  let* shape := cloneState (VObj false (Store.shape s)) in
  let* pattern := cloneState (VObj false (Store.pattern s)) in
  let* animation := cloneState (VObj false (Store.animation s)) in
  let* colors := spread (getProp "colors" (Store.palette s)) in
  Ok (VObj false
        [("grid", grid); ("shape", shape); ("pattern", pattern);
         ("animation", animation);
         ("palette", VObj false [("colors", arrayOf colors)]);
         ("canvas",
          VObj false
            [("background", getProp "background" (Store.canvas s))])]).

(** [userPresets[name] = v] *)
Definition assignPreset (name : string) (v : value num)
    (users : UserPresets.t num) : UserPresets.t num :=
  if name =? "__proto__" then
    (* the setter takes an object, which is all [saveUserPreset] assigns,
       and ignores a primitive *)
    match v with
    | VObj _ props => UserPresets.mk (UserPresets.own users) (Some props)
    | _ => users
    end
  else UserPresets.mk (setProp name v (UserPresets.own users))
                      (UserPresets.proto users).

(** [saveUserPreset] *)
Definition saveUserPreset (name : string) (s : Store.t num)
    (users : UserPresets.t num) : outcome (UserPresets.t num) :=
  let* preset := snapshot s in
  Ok (assignPreset name preset users).

(** [delete userPresets[name]] *)
Definition deleteUserPreset (name : string) (users : UserPresets.t num)
    : UserPresets.t num :=
  UserPresets.mk
    (filter (fun kv => negb (fst kv =? name)) (UserPresets.own users))
    (UserPresets.proto users).

(** A value that [applyState] assigns rather than merges. *)
Definition isAssigned (v : value num) : bool :=
  match v with
  | VObj false _ => false
  | _ => true
  end.

End Presets.

(** Concrete stores and presets on doubles. *)
Module PresetInputs.
(** The initial state after the user picked rotation by distance, a blend
    mode and a faster animation. *)
Definition tweaked : Store.t float :=
  setAnimationField "speed" (VNum 3%float)
    (setShapeField "blendMode" (VStr "multiply")
       (setShapeField "rotateMode" (VStr "linear") defaultStore)).

Definition noUsers : UserPresets.t float := UserPresets.mk [] None.

(** A preset file whose palette colours are a number. *)
Definition brokenPalette : object float :=
  [("grid", VObj false [("cols", VNum 3%float)]);
   ("palette", VObj false [("colors", VNum 5%float)]);
   ("canvas", VObj false [("background", VStr "#ffffff")])].

(** A user preset saved under the name of a built-in one. *)
Definition shadowed : UserPresets.t float :=
  UserPresets.mk
    [("Star Burst",
      VObj false [("shape", VObj false [("type", VStr "heart")])])]
    None.

(** One user preset. *)
Definition oneUser : UserPresets.t float :=
  UserPresets.mk
    [("mine", VObj false [("shape", VObj false [("type", VStr "heart")])])]
    None.
End PresetInputs.

(** What [applyState] leaves at a key the source mentions, given what the
    target held there: the merge of the two when both are objects and the
    source is not an array, the source value otherwise. *)
Definition merged {num : Type} `{JsNumber num} (v current : value num)
    : value num :=
  match v, current with
  | VObj false _, VObj targetIsArray targetProps =>
      VObj targetIsArray (applyState targetProps v)
  | _, _ => v
  end.

(** [if (part) applyState(target, part)] *)
Definition mergedPart {num : Type} `{JsNumber num} (part : value num)
    (target : object num) : object num :=
  if truthy part then applyState target part else target.

(** The members of a preset that [applyPreset] reads. *)
Definition presetParts : list string :=
  ["grid"; "shape"; "pattern"; "animation"; "palette"; "canvas"].

(** What a read of [userPresets[name]] finds on the prototype, if a
    preset was saved under ["__proto__"]. *)
Definition inheritedPreset {num : Type} (users : UserPresets.t num)
    (name : string) : option (value num) :=
  match UserPresets.proto users with
  | Some inherited => lookup name inherited
  | None => None
  end.

(** A state whose configuration objects hold no plain object, as those
    of [state.js] do: numbers, strings and booleans only. *)
Definition flatStore {num : Type} `{JsNumber num} (s : Store.t num)
    : bool :=
  forallb (fun kv => isAssigned (snd kv)) (Store.grid s)
  && forallb (fun kv => isAssigned (snd kv)) (Store.shape s)
  && forallb (fun kv => isAssigned (snd kv)) (Store.pattern s)
  && forallb (fun kv => isAssigned (snd kv)) (Store.animation s)
  && isAssigned (getProp "background" (Store.canvas s)).

(* ===================================================================== *)
(** ** Properties that hold for every implementation of the arithmetic *)
(* ===================================================================== *)

(** Rewrite the comparisons of a mode string against the literals of a
    [switch], given what is known about the mode. *)
Ltac switch_on mode :=
  repeat match goal with
         | E : mode = _ |- _ => rewrite E
         | N : mode <> ?lit |- context [String.eqb mode ?lit] =>
             rewrite (proj2 (String.eqb_neq mode lit) N)
         end;
  cbn [String.eqb Ascii.eqb Bool.eqb].

Section Generic.
Context {num : Type} `{JsNumber num} `{JsTrig num}.

Local Open Scope js_scope.

(** *** Scale mode ['none'] *)

Lemma calculateScale_none (st : State num) (dist : num) :
  Shape.scaleMode (shape st) = "none" ->
  calculateScale st dist = Shape.size (shape st).
Proof.
  intros E. unfold calculateScale. rewrite E. reflexivity.
Qed.

(** C10.  With scale mode ['none'], [calculateScale] returns
    [shape.size] whatever the distance and the scale bounds are, so
    that with the pattern disabled [getShapeSize] is
    [cellSize * shape.size * shape.size]: the size factor is applied
    twice. *)
Theorem getShapeSize_none_applies_size_twice
    (noise2D : num -> num -> num) (st : State num) (dist time : num) :
  Shape.scaleMode (shape st) = "none" ->
  Pattern.enabled (pattern st) = false ->
  calculateScale st dist = Shape.size (shape st) /\
  getShapeSize noise2D st dist time
  = Grid.cellSize (grid st) * Shape.size (shape st)
    * Shape.size (shape st).
Proof.
  intros Emode Epat. split.
  - now apply calculateScale_none.
  - unfold getShapeSize. rewrite Epat.
    now rewrite calculateScale_none.
Qed.

(** *** Unknown mode strings *)

Lemma calculateScale_unknown (st : State num) (dist : num) :
  ~ knownScaleMode (Shape.scaleMode (shape st)) ->
  calculateScale st dist
  = calculateScale (withShape (setScaleMode "linear" (shape st)) st) dist.
Proof.
  unfold knownScaleMode. intros U.
  unfold calculateScale; cbn.
  set (mode := Shape.scaleMode (shape st)) in *.
  assert (mode <> "none") by tauto.
  assert (mode <> "easeIn") by tauto.
  assert (mode <> "easeOut") by tauto.
  assert (mode <> "easeInOut") by tauto.
  assert (mode <> "step") by tauto.
  assert (mode <> "swirl") by tauto.
  switch_on mode. reflexivity.
Qed.

Lemma getFillColor_unknown (st : State num) (dist : num) (index : nat)
    (time : num) :
  ~ knownFillMode (Shape.fillMode (shape st)) ->
  getFillColor st dist index time = Ok (CStr (Shape.fillColor (shape st))).
Proof.
  unfold knownFillMode. intros U.
  unfold getFillColor.
  set (mode := Shape.fillMode (shape st)) in *.
  assert (mode <> "solid") by tauto.
  assert (mode <> "distance") by tauto.
  assert (mode <> "palette") by tauto.
  assert (mode <> "random") by tauto.
  switch_on mode. reflexivity.
Qed.

Lemma applySymmetry_unknown (st : State num) (x y : num) (col row : Z)
    (dist : num) (center : num * num) :
  ~ knownSymmetry (Grid.symmetry (grid st)) ->
  applySymmetry st x y col row dist center
  = [Cell.mk x y col row dist true None].
Proof.
  unfold knownSymmetry. intros U.
  unfold applySymmetry.
  set (mode := Grid.symmetry (grid st)) in *.
  assert (mode <> "horizontal") by tauto.
  assert (mode <> "vertical") by tauto.
  assert (mode <> "both") by tauto.
  assert (mode <> "radial") by tauto.
  switch_on mode. reflexivity.
Qed.

Lemma applySymmetry_none (st : State num) (x y : num) (col row : Z)
    (dist : num) (center : num * num) :
  Grid.symmetry (grid st) = "none" ->
  applySymmetry st x y col row dist center
  = [Cell.mk x y col row dist true None].
Proof.
  intros E. unfold applySymmetry. rewrite E. reflexivity.
Qed.

Lemma getFillColor_solid (st : State num) (dist : num) (index : nat)
    (time : num) :
  Shape.fillMode (shape st) = "solid" ->
  getFillColor st dist index time = Ok (CStr (Shape.fillColor (shape st))).
Proof.
  intros E. unfold getFillColor. rewrite E. reflexivity.
Qed.

(** C9.  A mode string that is not one of the recognised values falls
    back to a default instead of failing: an unknown [scaleMode] scales
    as ['linear'] does, an unknown [fillMode] yields the configured
    solid fill colour, and an unknown [symmetry] emits the original
    instance only, as ['none'] does. *)
Theorem unknown_modes_fall_back_to_defaults (st : State num) :
  (~ knownScaleMode (Shape.scaleMode (shape st)) ->
   forall dist,
     calculateScale st dist
     = calculateScale (withShape (setScaleMode "linear" (shape st)) st)
                      dist
     /\ calculateScale st dist
        = Shape.scaleMin (shape st)
          + (Shape.scaleMax (shape st) - Shape.scaleMin (shape st))
            * (of_Z 1 - dist)) /\
  (~ knownFillMode (Shape.fillMode (shape st)) ->
   forall dist index time,
     getFillColor st dist index time
     = Ok (CStr (Shape.fillColor (shape st)))
     /\ getFillColor st dist index time
        = getFillColor (withShape (setFillMode "solid" (shape st)) st)
                       dist index time) /\
  (~ knownSymmetry (Grid.symmetry (grid st)) ->
   forall x y col row dist center,
     applySymmetry st x y col row dist center
     = [Cell.mk x y col row dist true None]
     /\ applySymmetry st x y col row dist center
        = applySymmetry
            (withGrid (setSymmetry "none" (Grid.symmetryCount (grid st))
                                   (grid st)) st)
            x y col row dist center).
Proof.
  split; [|split].
  - intros U dist. split.
    + now apply calculateScale_unknown.
    + rewrite calculateScale_unknown by assumption. reflexivity.
  - intros U dist index time. split.
    + now apply getFillColor_unknown.
    + rewrite getFillColor_unknown by assumption.
      now rewrite getFillColor_solid.
  - intros U x y col row dist center. split.
    + now apply applySymmetry_unknown.
    + rewrite applySymmetry_unknown by assumption.
      now rewrite applySymmetry_none.
Qed.

(** *** Index-keyed fill *)

Lemma arrayGetMod_nth (colors : list string) (k : nat) :
  arrayGetMod colors k
  = match nth_error colors (k mod List.length colors) with
    | Some c => CStr c
    | None => CUndefined
    end.
Proof.
  unfold arrayGetMod.
  destruct colors as [|c0 rest] eqn:E.
  - cbn. now destruct k.
  - rewrite <- E. replace (List.length colors) with (S (List.length rest))
      by (subst colors; reflexivity).
    unfold arrayGet.
    assert (L : (Z.of_nat (k mod S (List.length rest)) <? 0)%Z = false)
      by (apply Z.ltb_ge; lia).
    rewrite L, Nat2Z.id. reflexivity.
Qed.

(** C7.  In fill mode ['random'] the colour of cell [index] is exactly
    [colors[(index * 7) mod N]], whatever the distance and the time
    are; for a palette that is not empty this is one of its entries. *)
Theorem random_fill_is_index_times_7_mod_N
    (st : State num) (dist : num) (index : nat) (time : num) :
  Shape.fillMode (shape st) = "random" ->
  let colors := Palette.colors (palette st) in
  let N := List.length colors in
  getFillColor st dist index time
  = Ok (match nth_error colors ((index * 7) mod N) with
        | Some c => CStr c
        | None => CUndefined
        end)
  /\ (forall dist' time',
        getFillColor st dist' index time'
        = getFillColor st dist index time)
  /\ ((1 <= N)%nat ->
      exists c, nth_error colors ((index * 7) mod N) = Some c
                /\ getFillColor st dist index time = Ok (CStr c)).
Proof.
  intros E colors N. subst colors N.
  set (colors := Palette.colors (palette st)).
  set (N := List.length colors).
  assert (F : forall d t,
             getFillColor st d index t
             = Ok (match nth_error colors ((index * 7) mod N) with
                   | Some c => CStr c
                   | None => CUndefined
                   end)).
  { intros d t. unfold getFillColor. rewrite E. cbn.
    now rewrite arrayGetMod_nth. }
  split; [apply F|split].
  - intros d t. now rewrite !F.
  - intros HN.
    destruct (nth_error colors ((index * 7) mod N)) as [c|] eqn:En.
    + exists c. split; [reflexivity|]. apply F.
    + apply nth_error_None in En.
      assert ((index * 7) mod N < N)%nat
        by (apply Nat.mod_upper_bound; lia).
      unfold N in *. lia.
Qed.

(** *** Animation time *)

(** C3.  [grid.js] imports [grid], [shape], [canvas], [palette],
    [pattern] and [mask] from [state.js] but not [animation], which the
    body of [getAnimationTime] reads first: evaluated in the scope of
    [grid.js], every call throws a [ReferenceError] and none returns a
    time. *)
Theorem getAnimationTime_throws_ReferenceError
    (st : State num) (frameCount : num) :
  getAnimationTime st grid_js_scope frameCount
  = Throw (ReferenceError "animation").
Proof. reflexivity. Qed.

(** With [animation] in scope the same body returns the loop phase. *)
Lemma getAnimationTime_in_scope
    (st : State num) (scope : list string) (frameCount : num) :
  In "animation" scope ->
  Animation.enabled (animation st) = true ->
  getAnimationTime st scope frameCount
  = Ok (rem frameCount (Animation.loopDuration (animation st))
        / Animation.loopDuration (animation st)).
Proof.
  intros Hin Hen. unfold getAnimationTime, resolve.
  assert (E : existsb (String.eqb "animation") scope = true).
  { apply existsb_exists. exists "animation". split; [assumption|].
    apply String.eqb_refl. }
  rewrite E. cbn. now rewrite Hen.
Qed.

(** The draw loop calls it exactly when the animation is enabled, and
    then draws nothing. *)
Lemma draw_throws_when_animation_enabled
    (noise2D : num -> num -> num) (st : State num) (frameCount : num) :
  Animation.enabled (animation st) = true ->
  draw noise2D st frameCount = Throw (ReferenceError "animation").
Proof.
  intros Hen. unfold draw. cbn. rewrite Hen. reflexivity.
Qed.

(** *** Cell enumeration *)

Lemma loopIndices_length (n : Z) :
  List.length (loopIndices n) = Z.to_nat n.
Proof. unfold loopIndices. now rewrite length_map, length_seq. Qed.

Lemma radialIndices_length (n : Z) :
  List.length (radialIndices n) = (Z.to_nat n - 1)%nat.
Proof. unfold radialIndices. now rewrite length_map, length_seq. Qed.

Lemma flat_map_length_const {A B : Type} (f : A -> list B) (k : nat)
    (l : list A) :
  (forall a, List.length (f a) = k) ->
  List.length (flat_map f l) = (List.length l * k)%nat.
Proof.
  intros Hf. induction l as [|a l IH]; cbn; [reflexivity|].
  now rewrite length_app, Hf, IH.
Qed.

(** The shape of the expansion in each recognised mode. *)
Lemma applySymmetry_radial (st : State num) (x y : num) (col row : Z)
    (dist : num) (center : num * num) :
  Grid.symmetry (grid st) = "radial" ->
  applySymmetry st x y col row dist center
  = Cell.mk x y col row dist true None ::
    map (fun i =>
           let angle :=
             Math_atan2 (y - snd center) (x - fst center)
             + (Math_PI * of_Z 2 * of_Z i)
               / of_Z (Grid.symmetryCount (grid st)) in
           let radius :=
             Math_sqrt ((x - fst center) * (x - fst center)
                        + (y - snd center) * (y - snd center)) in
           Cell.mk (fst center + Math_cos angle * radius)
                   (snd center + Math_sin angle * radius)
                   col row dist false
                   (Some ((of_Z 360 * of_Z i)
                          / of_Z (Grid.symmetryCount (grid st)))))
        (radialIndices (Grid.symmetryCount (grid st))).
Proof.
  intros E. unfold applySymmetry. rewrite E. reflexivity.
Qed.

Lemma applySymmetry_both (st : State num) (x y : num) (col row : Z)
    (dist : num) (center : num * num) :
  Grid.symmetry (grid st) = "both" ->
  applySymmetry st x y col row dist center
  = [Cell.mk x y col row dist true None;
     Cell.mk (fst center * of_Z 2 - x) y
             (Grid.cols (grid st) - 1 - col) row dist false None;
     Cell.mk x (snd center * of_Z 2 - y)
             col (Grid.rows (grid st) - 1 - row) dist false None;
     Cell.mk (fst center * of_Z 2 - x) (snd center * of_Z 2 - y)
             (Grid.cols (grid st) - 1 - col)
             (Grid.rows (grid st) - 1 - row) dist false None].
Proof.
  intros E. unfold applySymmetry. rewrite E. reflexivity.
Qed.

Lemma applySymmetry_original_first (st : State num) (x y : num)
    (col row : Z) (dist : num) (center : num * num) :
  exists copies,
    applySymmetry st x y col row dist center
    = Cell.mk x y col row dist true None :: copies
    /\ Forall (fun c => Cell.isOriginal c = false) copies.
Proof.
  unfold applySymmetry.
  destruct (Grid.symmetry (grid st) =? "horizontal");
    [eexists; split; [reflexivity | repeat constructor]|].
  destruct (Grid.symmetry (grid st) =? "vertical");
    [eexists; split; [reflexivity | repeat constructor]|].
  destruct (Grid.symmetry (grid st) =? "both");
    [eexists; split; [reflexivity | repeat constructor]|].
  destruct (Grid.symmetry (grid st) =? "radial");
    [|eexists; split; [reflexivity | constructor]].
  eexists; split; [reflexivity|].
  apply Forall_map, Forall_forall. reflexivity.
Qed.

Lemma applySymmetry_length (st : State num) (x y : num) (col row : Z)
    (dist : num) (center : num * num) :
  (Grid.symmetry (grid st) = "radial" ->
   (1 <= Grid.symmetryCount (grid st))%Z) ->
  List.length (applySymmetry st x y col row dist center)
  = Z.to_nat (instancesPerCell (grid st)).
Proof.
  intros Hn. unfold applySymmetry, instancesPerCell.
  destruct (Grid.symmetry (grid st) =? "horizontal"); [reflexivity|].
  destruct (Grid.symmetry (grid st) =? "vertical"); [reflexivity|].
  destruct (Grid.symmetry (grid st) =? "both"); [reflexivity|].
  destruct (Grid.symmetry (grid st) =? "radial") eqn:E; [|reflexivity].
  apply String.eqb_eq in E. specialize (Hn E).
  cbn [List.length]. rewrite length_map, radialIndices_length. lia.
Qed.

Lemma getGridCells_length (st : State num) :
  (Grid.symmetry (grid st) = "radial" ->
   (1 <= Grid.symmetryCount (grid st))%Z) ->
  List.length (getGridCells st)
  = (Z.to_nat (Grid.rows (grid st)) * (Z.to_nat (Grid.cols (grid st))
     * Z.to_nat (instancesPerCell (grid st))))%nat.
Proof.
  intros Hn. unfold getGridCells.
  rewrite flat_map_length_const
    with (k := (Z.to_nat (Grid.cols (grid st))
                * Z.to_nat (instancesPerCell (grid st)))%nat).
  - now rewrite loopIndices_length.
  - intros row.
    rewrite flat_map_length_const
      with (k := Z.to_nat (instancesPerCell (grid st))).
    + now rewrite loopIndices_length.
    + intros col. now apply applySymmetry_length.
Qed.

Lemma instancesPerCell_nonneg (g : Grid.t num) :
  (Grid.symmetry g = "radial" -> (1 <= Grid.symmetryCount g)%Z) ->
  (0 <= instancesPerCell g)%Z.
Proof.
  intros Hn. unfold instancesPerCell.
  destruct (Grid.symmetry g =? "horizontal"); [lia|].
  destruct (Grid.symmetry g =? "vertical"); [lia|].
  destruct (Grid.symmetry g =? "both"); [lia|].
  destruct (Grid.symmetry g =? "radial") eqn:E; [|lia].
  apply String.eqb_eq in E. specialize (Hn E). lia.
Qed.


(** *** The rotation tag of radial copies *)

Lemma radialIndices_nth (n i : Z) :
  (1 <= i < n)%Z ->
  nth_error (radialIndices n) (Z.to_nat i - 1) = Some i.
Proof.
  intros Hi. unfold radialIndices.
  rewrite nth_error_map.
  rewrite (nth_error_nth' _ 0%nat) by (rewrite length_seq; lia).
  rewrite seq_nth by lia. cbn. f_equal. lia.
Qed.

(** The expander tags copy [i] with [360 * i / symmetryCount]. *)
Lemma radial_copy_is_tagged (st : State num) (x y : num) (col row : Z)
    (dist : num) (center : num * num) (i : Z) :
  Grid.symmetry (grid st) = "radial" ->
  (1 <= i < Grid.symmetryCount (grid st))%Z ->
  exists c,
    nth_error (applySymmetry st x y col row dist center) (Z.to_nat i)
    = Some c
    /\ Cell.rotation c
       = Some ((of_Z 360 * of_Z i) / of_Z (Grid.symmetryCount (grid st)))
    /\ Cell.isOriginal c = false
    /\ Cell.dist c = dist
    /\ Cell.col c = col /\ Cell.row c = row.
Proof.
  intros E Hi. rewrite applySymmetry_radial by assumption.
  replace (Z.to_nat i) with (S (Z.to_nat i - 1)) by lia.
  cbn [nth_error]. rewrite nth_error_map, radialIndices_nth by assumption.
  cbn. eexists. split; [reflexivity|]. cbn. repeat split.
Qed.

(** Neither call site reads the tag: a cell is drawn the same whatever
    its [rotation] field holds. *)
Lemma drawCell_ignores_tag (noise2D : num -> num -> num)
    (st : State num) (cell : Cell.t num)
    (r : option num) (index : nat) (time : num) :
  drawCell noise2D st (setTag r cell) index time
  = drawCell noise2D st cell index time.
Proof. reflexivity. Qed.

Lemma export_drawCell_ignores_tag (noise2D : num -> num -> num)
    (st : State num) (cell : Cell.t num)
    (r : option num) (index : nat) (scale time : num) :
  export_drawCell noise2D st (setTag r cell) index scale time
  = export_drawCell noise2D st cell index scale time.
Proof. reflexivity. Qed.

(** The rotation handed to the renderer by [drawCell] of [main.js] is
    the mapper's, plus the animation term: no symmetry term. *)
Lemma drawCell_rotation (noise2D : num -> num -> num)
    (st : State num) (cell : Cell.t num)
    (index : nat) (time : num) (call : DrawCall.t num) :
  drawCell noise2D st cell index time = Ok call ->
  DrawCall.rotation call
  = let r := getShapeRotation st (Cell.dist cell)
                              (Shape.rotation (shape st)) time in
    if Animation.enabled (animation st) && Animation.playing (animation st)
       && Animation.animateRotation (animation st)
    then r + time * of_Z 360 * Animation.speed (animation st)
    else r.
Proof.
  unfold drawCell.
  destruct (getFillColor st (Cell.dist cell) index time); [|discriminate].
  destruct (getStrokeColor st (Cell.dist cell) index); [|discriminate].
  cbn. intros [= <-]. reflexivity.
Qed.

End Generic.

(* ===================================================================== *)
(** ** Runs on binary64 doubles *)
(* ===================================================================== *)

Section Doubles.
Context `{JsTrig float}.
Variable noise2D : float -> float -> float.

Local Open Scope float_scope.

(** C1.  With radial symmetry of count 4 the copies of the first base
    cell carry the tags 90, 180 and 270, as the expander promises, but
    no cell is drawn with its tag added: whatever the cell, the
    rotation handed to the renderer is the mapper's 0.  The claim
    expects 0 + 90 for the second cell. *)
Theorem radial_tag_never_reaches_renderer :
  map (fun c => Cell.rotation c) (firstn 4 (getGridCells Inputs.radial4))
  = [None; Some 90; Some 180; Some 270]
  /\ (forall cell index,
        exists call,
          drawCell noise2D Inputs.radial4 cell index 0 = Ok call
          /\ DrawCall.rotation call = 0)
  /\ (forall cell index scale,
        exists call,
          export_drawCell noise2D Inputs.radial4 cell index scale 0
          = Ok call
          /\ DrawCall.rotation call = 0).
Proof.
  split; [|split].
  - vm_compute. reflexivity.
  - intros cell index. eexists. split; [reflexivity|]. reflexivity.
  - intros cell index scale. eexists. split; [reflexivity|]. reflexivity.
Qed.

(** C2.  With [cellSize = 0] the half-diagonal is 0 and nothing guards
    the division: at the centre the distance is [0 / 0 = NaN], at any
    other point it is [min(Infinity, 1) = 1], and every cell the
    enumerator emits carries [NaN].  The claim expects 0. *)
Theorem zero_cellSize_distance_is_NaN :
  is_nan (getNormalizedDistance Inputs.zeroCellSize 0 0) = true
  /\ getNormalizedDistance Inputs.zeroCellSize 1 0 = 1
  /\ List.length (getGridCells Inputs.zeroCellSize) = 144%nat
  /\ forallb (fun c => is_nan (Cell.dist c))
             (getGridCells Inputs.zeroCellSize) = true.
Proof.
  repeat split; vm_compute; reflexivity.
Qed.

End Doubles.

(** The scattered fill on the default palette of five colours, for the
    cell indices 0 to 20: [colors[(index * 7) mod 5]]. *)
Example random_fill_indices_0_to_20 :
  map (fun index => getFillColor Inputs.scattered 0%float index 0%float)
      (seq 0 21)
  = map (fun index =>
           Ok (CStr (nth ((index * 7) mod 5)
                         (Palette.colors defaultPalette) "")))
        (seq 0 21).
Proof. vm_compute. reflexivity. Qed.


(** The same run, spelled out. *)
Example gradient_start_upper_case :
  getFillColor Inputs.upperCasePalette 0%float 0 0%float
  = Ok (CStr "#ff0000")
  /\ getFillColor Inputs.upperCasePalette 1%float 0 0%float
     = Ok (CStr "#00FF00").
Proof. split; vm_compute; reflexivity. Qed.

(** C8, as stated: importing a preset whose cell size overflows leaves
    [Infinity] in the grid; exporting that state writes [null] for it,
    and importing the export back stores [null]. *)
Lemma non_finite_number_does_not_round_trip :
  importState Inputs.overflowPreset defaultStore
  = (Inputs.overflowStore, true)
  /\ getProp "cellSize" (Store.grid Inputs.overflowStore)
     = VNum infinity
  /\ exists s',
       exportThenImport Inputs.overflowStore = Ok (s', true)
       /\ getProp "cellSize" (Store.grid s') = VNull
       /\ s' <> Inputs.overflowStore.
Proof.
  split; [vm_compute; reflexivity|].
  split; [vm_compute; reflexivity|].
  eexists. split; [vm_compute; reflexivity|].
  split; [vm_compute; reflexivity|].
  intros E. apply (f_equal (fun s => getProp "cellSize" (Store.grid s))) in E.
  vm_compute in E. discriminate E.
Qed.

(** Negative zero does not survive either: it is written as [0]. *)
Example negative_zero_does_not_round_trip :
  let s := fst (importState Inputs.negativeZeroPreset defaultStore) in
  getProp "offsetX" (Store.grid s) = VNum (-0)%float
  /\ exists s',
       exportThenImport s = Ok (s', true)
       /\ getProp "offsetX" (Store.grid s') = VNum 0%float.
Proof.
  split; [vm_compute; reflexivity|].
  eexists. split; vm_compute; reflexivity.
Qed.

(** The initial state does round-trip. *)
Example default_store_round_trips :
  exportThenImport (defaultStore (num := float))
  = Ok (defaultStore, true).
Proof. vm_compute. reflexivity. Qed.

(* ===================================================================== *)
(** ** Properties in exact arithmetic *)
(* ===================================================================== *)

Module IdealFacts.
Import Ideal.
Local Open Scope R_scope.

Lemma add_fin (x y : R) : Ideal.plus (Fin x) (Fin y) = Fin (x + y).
Proof. reflexivity. Qed.

Lemma sub_fin (x y : R) : Ideal.minus (Fin x) (Fin y) = Fin (x - y).
Proof. reflexivity. Qed.

Lemma mul_fin (x y : R) : Ideal.times (Fin x) (Fin y) = Fin (x * y).
Proof. reflexivity. Qed.

Lemma min_fin (x y : R) : Ideal.least (Fin x) (Fin y) = Fin (Rmin x y).
Proof. reflexivity. Qed.

Lemma div_fin (x y : R) :
  y <> 0 -> Ideal.quot (Fin x) (Fin y) = Fin (x / y).
Proof.
  intros Hy. unfold Ideal.quot.
  destruct (Req_dec_T y 0); [contradiction|reflexivity].
Qed.

Lemma div_by_zero (x : R) :
  Ideal.quot (Fin x) (Fin 0) = inf_of (sgn x).
Proof.
  unfold Ideal.quot.
  destruct (Req_dec_T 0 0) as [_|N]; [reflexivity|now elim N].
Qed.

Lemma sqrt_fin (x : R) :
  0 <= x -> Ideal.root (Fin x) = Fin (sqrt x).
Proof.
  intros Hx. unfold Ideal.root.
  destruct (Rlt_dec x 0); [lra|reflexivity].
Qed.

Lemma sgn_zero : sgn 0 = Eq.
Proof.
  unfold sgn. destruct (total_order_T 0 0) as [[L|E]|G];
    [lra|reflexivity|lra].
Qed.

Lemma sgn_pos (x : R) : 0 < x -> sgn x = Gt.
Proof.
  intros Hx. unfold sgn.
  destruct (total_order_T x 0) as [[L|E]|G]; [lra|lra|reflexivity].
Qed.

(** Unfold the interface at the exact implementation, and no further. *)
Ltac ideal_ops :=
  cbn [of_Z NaN add sub mul div rem ltb leb Math_sqrt Math_min
       Math_floor Math_round isFinite isNegZero IdealNumber
       Math_pow dec gtb geb of_rounded fst snd].

Ltac fin_arith :=
  rewrite ?mul_fin, ?div_fin, ?add_fin, ?sub_fin, ?mul_fin, ?add_fin
    by lra.

Section Distance.
Variable st : State xreal.
Variables c ox oy : R.
Hypothesis cellSize_finite : Grid.cellSize (grid st) = Fin c.
Hypothesis offsetX_finite : Grid.offsetX (grid st) = Fin ox.
Hypothesis offsetY_finite : Grid.offsetY (grid st) = Fin oy.

Let halfW : R := IZR (Grid.cols (grid st)) * c / 2.
Let halfH : R := IZR (Grid.rows (grid st)) * c / 2.

Lemma getGridCenter_finite :
  getGridCenter st = (Fin (halfW + ox), Fin (halfH + oy)).
Proof.
  unfold getGridCenter.
  rewrite cellSize_finite, offsetX_finite, offsetY_finite.
  ideal_ops. fin_arith. reflexivity.
Qed.

Lemma sum_of_squares_nonneg (a b : R) : 0 <= a * a + b * b.
Proof. nra. Qed.

(** The distance of a finite point, before the division. *)
Lemma getNormalizedDistance_finite (x y : R) :
  getNormalizedDistance st (Fin x) (Fin y)
  = Ideal.least
      (Ideal.quot
         (Fin (sqrt ((x - (halfW + ox)) * (x - (halfW + ox))
                            + (y - (halfH + oy)) * (y - (halfH + oy)))))
         (Fin (sqrt (halfW * halfW + halfH * halfH))))
      (Fin 1).
Proof.
  unfold getNormalizedDistance. rewrite getGridCenter_finite.
  rewrite cellSize_finite.
  ideal_ops. fin_arith.
  rewrite !sqrt_fin by apply sum_of_squares_nonneg.
  reflexivity.
Qed.

(** With a half-diagonal of zero the distance is never 0: it is [NaN]
    at the centre and 1 everywhere else. *)
Lemma zero_half_diagonal (x y : R) :
  sqrt (halfW * halfW + halfH * halfH) = 0 ->
  (x = halfW + ox /\ y = halfH + oy ->
   getNormalizedDistance st (Fin x) (Fin y) = XNaN)
  /\ (~ (x = halfW + ox /\ y = halfH + oy) ->
      getNormalizedDistance st (Fin x) (Fin y) = Fin 1)
  /\ getNormalizedDistance st (Fin x) (Fin y) <> Fin 0.
Proof.
  intros Hz. rewrite getNormalizedDistance_finite, Hz, div_by_zero.
  set (dx := x - (halfW + ox)). set (dy := y - (halfH + oy)).
  assert (Centre : x = halfW + ox /\ y = halfH + oy ->
                   inf_of (sgn (sqrt (dx * dx + dy * dy)))
                   = XNaN).
  { intros [Hx Hy].
    replace (dx * dx + dy * dy) with 0 by (unfold dx, dy; subst; ring).
    now rewrite sqrt_0, sgn_zero. }
  assert (Away : ~ (x = halfW + ox /\ y = halfH + oy) ->
                 inf_of (sgn (sqrt (dx * dx + dy * dy)))
                 = PInf).
  { intros Hne. rewrite sgn_pos; [reflexivity|].
    apply sqrt_lt_R0.
    destruct (Req_dec_T dx 0) as [Zx|Nx];
      destruct (Req_dec_T dy 0) as [Zy|Ny]; try nra.
    exfalso. apply Hne. unfold dx, dy in *. split; lra. }
  split; [|split].
  - intros Hc. now rewrite Centre.
  - intros Hne. now rewrite Away.
  - destruct (Req_dec_T x (halfW + ox)) as [Hx|Hx];
      [destruct (Req_dec_T y (halfH + oy)) as [Hy|Hy]|].
    + rewrite Centre by tauto. discriminate.
    + rewrite Away by tauto. cbn. intros [= E]. lra.
    + rewrite Away by tauto. cbn. intros [= E]. lra.
Qed.

Hypothesis cellSize_positive : 0 < c.
Hypothesis cols_positive : (1 <= Grid.cols (grid st))%Z.
Hypothesis rows_positive : (1 <= Grid.rows (grid st))%Z.

Lemma halfW_positive : 0 < halfW.
Proof.
  unfold halfW. apply IZR_le in cols_positive.
  assert (0 < IZR (Grid.cols (grid st)) * c) by nra. lra.
Qed.

Lemma halfH_positive : 0 < halfH.
Proof.
  unfold halfH. apply IZR_le in rows_positive.
  assert (0 < IZR (Grid.rows (grid st)) * c) by nra. lra.
Qed.

Lemma half_diagonal_positive :
  0 < sqrt (halfW * halfW + halfH * halfH).
Proof.
  apply sqrt_lt_R0.
  pose proof halfW_positive. pose proof halfH_positive. nra.
Qed.

Lemma distance_at_center :
  getNormalizedDistance st (Fin (halfW + ox)) (Fin (halfH + oy))
  = Fin 0.
Proof.
  rewrite getNormalizedDistance_finite.
  pose proof half_diagonal_positive as HM.
  rewrite div_fin by lra. rewrite min_fin. f_equal.
  replace ((halfW + ox - (halfW + ox)) * (halfW + ox - (halfW + ox))
           + (halfH + oy - (halfH + oy)) * (halfH + oy - (halfH + oy)))
    with 0 by ring.
  rewrite sqrt_0. unfold Rdiv. rewrite Rmult_0_l.
  apply Rmin_left. lra.
Qed.

(** A point whose offsets from the centre are, up to sign, the half
    width and the half height lies on the unit circle of the field. *)
Lemma distance_at_corner (x y : R) :
  (x - (halfW + ox)) * (x - (halfW + ox)) = halfW * halfW ->
  (y - (halfH + oy)) * (y - (halfH + oy)) = halfH * halfH ->
  getNormalizedDistance st (Fin x) (Fin y) = Fin 1.
Proof.
  intros Hx Hy. rewrite getNormalizedDistance_finite, Hx, Hy.
  pose proof half_diagonal_positive as HM.
  rewrite div_fin by lra. rewrite min_fin. f_equal.
  unfold Rdiv. rewrite Rinv_r by lra. apply Rmin_left. lra.
Qed.

End Distance.



(** *** Hexadecimal colours *)

Lemma allAscii_complete (a : ascii) : In a allAscii.
Proof.
  unfold allAscii. rewrite <- (ascii_nat_embedding a).
  apply in_map, in_seq. pose proof (nat_ascii_bounded a). lia.
Qed.

Lemma channelOk_everywhere (a b : ascii) : channelOk a b = true.
Proof.
  assert (All : forallb (fun a => forallb (channelOk a) allAscii) allAscii
                = true) by (vm_compute; reflexivity).
  rewrite forallb_forall in All.
  specialize (All a (allAscii_complete a)).
  rewrite forallb_forall in All.
  exact (All b (allAscii_complete b)).
Qed.

(** Two hexadecimal digits parse to a value that prints as the same
    digits in lower case. *)
Lemma channel_text (a b : ascii) :
  isHexDigit a = true -> isHexDigit b = true ->
  exists z,
    parseInt16 (String a (String b "")) = Some z
    /\ hex2 z = String (toLowerAscii a) (String (toLowerAscii b) "").
Proof.
  intros Ha Hb. pose proof (channelOk_everywhere a b) as Hok.
  unfold channelOk in Hok. rewrite Ha, Hb in Hok. cbn [andb] in Hok.
  destruct (parseInt16 (String a (String b ""))) as [z|];
    [|discriminate].
  exists z. split; [reflexivity|]. now apply String.eqb_eq.
Qed.

Lemma hexColor_channels (s : string) :
  isHexColor s = true ->
  exists r g b,
    channels s = Some (r, g, b)
    /\ String "#" (hex2 r ++ hex2 g ++ hex2 b) = toLowerCase s.
Proof.
  unfold isHexColor.
  destruct s as [|hash digits]; [discriminate|].
  destruct (Ascii.eqb hash "#") eqn:Eh;
    [apply Ascii.eqb_eq in Eh; subst hash
    |intros Hs; exfalso; revert Hs Eh;
     destruct hash as [[] [] [] [] [] [] [] []]; discriminate].
  intros Hs. apply andb_prop in Hs. destruct Hs as [Hlen Hdig].
  apply Nat.eqb_eq in Hlen.
  destruct digits as [|a1 [|a2 [|a3 [|a4 [|a5 [|a6 [|a7 rest]]]]]]];
    try discriminate.
  cbn in Hdig.
  repeat match type of Hdig with
         | (_ && _)%bool = true =>
             apply andb_prop in Hdig; destruct Hdig as [? Hdig]
         end.
  destruct (channel_text a1 a2) as (r & Pr & Tr); try assumption.
  destruct (channel_text a3 a4) as (g & Pg & Tg); try assumption.
  destruct (channel_text a5 a6) as (b & Pb & Tb); try assumption.
  exists r, g, b. split.
  - unfold channels, slice. cbn [substring Nat.sub].
    now rewrite Pr, Pg, Pb.
  - rewrite Tr, Tg, Tb. reflexivity.
Qed.

(** *** The distance gradient *)

Lemma Int_part_IZR (z : Z) : Int_part (IZR z) = z.
Proof. symmetry. apply Int_part_spec. lra. Qed.

Lemma Int_part_IZR_half (z : Z) : Int_part (IZR z + / 2) = z.
Proof. symmetry. apply Int_part_spec. lra. Qed.

Lemma blend_start (v1 v2 : Z) : blend v1 v2 0 = v1.
Proof.
  unfold blend. rewrite Rmult_0_r, Rplus_0_r. apply Int_part_IZR_half.
Qed.

Lemma parseIntHex_some (s : string) (z : Z) :
  parseInt16 s = Some z -> parseIntHex s = Fin (IZR z).
Proof. intros E. unfold parseIntHex. now rewrite E. Qed.

(** Each channel of the result is the rounded linear blend of the two
    channel values, printed as two hexadecimal digits. *)
Lemma interpolateColor_blend (c1 c2 : string) (t : R)
    (r1 g1 b1 r2 g2 b2 : Z) :
  channels c1 = Some (r1, g1, b1) ->
  channels c2 = Some (r2, g2, b2) ->
  interpolateColor (CStr c1) (CStr c2) (Fin t)
  = Ok (String "#" (hex2 (blend r1 r2 t) ++ hex2 (blend g1 g2 t)
                    ++ hex2 (blend b1 b2 t))).
Proof.
  unfold channels. intros E1 E2.
  destruct (parseInt16 (slice c1 1 3)) as [r1'|] eqn:R1; [|discriminate].
  destruct (parseInt16 (slice c1 3 5)) as [g1'|] eqn:G1; [|discriminate].
  destruct (parseInt16 (slice c1 5 7)) as [b1'|] eqn:B1; [|discriminate].
  destruct (parseInt16 (slice c2 1 3)) as [r2'|] eqn:R2; [|discriminate].
  destruct (parseInt16 (slice c2 3 5)) as [g2'|] eqn:G2; [|discriminate].
  destruct (parseInt16 (slice c2 5 7)) as [b2'|] eqn:B2; [|discriminate].
  injection E1 as -> -> ->. injection E2 as -> -> ->.
  unfold interpolateColor. cbn [receiver bind].
  rewrite (parseIntHex_some _ R1), (parseIntHex_some _ G1),
    (parseIntHex_some _ B1), (parseIntHex_some _ R2),
    (parseIntHex_some _ G2), (parseIntHex_some _ B2).
  ideal_ops. reflexivity.
Qed.

Lemma arrayGet_nth (colors : list string) (i : Z) (c : string) :
  (0 <= i)%Z -> nth_error colors (Z.to_nat i) = Some c ->
  arrayGet colors (RInt i) = CStr c.
Proof.
  intros Hi E. unfold arrayGet.
  destruct (Z.ltb_spec i 0); [lia|]. now rewrite E.
Qed.

(** The gradient at a finite distance [d]: the segment index is
    [floor (d * (N - 1))]; from the last index on the last colour is
    returned as it is, below it the two neighbours are blended. *)
Lemma getFillColor_distance (st : State xreal) (d : R) (index : nat)
    (time : xreal) :
  Shape.fillMode (shape st) = "distance" ->
  let colors := Palette.colors (palette st) in
  let last := (Z.of_nat (List.length colors) - 1)%Z in
  let i := Int_part (d * IZR last) in
  getFillColor st (Fin d) index time
  = if Rle_dec (IZR last) (IZR i)
    then Ok (arrayGet colors (RInt last))
    else let* c := interpolateColor (arrayGet colors (RInt i))
                                    (arrayGet colors (RInt (i + 1)))
                                    (Fin (d * IZR last - IZR i)) in
         Ok (CStr c).
Proof.
  intros E colors last i. unfold getFillColor. rewrite E.
  cbn [String.eqb Ascii.eqb Bool.eqb].
  fold colors. fold last. ideal_ops.
  rewrite mul_fin. cbn [Ideal.floor]. fold i. ideal_ops.
  cbn [nextIndex]. rewrite sub_fin.
  unfold geb. ideal_ops. unfold Ideal.le.
  destruct (Rle_dec (IZR last) (IZR i)); reflexivity.
Qed.



End IdealFacts.

(* ===================================================================== *)
(** ** Export and import *)
(* ===================================================================== *)

Section RoundTrip.
Context {num : Type} `{JsNumber num}.

Lemma value_nested_ind (P : value num -> Prop) :
  P VUndefined -> P VNull -> (forall b, P (VBool b)) ->
  (forall n, P (VNum n)) -> (forall s, P (VStr s)) ->
  (forall isArray props,
     Forall (fun kv => P (snd kv)) props -> P (VObj isArray props)) ->
  forall v, P v.
Proof.
  intros HU HN HB HNum HS HO.
  fix IH 1. intros [| | b | n | s | isArray props].
  - exact HU.
  - exact HN.
  - apply HB.
  - apply HNum.
  - apply HS.
  - apply HO. induction props as [|kv rest IHrest]; constructor.
    + apply IH.
    + exact IHrest.
Qed.

Lemma indexOfKey_string_of_nat (n : nat) :
  indexOfKey (string_of_nat n) = Some n.
Proof.
  unfold indexOfKey, string_of_nat.
  rewrite NilEmpty.usu, Unsigned.of_to.
  now rewrite String.eqb_refl.
Qed.

Lemma string_of_nat_injective (m n : nat) :
  string_of_nat m = string_of_nat n -> m = n.
Proof.
  intros E. pose proof (indexOfKey_string_of_nat m) as Hm.
  rewrite E, indexOfKey_string_of_nat in Hm. now injection Hm.
Qed.

Lemma keysCount_indexed (props : object num) (from : nat) :
  keysCount (map fst props) from = true ->
  props = indexed from (map snd props).
Proof.
  revert from. induction props as [|[k v] rest IH]; intros from Hk.
  - reflexivity.
  - cbn in Hk. apply andb_prop in Hk. destruct Hk as [Ek Hrest].
    apply String.eqb_eq in Ek. subst k. cbn. f_equal. now apply IH.
Qed.

Lemma arrayLength_indexed (items : list (value num)) (from : nat) :
  arrayLength (indexed from items)
  = match items with [] => 0%nat | _ => (from + List.length items)%nat end.
Proof.
  revert from. induction items as [|v rest IH]; intros from.
  - reflexivity.
  - cbn [indexed]. unfold arrayLength in *. cbn [fold_right fst].
    rewrite indexOfKey_string_of_nat. rewrite IH.
    destruct rest; cbn [List.length]; lia.
Qed.

Lemma lookup_indexed (items : list (value num)) (from i : nat) :
  lookup (string_of_nat (from + i)) (indexed from items)
  = nth_error items i.
Proof.
  revert from i. induction items as [|v rest IH]; intros from i.
  - now destruct i.
  - cbn [indexed lookup]. destruct i as [|i].
    + rewrite Nat.add_0_r, String.eqb_refl. reflexivity.
    + destruct (String.eqb_spec (string_of_nat from)
                                (string_of_nat (from + S i))) as [E|_].
      * apply string_of_nat_injective in E. lia.
      * replace (from + S i)%nat with (S from + i)%nat by lia.
        apply IH.
Qed.

Lemma map_seq_nth {A : Type} (f : nat -> A) (items : list A) (from : nat) :
  (forall i, (i < List.length items)%nat ->
             Some (f (from + i)%nat) = nth_error items i) ->
  map f (seq from (List.length items)) = items.
Proof.
  revert from. induction items as [|v rest IH]; intros from Hf.
  - reflexivity.
  - cbn [List.length seq map]. f_equal.
    + specialize (Hf 0%nat). cbn in Hf. rewrite Nat.add_0_r in Hf.
      injection (Hf ltac:(lia)). auto.
    + apply IH. intros i Hi. specialize (Hf (S i)). cbn in Hf.
      replace (S from + i)%nat with (from + S i)%nat by lia.
      apply Hf. lia.
Qed.

Lemma spread_dense (items : list (value num)) :
  spread (VObj true (indexed 0 items)) = Ok items.
Proof.
  unfold spread. f_equal.
  rewrite arrayLength_indexed.
  destruct items as [|v rest] eqn:E; [reflexivity|]. rewrite <- E.
  replace (0 + List.length items)%nat with (List.length items) by lia.
  apply map_seq_nth. intros i Hi. unfold getProp.
  rewrite lookup_indexed.
  destruct (nth_error items i) eqn:En; [reflexivity|].
  apply nth_error_None in En. lia.
Qed.

Lemma find_indexed (items : list (value num)) (from i : nat) :
  find (fun kv : string * option (value num) =>
          fst kv =? string_of_nat (from + i))
       (map (fun kv => (fst kv, Some (snd kv))) (indexed from items))
  = option_map (fun v => (string_of_nat (from + i), Some v))
               (nth_error items i).
Proof.
  revert from i. induction items as [|v rest IH]; intros from i.
  - now destruct i.
  - cbn [indexed map find fst snd]. destruct i as [|i].
    + rewrite Nat.add_0_r, String.eqb_refl. reflexivity.
    + destruct (String.eqb_spec (string_of_nat from)
                                (string_of_nat (from + S i))) as [E|_].
      * apply string_of_nat_injective in E. lia.
      * replace (from + S i)%nat with (S from + i)%nat by lia.
        apply IH.
Qed.

Lemma representable_props (isArray : bool) (props : object num) :
  representable (VObj isArray props) = true ->
  Forall (fun kv => representable (snd kv) = true) props.
Proof.
  cbn [representable]. intros Hr. apply andb_prop in Hr.
  destruct Hr as [Hall _]. rewrite forallb_forall in Hall.
  now apply Forall_forall.
Qed.

(** What JSON can write, it reads back unchanged. *)
Lemma toJSON_representable (v : value num) :
  representable v = true -> toJSON v = Some v.
Proof.
  induction v as [| | b | n | s | isArray props IH]
    using value_nested_ind; intros Hr.
  - discriminate.
  - reflexivity.
  - reflexivity.
  - cbn in Hr. apply andb_prop in Hr. destruct Hr as [Hf Hz].
    apply negb_true_iff in Hz. cbn. now rewrite Hf, Hz.
  - reflexivity.
  - pose proof (representable_props _ _ Hr) as Hall.
    assert (Conv : map (fun kv => (fst kv, toJSON (snd kv))) props
                   = map (fun kv => (fst kv, Some (snd kv))) props).
    { apply map_ext_in. intros kv Hin. f_equal.
      rewrite Forall_forall in IH, Hall. apply IH; auto. }
    cbn [toJSON]. rewrite Conv.
    cbn [representable] in Hr. apply andb_prop in Hr.
    destruct Hr as [_ Hkeys].
    destruct isArray.
    + apply keysCount_indexed in Hkeys.
      remember (map snd props) as items eqn:Eitems.
      clear Eitems IH Hall Conv. subst props.
      f_equal. unfold arrayOf. f_equal. f_equal.
      rewrite arrayLength_indexed.
      destruct items as [|v0 rest] eqn:E; [reflexivity|]. rewrite <- E.
      replace (0 + List.length items)%nat with (List.length items) by lia.
      apply map_seq_nth. intros i Hi.
      rewrite (find_indexed items 0 i).
      destruct (nth_error items i) eqn:En; [reflexivity|].
      apply nth_error_None in En. lia.
    + f_equal. f_equal. clear. induction props as [|[k v] rest IHp];
        [reflexivity|]. cbn. now rewrite IHp.
Qed.

Lemma setProp_same (key : string) (v : value num) (props : object num) :
  lookup key props = Some v -> setProp key v props = props.
Proof.
  induction props as [|[k old] rest IH]; [discriminate|].
  cbn. destruct (k =? key) eqn:E.
  - intros [= ->]. reflexivity.
  - intros Hl. now rewrite IH.
Qed.

Lemma lookup_distinct (props : object num) (key : string) (v : value num) :
  keysDistinct (map fst props) = true ->
  In (key, v) props -> lookup key props = Some v.
Proof.
  induction props as [|[k old] rest IH]; [contradiction|].
  cbn. intros Hd Hin. apply andb_prop in Hd. destruct Hd as [Hk Hrest].
  destruct Hin as [[= -> ->]|Hin].
  - now rewrite String.eqb_refl.
  - destruct (String.eqb_spec k key) as [->|_]; [|now apply IH].
    apply negb_true_iff in Hk.
    assert (existsb (String.eqb key) (map fst rest) = true).
    { apply existsb_exists. exists key. split.
      - apply in_map_iff. now exists (key, v).
      - apply String.eqb_refl. }
    congruence.
Qed.

(** Merging a representable object into itself changes nothing. *)
Lemma applyState_self (v : value num) :
  representable v = true ->
  forall props, v = VObj false props -> applyState props v = props.
Proof.
  induction v as [| | b | n | s | isArray props0 IH]
    using value_nested_ind; intros Hr props E; try discriminate.
  injection E as -> ->.
  pose proof (representable_props _ _ Hr) as Hall.
  cbn [representable] in Hr. apply andb_prop in Hr.
  destruct Hr as [_ Hkeys].
  cbn [applyState].
  assert (Loop : forall entries,
             incl entries props ->
             fold_left (assign applyState) entries props = props).
  { induction entries as [|[key sv] rest IHe]; intros Hincl;
      [reflexivity|].
    cbn [fold_left].
    assert (Hin : In (key, sv) props) by (apply Hincl; now left).
    assert (Step : assign applyState props (key, sv) = props).
    { unfold assign. cbn [fst snd]. unfold getProp.
      rewrite (lookup_distinct props key sv Hkeys Hin).
      rewrite Forall_forall in IH, Hall.
      specialize (IH _ Hin). specialize (Hall _ Hin). cbn in IH, Hall.
      destruct sv as [| | b | n | s | [|] sp];
        try (apply setProp_same;
             now apply lookup_distinct).
      rewrite (IH Hall sp eq_refl).
      apply setProp_same. now apply lookup_distinct. }
    rewrite Step. apply IHe. intros e He. apply Hincl. now right. }
  apply Loop. apply incl_refl.
Qed.

Lemma cloneState_representable (v : value num) :
  representable v = true -> cloneState v = Ok v.
Proof.
  intros Hr. unfold cloneState, JSON_stringify.
  now rewrite toJSON_representable.
Qed.

Lemma representable_object (props : object num) :
  Forall (fun kv => representable (snd kv) = true) props ->
  keysDistinct (map fst props) = true ->
  representable (VObj false props) = true.
Proof.
  intros Hall Hkeys. cbn [representable]. rewrite Hkeys, andb_true_r.
  apply forallb_forall. now apply Forall_forall.
Qed.

Lemma getProp_lookup (key : string) (props : object num) (v : value num) :
  getProp key props = v -> representable v = true ->
  lookup key props = Some v.
Proof.
  unfold getProp. destruct (lookup key props) as [w|].
  - now intros ->.
  - intros <-. discriminate.
Qed.

(** Assigning to a property the representable value it already holds
    changes nothing. *)
Lemma assign_self (target : object num) (key : string) (v : value num) :
  representable v = true -> lookup key target = Some v ->
  assign applyState target (key, v) = target.
Proof.
  intros Hr Hl. unfold assign. cbn [fst snd]. unfold getProp. rewrite Hl.
  destruct v as [| | b | n | s | [|] sp]; try now apply setProp_same.
  rewrite (applyState_self Hr eq_refl). now apply setProp_same.
Qed.

(** C8, amended.  For every state whose persisted part JSON can write
    (finite numbers other than [-0], strings, booleans, [null], dense
    arrays and objects of these in the four configuration objects, an
    array of such as palette colours and such a value as canvas
    background), exporting the state and importing the result succeeds
    and leaves every state object as it was. *)
Theorem export_then_import_is_identity (s : Store.t num) :
  persistable s = true ->
  exportThenImport s = Ok (s, true).
Proof.
  unfold persistable. intros Hp.
  repeat match type of Hp with
         | (_ && _)%bool = true =>
             let Hlast := fresh "Hr" in
             apply andb_prop in Hp; destruct Hp as [Hp Hlast]
         end.
  destruct (getProp "colors" (Store.palette s))
    as [| | | | | [|] items] eqn:Ecolors; try discriminate.
  unfold exportThenImport, exportCurrentState.
  rewrite !cloneState_representable by assumption. cbn [bind].
  rewrite Ecolors.
  assert (Hitems : items = indexed 0 (map snd items)).
  { apply keysCount_indexed.
    cbn [representable] in Hr0. apply andb_prop in Hr0. tauto. }
  rewrite Hitems at 1. rewrite spread_dense. cbn [bind].
  unfold arrayOf. rewrite <- Hitems.
  assert (Hdata :
    representable
      (VObj false
         [("grid", VObj false (Store.grid s));
          ("shape", VObj false (Store.shape s));
          ("pattern", VObj false (Store.pattern s));
          ("animation", VObj false (Store.animation s));
          ("palette", VObj false [("colors", VObj true items)]);
          ("canvas",
           VObj false
             [("background", getProp "background" (Store.canvas s))])])
    = true).
  { assert (Single : forall key v,
              representable v = true ->
              representable (VObj false [(key, v)]) = true).
    { intros key v Hv. apply representable_object; [|reflexivity].
      constructor; [exact Hv|constructor]. }
    apply representable_object; [|reflexivity].
    repeat apply Forall_cons; try apply Forall_nil; cbn [snd];
      try assumption; now apply Single. }
  unfold JSON_stringify. rewrite (toJSON_representable _ Hdata).
  unfold importState, JSON_parse, applyPreset, andThen, eval, whenTruthy,
    mergeInto, setPaletteColors, getMember.
  cbn -[applyState setProp spread].
  rewrite !(applyState_self (v := VObj false _)) by (assumption || reflexivity).
  rewrite Hitems at 1. rewrite spread_dense.
  unfold arrayOf. rewrite <- Hitems.
  rewrite setProp_same by (apply getProp_lookup; assumption).
  cbn -[assign]. rewrite assign_self;
    [| assumption | apply getProp_lookup; [reflexivity | assumption]].
  destruct s; reflexivity.
Qed.

End RoundTrip.

(** The initial state of [state.js] on doubles. *)
Lemma round_trip_of_default_store :
  exportThenImport (defaultStore (num := float)) = Ok (defaultStore, true).
Proof.
  apply export_then_import_is_identity. vm_compute. reflexivity.
Defined.

(* ===================================================================== *)
(** ** Instances of the general statements *)
(* ===================================================================== *)

(** Scale mode ['none'] on the default grid: the size is
    [60 * 0.8 * 0.8]. *)
Lemma uniform_scale_applies_size_twice :
  calculateScale IdealInputs.uniform (Ideal.Fin (/ 2))
  = Shape.size (shape IdealInputs.uniform)
  /\ getShapeSize IdealInputs.flatNoise IdealInputs.uniform
                  (Ideal.Fin (/ 2)) (Ideal.Fin 0)
     = mul (mul (Grid.cellSize (grid IdealInputs.uniform))
                (Shape.size (shape IdealInputs.uniform)))
           (Shape.size (shape IdealInputs.uniform)).
Proof.
  apply (getShapeSize_none_applies_size_twice IdealInputs.flatNoise);
    reflexivity.
Defined.

(** The modes ["bounce"], ["rainbow"] and ["kaleidoscope"]. *)
Lemma unknown_modes_example :
  calculateScale IdealInputs.unknownModes (Ideal.Fin (/ 2))
  = calculateScale
      (withShape (setScaleMode "linear" (shape IdealInputs.unknownModes))
                 IdealInputs.unknownModes)
      (Ideal.Fin (/ 2))
  /\ getFillColor IdealInputs.unknownModes (Ideal.Fin (/ 2)) 3 (Ideal.Fin 0)
     = Ok (CStr "#4a9eff")
  /\ applySymmetry IdealInputs.unknownModes (Ideal.Fin 30) (Ideal.Fin 30)
                   0 0 (Ideal.Fin (/ 2)) (Ideal.Fin 360, Ideal.Fin 360)
     = [Cell.mk (Ideal.Fin 30) (Ideal.Fin 30) 0 0 (Ideal.Fin (/ 2))
                true None].
Proof.
  destruct (unknown_modes_fall_back_to_defaults IdealInputs.unknownModes)
    as (Scale & Fill & Symmetry).
  split; [|split].
  - apply Scale. unfold knownScaleMode. cbn. intuition discriminate.
  - apply Fill. unfold knownFillMode. cbn. intuition discriminate.
  - apply Symmetry. unfold knownSymmetry. cbn. intuition discriminate.
Defined.

(** Cell 3 of the default palette: [colors[21 mod 5] = colors[1]]. *)
Lemma random_fill_of_cell_3 :
  getFillColor IdealInputs.scattered (Ideal.Fin (/ 2)) 3 (Ideal.Fin 0)
  = Ok (CStr "#ff6b6b").
Proof.
  exact (proj1 (random_fill_is_index_times_7_mod_N
                  IdealInputs.scattered (Ideal.Fin (/ 2)) 3 (Ideal.Fin 0)
                  eq_refl)).
Defined.


(* ===================================================================== *)
(** ** Further runs on doubles *)
(* ===================================================================== *)

Section MoreDoubles.
Context `{JsTrig float}.
Variable noise2D : float -> float -> float.

Local Open Scope float_scope.

(** The default grid (12 by 12 cells of 60): its centre and corners. *)
Example default_grid_distances :
  getGridCenter defaultState = (360, 360)
  /\ getNormalizedDistance defaultState 360 360 = 0
  /\ map (fun p => getNormalizedDistance defaultState (fst p) (snd p))
         [(0, 0); (720, 0); (0, 720); (720, 720)]
     = [1; 1; 1; 1].
Proof. repeat split; vm_compute; reflexivity. Qed.

(** The gradient over the default palette at a few distances. *)
Example default_gradient_samples :
  map (fun d => getFillColor Inputs.gradient d 0 0) [0; 0.25; 0.5; 1]
  = [Ok (CStr "#4a9eff"); Ok (CStr "#ff6b6b"); Ok (CStr "#4ecdc4");
     Ok (CStr "#a8e6cf")].
Proof. vm_compute. reflexivity. Qed.

(** With the animation enabled the draw loop throws before drawing;
    with the defaults it draws the 144 cells. *)
Example draw_animated_and_default :
  draw noise2D Inputs.animated 0 = Throw (ReferenceError "animation")
  /\ exists calls,
       draw noise2D defaultState 0 = Ok calls
       /\ List.length calls = 144%nat.
Proof.
  split; [reflexivity|].
  eexists. split; [vm_compute; reflexivity|reflexivity].
Qed.

End MoreDoubles.

(* ===================================================================== *)
(** ** Further properties, for every implementation of the arithmetic *)
(* ===================================================================== *)

Section MoreGeneric.
Context {num : Type} `{JsNumber num} `{JsTrig num}.

Local Open Scope js_scope.

Lemma loopIndices_range (n k : Z) :
  In k (loopIndices n) -> (0 <= k < n)%Z.
Proof.
  unfold loopIndices. rewrite in_map_iff. intros (i & <- & Hi).
  apply in_seq in Hi. lia.
Qed.

(** What a symmetry instance keeps of its base cell. *)
Lemma applySymmetry_instance (st : State num) (x y : num) (col row : Z)
    (dist : num) (center : num * num) (c : Cell.t num) :
  In c (applySymmetry st x y col row dist center) ->
  Cell.dist c = dist
  /\ (Cell.col c = col \/ Cell.col c = (Grid.cols (grid st) - 1 - col)%Z)
  /\ (Cell.row c = row \/ Cell.row c = (Grid.rows (grid st) - 1 - row)%Z).
Proof.
  unfold applySymmetry.
  destruct (Grid.symmetry (grid st) =? "horizontal");
    [cbn; intuition (subst; cbn; auto)|].
  destruct (Grid.symmetry (grid st) =? "vertical");
    [cbn; intuition (subst; cbn; auto)|].
  destruct (Grid.symmetry (grid st) =? "both");
    [cbn; intuition (subst; cbn; auto)|].
  destruct (Grid.symmetry (grid st) =? "radial");
    [|cbn; intuition (subst; cbn; auto)].
  intros [<-|Hin]; [cbn; auto|].
  apply in_map_iff in Hin. destruct Hin as (i & <- & _). cbn. auto.
Qed.

Lemma getGridCells_base (st : State num) (c : Cell.t num) :
  In c (getGridCells st) ->
  exists row col x y dist center,
    (0 <= row < Grid.rows (grid st))%Z
    /\ (0 <= col < Grid.cols (grid st))%Z
    /\ In c (applySymmetry st x y col row dist center).
Proof.
  unfold getGridCells. rewrite in_flat_map. intros (row & Hrow & Hin).
  rewrite in_flat_map in Hin. destruct Hin as (col & Hcol & Hin).
  apply loopIndices_range in Hrow, Hcol.
  do 6 eexists. split; [exact Hrow|]. split; [exact Hcol|]. exact Hin.
Qed.

(** X1.  Every cell the enumerator emits, original or copy, carries a
    column in [0, cols) and a row in [0, rows). *)
Theorem emitted_cells_stay_in_grid (st : State num) (c : Cell.t num) :
  In c (getGridCells st) ->
  (0 <= Cell.col c < Grid.cols (grid st))%Z
  /\ (0 <= Cell.row c < Grid.rows (grid st))%Z.
Proof.
  intros Hin.
  destruct (getGridCells_base st c Hin)
    as (row & col & x & y & dist & center & Hrow & Hcol & Hc).
  destruct (applySymmetry_instance _ _ _ _ _ _ _ _ Hc)
    as (_ & [Ec|Ec] & [Er|Er]); rewrite Ec, Er; lia.
Qed.

Lemma filter_flat_map {A B : Type} (p : B -> bool) (f : A -> list B)
    (l : list A) :
  filter p (flat_map f l) = flat_map (fun a => filter p (f a)) l.
Proof.
  induction l as [|a l IH]; [reflexivity|].
  cbn. now rewrite filter_app, IH.
Qed.

Lemma applySymmetry_one_original (st : State num) (x y : num) (col row : Z)
    (dist : num) (center : num * num) :
  List.length (filter (fun c => Cell.isOriginal c)
                      (applySymmetry st x y col row dist center)) = 1%nat.
Proof.
  destruct (applySymmetry_original_first st x y col row dist center)
    as (copies & -> & Hcopies).
  cbn. f_equal.
  induction Hcopies as [|c rest Hc _ IH]; [reflexivity|].
  cbn. now rewrite Hc.
Qed.

(** X2.  Whatever the symmetry mode and count, exactly one instance per
    base cell is marked original: the originals number
    [rows * cols]. *)
Theorem originals_number_rows_times_cols (st : State num) :
  List.length (filter (fun c => Cell.isOriginal c) (getGridCells st))
  = (Z.to_nat (Grid.rows (grid st)) * Z.to_nat (Grid.cols (grid st)))%nat.
Proof.
  unfold getGridCells. rewrite filter_flat_map.
  rewrite flat_map_length_const
    with (k := Z.to_nat (Grid.cols (grid st))).
  - now rewrite loopIndices_length.
  - intros row. rewrite filter_flat_map.
    rewrite flat_map_length_const with (k := 1%nat).
    + rewrite loopIndices_length. lia.
    + intros col. apply applySymmetry_one_original.
Qed.

(** X3.  The two index-keyed fill modes are periodic in the cell index
    with the palette length as period: cell [index + N] gets the colour
    of cell [index]. *)
Theorem index_fill_is_periodic (st : State num) (dist : num) (index : nat)
    (time : num) :
  Shape.fillMode (shape st) = "palette"
  \/ Shape.fillMode (shape st) = "random" ->
  getFillColor st dist (index + List.length (Palette.colors (palette st)))
               time
  = getFillColor st dist index time.
Proof.
  set (N := List.length (Palette.colors (palette st))).
  intros [E|E]; unfold getFillColor; rewrite E;
    cbn [String.eqb Ascii.eqb Bool.eqb]; rewrite !arrayGetMod_nth; fold N.
  - destruct N as [|n] eqn:EN.
    + apply List.length_zero_iff_nil in EN. rewrite EN.
      now rewrite !nth_error_nil.
    + replace (index + S n)%nat with (index + 1 * S n)%nat by lia.
      now rewrite Nat.Div0.mod_add.
  - destruct N as [|n] eqn:EN.
    + apply List.length_zero_iff_nil in EN. rewrite EN.
      now rewrite !nth_error_nil.
    + replace ((index + S n) * 7)%nat with (index * 7 + 7 * S n)%nat by lia.
      now rewrite Nat.Div0.mod_add.
Qed.

(** X4.  The fill colour never reads the animation time and the size
    never reads [pattern.noiseIntensity]: whatever [animation.animateColor]
    and [pattern.noiseIntensity] are set to, a cell is drawn the same. *)
Theorem animateColor_and_noiseIntensity_change_nothing
    (noise2D : num -> num -> num) (st : State num) (cell : Cell.t num)
    (index : nat) (time : num) (animateColor : bool) (intensity : num) :
  drawCell noise2D
    (withAnimation (setAnimateColor animateColor (animation st))
       (withPattern (setNoiseIntensity intensity (pattern st)) st))
    cell index time
  = drawCell noise2D st cell index time
  /\ forall time', getFillColor st (Cell.dist cell) index time'
                   = getFillColor st (Cell.dist cell) index time.
Proof. split; reflexivity. Qed.

(** X5.  A stroke mode other than ['none'] and ['solid'] strokes with the
    fill colour of the same cell, at every time. *)
Theorem stroke_follows_fill (st : State num) (dist : num) (index : nat)
    (time : num) :
  Shape.strokeMode (shape st) <> "none" ->
  Shape.strokeMode (shape st) <> "solid" ->
  getStrokeColor st dist index = getFillColor st dist index time.
Proof.
  intros Hn Hs. unfold getStrokeColor.
  rewrite (proj2 (String.eqb_neq _ _) Hn), (proj2 (String.eqb_neq _ _) Hs).
  reflexivity.
Qed.

(** X6.  The SVG export multiplies the size by [shape.size] once more than
    the canvas does: with the animation not playing, a cell's SVG size is
    its drawn size times [shape.size], while position and rotation at
    time 0 agree. *)
Theorem svg_size_is_drawn_size_times_shape_size
    (noise2D : num -> num -> num) (st : State num) (cell : Cell.t num)
    (index : nat) (call : DrawCall.t num) (s : SvgShape.t num) :
  Animation.enabled (animation st) && Animation.playing (animation st)
  = false ->
  drawCell noise2D st cell index (of_Z 0) = Ok call ->
  exportSVG_shape noise2D st cell index = Ok s ->
  SvgShape.size s = DrawCall.size call * Shape.size (shape st)
  /\ SvgShape.rotation s = DrawCall.rotation call
  /\ SvgShape.x s = DrawCall.x call /\ SvgShape.y s = DrawCall.y call
  /\ SvgShape.fill s = DrawCall.fill call.
Proof.
  intros Hanim. unfold drawCell, exportSVG_shape. rewrite Hanim.
  cbn [andb].
  destruct (getFillColor st (Cell.dist cell) index (of_Z 0)) as [fill|];
    [|discriminate].
  destruct (getStrokeColor st (Cell.dist cell) index) as [stroke|];
    [|discriminate].
  cbn. intros [= <-] [= <-]. cbn. repeat split.
Qed.

End MoreGeneric.

(* ===================================================================== *)
(** ** Further properties in exact arithmetic *)
(* ===================================================================== *)

Module IdealMore.
Import Ideal IdealFacts.
Local Open Scope R_scope.

(** The base cell an emitted cell comes from. *)
Lemma getGridCells_origin (st : State xreal) (c : Cell.t xreal) :
  In c (getGridCells st) ->
  exists row col,
    In c (applySymmetry st (cellX st col) (cellY st row) col row
            (getNormalizedDistance st (cellX st col) (cellY st row))
            (getGridCenter st)).
Proof.
  unfold getGridCells. rewrite in_flat_map. intros (row & _ & Hin).
  rewrite in_flat_map in Hin. destruct Hin as (col & _ & Hin).
  exists row, col. exact Hin.
Qed.

Section Lattice.
Variable st : State xreal.
Variables c ox oy : R.
Hypothesis cellSize_finite : Grid.cellSize (grid st) = Fin c.
Hypothesis offsetX_finite : Grid.offsetX (grid st) = Fin ox.
Hypothesis offsetY_finite : Grid.offsetY (grid st) = Fin oy.

Let cx : R := IZR (Grid.cols (grid st)) * c / 2 + ox.
Let cy : R := IZR (Grid.rows (grid st)) * c / 2 + oy.

Lemma cellX_finite (col : Z) : cellX st col = Fin (IZR col * c + c / 2 + ox).
Proof.
  unfold cellX. rewrite cellSize_finite, offsetX_finite.
  ideal_ops. fin_arith. reflexivity.
Qed.

Lemma cellY_finite (row : Z) : cellY st row = Fin (IZR row * c + c / 2 + oy).
Proof.
  unfold cellY. rewrite cellSize_finite, offsetY_finite.
  ideal_ops. fin_arith. reflexivity.
Qed.

Lemma center_finite : getGridCenter st = (Fin cx, Fin cy).
Proof. now apply getGridCenter_finite. Qed.

(** Two points at the same Euclidean distance from the centre have the
    same normalised distance, whatever the half-diagonal is. *)
Lemma same_radius_same_distance (x y x' y' : R) :
  (x' - cx) * (x' - cx) + (y' - cy) * (y' - cy)
  = (x - cx) * (x - cx) + (y - cy) * (y - cy) ->
  getNormalizedDistance st (Fin x') (Fin y')
  = getNormalizedDistance st (Fin x) (Fin y).
Proof.
  intros E.
  rewrite !(getNormalizedDistance_finite st cellSize_finite offsetX_finite
              offsetY_finite).
  fold cx cy. now rewrite E.
Qed.

End Lattice.

Lemma atan2_finite (b a : R) : exists alpha, Ideal.atan2 (Fin b) (Fin a) = Fin alpha.
Proof.
  unfold Ideal.atan2. destruct (sgn a), (sgn b); eexists; reflexivity.
Qed.

(** A radial copy lies on the circle of its base cell. *)
Lemma radial_copy_radius (st : State xreal) (c ox oy : R) (col row i : Z) :
  Grid.cellSize (grid st) = Fin c ->
  Grid.offsetX (grid st) = Fin ox ->
  Grid.offsetY (grid st) = Fin oy ->
  IZR (Grid.symmetryCount (grid st)) <> 0 ->
  let cx := IZR (Grid.cols (grid st)) * c / 2 + ox in
  let cy := IZR (Grid.rows (grid st)) * c / 2 + oy in
  let x := IZR col * c + c / 2 + ox in
  let y := IZR row * c + c / 2 + oy in
  let angle :=
    add (Math_atan2 (sub (Fin y) (Fin cy)) (sub (Fin x) (Fin cx)))
        (div (mul (mul Math_PI (of_Z 2)) (of_Z i))
             (of_Z (Grid.symmetryCount (grid st)))) in
  let radius :=
    Math_sqrt (add (mul (sub (Fin x) (Fin cx)) (sub (Fin x) (Fin cx)))
                   (mul (sub (Fin y) (Fin cy)) (sub (Fin y) (Fin cy)))) in
  exists x' y',
    add (Fin cx) (mul (Math_cos angle) radius) = Fin x'
    /\ add (Fin cy) (mul (Math_sin angle) radius) = Fin y'
    /\ (x' - cx) * (x' - cx) + (y' - cy) * (y' - cy)
       = (x - cx) * (x - cx) + (y - cy) * (y - cy).
Proof.
  intros Ec Ex Ey Hn cx cy x y angle radius.
  unfold angle, radius. ideal_ops. cbn [Math_atan2 Math_PI Math_cos Math_sin IdealTrig].
  fin_arith.
  destruct (atan2_finite (y - cy) (x - cx)) as (alpha & ->).
  fin_arith.
  rewrite sqrt_fin by apply sum_of_squares_nonneg.
  cbn [lift]. fin_arith.
  do 2 eexists. split; [reflexivity|]. split; [reflexivity|].
  set (theta := alpha + PI * 2 * IZR i / IZR (Grid.symmetryCount (grid st))).
  set (q := (x - cx) * (x - cx) + (y - cy) * (y - cy)).
  assert (Hq : 0 <= q) by apply sum_of_squares_nonneg.
  pose proof (sqrt_sqrt q Hq) as Hs.
  pose proof (sin2_cos2 theta) as Ht. unfold Rsqr in Ht.
  replace ((cx + cos theta * sqrt q - cx) * (cx + cos theta * sqrt q - cx)
           + (cy + sin theta * sqrt q - cy) * (cy + sin theta * sqrt q - cy))
    with ((sin theta * sin theta + cos theta * cos theta)
          * (sqrt q * sqrt q)) by ring.
  rewrite Ht, Hs. ring.
Qed.

Lemma radialIndices_range (n i : Z) :
  In i (radialIndices n) -> (1 <= i < n)%Z.
Proof.
  unfold radialIndices. rewrite in_map_iff. intros (k & <- & Hk).
  apply in_seq in Hk. lia.
Qed.




(** The easing of [calculateScale], as a real between 0 and 1. *)
Lemma scale_easing (st : State xreal) (a b p d : R) :
  Shape.scaleMode (shape st) <> "none" ->
  Shape.scaleMin (shape st) = Fin a ->
  Shape.scaleMax (shape st) = Fin b ->
  Shape.scalePower (shape st) = Fin p ->
  0 <= d <= 1 ->
  exists e,
    0 <= e <= 1
    /\ calculateScale st (Fin d) = Fin (a + (b - a) * e)
    /\ (Shape.scaleMode (shape st) <> "swirl" ->
        (d = 0 -> e = 1) /\ (d = 1 -> e = 0))
    /\ (Shape.scaleMode (shape st) = "swirl" -> d = 1 -> e = / 2).
Proof.
  intros Hmode Ea Eb Ep Hd. unfold calculateScale.
  rewrite (proj2 (String.eqb_neq _ _) Hmode), Ea, Eb, Ep.
  assert (Half : dec 1 2 = Fin (/ 2)).
  { unfold dec. ideal_ops. rewrite div_fin by lra. f_equal. lra. }
  destruct (Shape.scaleMode (shape st) =? "easeIn") eqn:M1.
  { unfold easings_easeIn. ideal_ops. fin_arith.
    exists ((1 - d) * (1 - d)). split; [nra|]. split; [reflexivity|].
    split; [split; intros ->; ring|].
    apply String.eqb_eq in M1. rewrite M1. discriminate. }
  destruct (Shape.scaleMode (shape st) =? "easeOut") eqn:M2.
  { unfold easings_easeOut. ideal_ops. fin_arith.
    exists (1 - (1 - (1 - d)) * (1 - (1 - d))). split; [nra|].
    split; [reflexivity|]. split; [split; intros ->; ring|].
    apply String.eqb_eq in M2. rewrite M2. discriminate. }
  destruct (Shape.scaleMode (shape st) =? "easeInOut") eqn:M3.
  { unfold easings_easeInOut. rewrite Half. ideal_ops. fin_arith.
    unfold Ideal.lt.
    destruct (Rlt_dec (1 - d) (/ 2)) as [Hlt|Hge].
    - fin_arith. exists (2 * (1 - d) * (1 - d)). split; [nra|].
      split; [reflexivity|]. split.
      + split; intros ->; [lra|ring].
      + apply String.eqb_eq in M3. rewrite M3. discriminate.
    - fin_arith.
      exists (1 - (IZR (-2) * (1 - d) + 2) * (IZR (-2) * (1 - d) + 2) / 2).
      split; [|split; [reflexivity|split]].
      + assert (0 <= IZR (-2) * (1 - d) + 2 <= 1) by lra. nra.
      + split; intros ->; [field|lra].
      + apply String.eqb_eq in M3. rewrite M3. discriminate. }
  destruct (Shape.scaleMode (shape st) =? "step") eqn:M4.
  { unfold easings_step, gtb. rewrite Half. ideal_ops. fin_arith.
    unfold Ideal.lt.
    destruct (Rlt_dec (/ 2) (1 - d)) as [Hlt|Hge].
    - exists 1. split; [lra|]. split; [reflexivity|]. split.
      + split; intros ->; [reflexivity|lra].
      + apply String.eqb_eq in M4. rewrite M4. discriminate.
    - exists 0. split; [lra|]. split; [reflexivity|]. split.
      + split; intros ->; [lra|reflexivity].
      + apply String.eqb_eq in M4. rewrite M4. discriminate. }
  destruct (Shape.scaleMode (shape st) =? "swirl") eqn:M5.
  { unfold easings_swirl. rewrite Half.
    cbn [Math_sin Math_PI IdealTrig]. ideal_ops. fin_arith.
    cbn [lift]. fin_arith.
    exists (sin ((1 - d) * PI * p) * / 2 + / 2).
    pose proof (SIN_bound ((1 - d) * PI * p)) as [Hlo Hhi].
    split; [lra|]. split; [reflexivity|]. split.
    - apply String.eqb_eq in M5. intros Hne. contradiction.
    - intros _ ->. replace ((1 - 1) * PI * p) with 0 by ring.
      rewrite sin_0. lra. }
  unfold easings_linear. ideal_ops. fin_arith.
  exists (1 - d). split; [lra|]. split; [reflexivity|]. split.
  - split; intros ->; ring.
  - intros E. rewrite E in M5. discriminate.
Qed.





Lemma times_one (a : xreal) : Ideal.times a (Fin 1) = a.
Proof.
  destruct a as [x| | |]; cbn; try reflexivity.
  - f_equal. ring.
  - now rewrite sgn_pos by lra.
  - now rewrite sgn_pos by lra.
Qed.

Lemma export_drawCell_at_scale_1 (noise2D : xreal -> xreal -> xreal)
    (st : State xreal) (cell : Cell.t xreal) (index : nat) (time : xreal) :
  Animation.enabled (animation st) = false ->
  export_drawCell noise2D st cell index (Fin 1) time
  = drawCell noise2D st cell index time.
Proof.
  intros Hoff. unfold export_drawCell, drawCell. rewrite Hoff.
  cbn [andb]. ideal_ops. now rewrite !times_one.
Qed.



(** *** Colours *)

Lemma blend_same (v : Z) (t : R) : blend v v t = v.
Proof.
  unfold blend. replace (IZR v + (IZR v - IZR v) * t) with (IZR v) by ring.
  apply Int_part_IZR_half.
Qed.

(** X16.  Interpolating a six-digit hexadecimal colour with itself gives
    that colour, in lower case, for every finite factor: a gradient
    between equal colours is constant. *)
Theorem interpolating_a_colour_with_itself (c : string) (t : R) :
  isHexColor c = true ->
  interpolateColor (CStr c) (CStr c) (Fin t) = Ok (toLowerCase c).
Proof.
  intros Hc. destruct (hexColor_channels c Hc) as (r & g & b & Ch & Txt).
  rewrite (@interpolateColor_blend c c t _ _ _ _ _ _ Ch Ch).
  now rewrite !blend_same, Txt.
Qed.

Lemma channelInRange_everywhere (a b : ascii) : channelInRange a b = true.
Proof.
  assert (All : forallb (fun a => forallb (channelInRange a) allAscii)
                        allAscii = true) by (vm_compute; reflexivity).
  rewrite forallb_forall in All.
  specialize (All a (allAscii_complete a)).
  rewrite forallb_forall in All.
  exact (All b (allAscii_complete b)).
Qed.

Lemma hexColor_channel_range (s : string) (r g b : Z) :
  isHexColor s = true -> channels s = Some (r, g, b) ->
  (0 <= r <= 255 /\ 0 <= g <= 255 /\ 0 <= b <= 255)%Z.
Proof.
  unfold isHexColor.
  destruct s as [|hash digits]; [discriminate|].
  destruct (Ascii.eqb hash "#") eqn:Eh;
    [apply Ascii.eqb_eq in Eh; subst hash
    |intros Hs; exfalso; revert Hs Eh;
     destruct hash as [[] [] [] [] [] [] [] []]; discriminate].
  intros Hs. apply andb_prop in Hs. destruct Hs as [Hlen Hdig].
  apply Nat.eqb_eq in Hlen.
  destruct digits as [|a1 [|a2 [|a3 [|a4 [|a5 [|a6 [|a7 rest]]]]]]];
    try discriminate.
  cbn in Hdig.
  repeat match type of Hdig with
         | (_ && _)%bool = true =>
             apply andb_prop in Hdig; destruct Hdig as [? Hdig]
         end.
  unfold channels, slice. cbn [substring Nat.sub].
  pose proof (channelInRange_everywhere a1 a2) as R1.
  pose proof (channelInRange_everywhere a3 a4) as R2.
  pose proof (channelInRange_everywhere a5 a6) as R3.
  unfold channelInRange in R1, R2, R3.
  repeat match goal with
         | E : isHexDigit _ = true |- _ => rewrite E in *; clear E
         end.
  cbn [andb] in R1, R2, R3.
  destruct (parseInt16 (String a1 (String a2 ""))); [|discriminate].
  destruct (parseInt16 (String a3 (String a4 ""))); [|discriminate].
  destruct (parseInt16 (String a5 (String a6 ""))); [|discriminate].
  intros [= <- <- <-]. lia.
Qed.

Lemma blend_range (v1 v2 : Z) (t : R) :
  (0 <= v1 <= 255)%Z -> (0 <= v2 <= 255)%Z -> 0 <= t <= 1 ->
  (0 <= blend v1 v2 t <= 255)%Z.
Proof.
  intros [L1 U1] [L2 U2] Ht. unfold blend.
  apply IZR_le in L1, U1, L2, U2.
  set (x := IZR v1 + (IZR v2 - IZR v1) * t).
  assert (Hx : 0 <= x <= 255) by (unfold x; nra).
  destruct (base_Int_part (x + / 2)) as [Hlo Hhi].
  split.
  - apply le_IZR. 
    assert (-1 < IZR (Int_part (x + / 2))) by lra.
    apply lt_IZR in H. apply IZR_le. lia.
  - assert (IZR (Int_part (x + / 2)) < 256) by lra.
    apply lt_IZR in H. lia.
Qed.

Lemma printsTwoDigits_in_range (z : Z) :
  (0 <= z <= 255)%Z -> printsTwoDigits z = true.
Proof.
  intros Hz.
  assert (All : forallb (fun k => printsTwoDigits (Z.of_nat k)) (seq 0 256)
                = true) by (vm_compute; reflexivity).
  rewrite forallb_forall in All.
  specialize (All (Z.to_nat z)). rewrite Z2Nat.id in All by lia.
  apply All. apply in_seq. lia.
Qed.

Lemma printed_colour_is_hex (r g b : Z) :
  (0 <= r <= 255)%Z -> (0 <= g <= 255)%Z -> (0 <= b <= 255)%Z ->
  isHexColor (String "#" (hex2 r ++ hex2 g ++ hex2 b)) = true.
Proof.
  intros Hr Hg Hb.
  apply printsTwoDigits_in_range in Hr, Hg, Hb.
  unfold printsTwoDigits in *.
  destruct (hex2 r) as [|r1 [|r2 [|]]]; try discriminate.
  destruct (hex2 g) as [|g1 [|g2 [|]]]; try discriminate.
  destruct (hex2 b) as [|b1 [|b2 [|]]]; try discriminate.
  apply andb_prop in Hr, Hg, Hb.
  destruct Hr as [? ?], Hg as [? ?], Hb as [? ?].
  cbn. repeat (apply andb_true_intro; split); auto.
Qed.


(** *** A distance that is not a number *)

Lemma getFillColor_distance_NaN (st : State xreal) (index : nat)
    (time : xreal) :
  Shape.fillMode (shape st) = "distance" ->
  getFillColor st XNaN index time
  = Throw (TypeError "Cannot read properties of undefined").
Proof.
  intros E. unfold getFillColor. rewrite E. reflexivity.
Qed.


(** *** Instances *)

Lemma firstMirror_is_emitted :
  In MoreInputs.firstMirror (getGridCells MoreInputs.horizontal).
Proof.
  unfold getGridCells. apply in_flat_map. exists 0%Z.
  split; [cbn; left; reflexivity|].
  apply in_flat_map. exists 0%Z.
  split; [cbn; left; reflexivity|].
  unfold applySymmetry.
  change (Grid.symmetry (grid MoreInputs.horizontal)) with "horizontal".
  cbn [String.eqb Ascii.eqb Bool.eqb].
  right; left. reflexivity.
Defined.










Lemma a_colour_with_itself :
  interpolateColor (CStr "#4A9EFF") (CStr "#4A9EFF") (Fin (/ 3))
  = Ok "#4a9eff".
Proof.
  exact (interpolating_a_colour_with_itself "#4A9EFF" (/ 3) eq_refl).
Defined.



End IdealMore.

(* ===================================================================== *)
(** ** The mask, and instances of the further general statements *)
(* ===================================================================== *)

(** X19.  [getMaskValue] returns 1 on every path: whether a mask image
    is loaded and enabled or not, and wherever the point falls, the mask
    never changes what is drawn. *)
Theorem mask_value_is_always_1 {num : Type} `{JsNumber num}
    (mask : Mask.t num) (canvasWidth canvasHeight x y : num) :
  getMaskValue mask canvasWidth canvasHeight x y = of_Z 1.
Proof.
  unfold getMaskValue.
  destruct (Mask.image mask) as [[imgW imgH]|]; [|reflexivity].
  destruct (negb (Mask.enabled mask)); [reflexivity|].
  destruct (outside _ imgW || outside _ imgH); reflexivity.
Qed.

Lemma first_mirror_stays_in_grid :
  (0 <= Cell.col MoreInputs.firstMirror
   < Grid.cols (grid MoreInputs.horizontal))%Z
  /\ (0 <= Cell.row MoreInputs.firstMirror
      < Grid.rows (grid MoreInputs.horizontal))%Z.
Proof.
  apply emitted_cells_stay_in_grid.
  exact IdealMore.firstMirror_is_emitted.
Defined.

Lemma scattered_fill_repeats_after_5 :
  getFillColor IdealInputs.scattered (Ideal.Fin 0)
    (3 + List.length (Palette.colors (palette IdealInputs.scattered)))
    (Ideal.Fin 0)
  = getFillColor IdealInputs.scattered (Ideal.Fin 0) 3 (Ideal.Fin 0).
Proof.
  apply index_fill_is_periodic. right. reflexivity.
Defined.

Lemma distance_stroke_follows_fill :
  getStrokeColor MoreInputs.rotating (Ideal.Fin 0) 2
  = getFillColor MoreInputs.rotating (Ideal.Fin 0) 2 (Ideal.Fin (/ 2)).
Proof.
  apply stroke_follows_fill; discriminate.
Defined.

Lemma svg_size_of_the_first_cell :
  exists call s,
    drawCell IdealInputs.flatNoise MoreInputs.horizontal
             MoreInputs.firstCell 0 (of_Z 0) = Ok call
    /\ exportSVG_shape IdealInputs.flatNoise MoreInputs.horizontal
                       MoreInputs.firstCell 0 = Ok s
    /\ SvgShape.size s
       = mul (DrawCall.size call) (Shape.size (shape MoreInputs.horizontal)).
Proof.
  eexists. eexists. split; [reflexivity|]. split; [reflexivity|].
  refine (proj1 (svg_size_is_drawn_size_times_shape_size
                   IdealInputs.flatNoise MoreInputs.horizontal
                   MoreInputs.firstCell 0 _ eq_refl eq_refl)).
  reflexivity.
Defined.

(* ===================================================================== *)
(** ** Merging, presets and reset *)
(* ===================================================================== *)

Section MorePersistence.
Context {num : Type} `{JsNumber num}.

Lemma lookup_setProp_same (key : string) (v : value num)
    (props : object num) :
  lookup key (setProp key v props) = Some v.
Proof.
  induction props as [|[k old] rest IH]; cbn.
  - now rewrite String.eqb_refl.
  - destruct (k =? key) eqn:E; cbn; rewrite E; [reflexivity|exact IH].
Qed.

Lemma lookup_setProp_other (key key' : string) (v : value num)
    (props : object num) :
  key' <> key -> lookup key (setProp key' v props) = lookup key props.
Proof.
  intros Hne. induction props as [|[k old] rest IH]; cbn.
  - now rewrite (proj2 (String.eqb_neq key' key) Hne).
  - destruct (k =? key') eqn:E; cbn.
    + apply String.eqb_eq in E. subst k.
      now rewrite (proj2 (String.eqb_neq key' key) Hne).
    + destruct (k =? key); [reflexivity|exact IH].
Qed.

Lemma assign_other (merge : object num -> value num -> object num)
    (target : object num) (entry : string * value num) (key : string) :
  fst entry <> key ->
  lookup key (assign merge target entry) = lookup key target.
Proof.
  intros Hne. unfold assign.
  destruct (snd entry) as [| | | | |[|] sp];
    try now apply lookup_setProp_other.
  destruct (getProp (fst entry) target) as [| | | | |ta tp];
    now apply lookup_setProp_other.
Qed.

Lemma fold_assign_other (merge : object num -> value num -> object num)
    (entries target : object num) (key : string) :
  ~ In key (map fst entries) ->
  lookup key (fold_left (assign merge) entries target) = lookup key target.
Proof.
  revert target. induction entries as [|entry rest IH]; intros target Hni;
    [reflexivity|].
  cbn [fold_left]. rewrite IH.
  - apply assign_other. intros E. apply Hni. now left.
  - intros Hin. apply Hni. now right.
Qed.


Lemma keysDistinct_head (k : string) (keys : list string) :
  keysDistinct (k :: keys) = true ->
  ~ In k keys /\ keysDistinct keys = true.
Proof.
  cbn. intros Hd. apply andb_prop in Hd. destruct Hd as [Hk Hrest].
  split; [|exact Hrest]. intros Hin.
  apply negb_true_iff in Hk.
  assert (existsb (String.eqb k) keys = true).
  { apply existsb_exists. exists k. split; [exact Hin|].
    apply String.eqb_refl. }
  congruence.
Qed.

Lemma assign_same (target : object num) (key : string) (v : value num) :
  lookup key (assign applyState target (key, v))
  = Some (merged v (getProp key target)).
Proof.
  unfold assign, merged. cbn [fst snd].
  destruct v as [| | | | |[|] sp]; try apply lookup_setProp_same.
  destruct (getProp key target) as [| | | | |ta tp];
    apply lookup_setProp_same.
Qed.

Lemma fold_assign_present (entries target : object num) (key : string)
    (v : value num) :
  keysDistinct (map fst entries) = true ->
  In (key, v) entries ->
  lookup key (fold_left (assign applyState) entries target)
  = Some (merged v (getProp key target)).
Proof.
  revert target. induction entries as [|[k0 v0] rest IH];
    intros target Hd Hin; [contradiction|].
  cbn [map fst] in Hd. apply keysDistinct_head in Hd.
  destruct Hd as [Hk0 Hrest]. cbn [fold_left].
  destruct Hin as [[= -> ->]|Hin].
  - rewrite fold_assign_other by exact Hk0. apply assign_same.
  - assert (Hne : k0 <> key).
    { intros ->. apply Hk0. apply in_map_iff. now exists (key, v). }
    rewrite (IH _ Hrest Hin). unfold getProp.
    now rewrite (assign_other applyState target (k0, v0) (key := key)).
Qed.


(** *** [applyPreset], object by object *)

Lemma merge_grid (v : value num) (s : Store.t num) :
  whenTruthy v (mergeInto "grid" v) s
  = (Store.mk (Store.canvas s) (mergedPart v (Store.grid s))
              (Store.shape s) (Store.pattern s) (Store.animation s)
              (Store.palette s), Ok tt).
Proof.
  unfold whenTruthy, mergedPart, skip.
  destruct (truthy v); [reflexivity | destruct s; reflexivity].
Qed.

Lemma merge_shape (v : value num) (s : Store.t num) :
  whenTruthy v (mergeInto "shape" v) s
  = (Store.mk (Store.canvas s) (Store.grid s)
              (mergedPart v (Store.shape s)) (Store.pattern s)
              (Store.animation s) (Store.palette s), Ok tt).
Proof.
  unfold whenTruthy, mergedPart, skip.
  destruct (truthy v); [reflexivity | destruct s; reflexivity].
Qed.

Lemma merge_pattern (v : value num) (s : Store.t num) :
  whenTruthy v (mergeInto "pattern" v) s
  = (Store.mk (Store.canvas s) (Store.grid s) (Store.shape s)
              (mergedPart v (Store.pattern s)) (Store.animation s)
              (Store.palette s), Ok tt).
Proof.
  unfold whenTruthy, mergedPart, skip.
  destruct (truthy v); [reflexivity | destruct s; reflexivity].
Qed.

Lemma merge_animation (v : value num) (s : Store.t num) :
  whenTruthy v (mergeInto "animation" v) s
  = (Store.mk (Store.canvas s) (Store.grid s) (Store.shape s)
              (Store.pattern s) (mergedPart v (Store.animation s))
              (Store.palette s), Ok tt).
Proof.
  unfold whenTruthy, mergedPart, skip.
  destruct (truthy v); [reflexivity | destruct s; reflexivity].
Qed.

Lemma merge_canvas (v : value num) (s : Store.t num) :
  whenTruthy v (mergeInto "canvas" v) s
  = (Store.mk (mergedPart v (Store.canvas s)) (Store.grid s)
              (Store.shape s) (Store.pattern s) (Store.animation s)
              (Store.palette s), Ok tt).
Proof.
  unfold whenTruthy, mergedPart, skip.
  destruct (truthy v); [reflexivity | destruct s; reflexivity].
Qed.

(** [applyPreset] of an object: the four configuration parts are merged
    first, none of which can throw; then come the palette colours, and
    the canvas part if these did not throw. *)
Lemma applyPreset_object (isArray : bool) (props : object num)
    (s : Store.t num) :
  applyPreset (VObj isArray props) s
  = let configured :=
      Store.mk (Store.canvas s)
               (mergedPart (getProp "grid" props) (Store.grid s))
               (mergedPart (getProp "shape" props) (Store.shape s))
               (mergedPart (getProp "pattern" props) (Store.pattern s))
               (mergedPart (getProp "animation" props)
                           (Store.animation s))
               (Store.palette s) in
    match
      whenTruthy (getProp "palette" props)
        (eval (getMember (getProp "palette" props) "colors")
              (fun colors =>
                 whenTruthy colors (eval (spread colors) setPaletteColors)))
        configured
    with
    | (coloured, Ok _) =>
        whenTruthy (getProp "canvas" props)
                   (mergeInto "canvas" (getProp "canvas" props)) coloured
    | (coloured, Throw e) => (coloured, Throw e)
    end.
Proof.
  unfold applyPreset, andThen.
  cbn [getMember]. unfold eval at 1 2 3 4.
  rewrite merge_grid, merge_shape, merge_pattern, merge_animation.
  cbn [Store.grid Store.shape Store.pattern Store.animation Store.palette
       Store.canvas].
  reflexivity.
Qed.

Ltac palette_cases :=
  unfold whenTruthy, eval, setPaletteColors, skip;
  repeat match goal with
         | |- context [truthy ?v] => destruct (truthy v) eqn:?
         | |- context [match getMember ?v ?k with _ => _ end] =>
             destruct (getMember v k) eqn:?
         | |- context [match spread ?v with _ => _ end] =>
             destruct (spread v) eqn:?
         end;
  cbn [fst snd Store.grid Store.shape Store.pattern Store.animation
       Store.palette Store.canvas].

(** The palette step touches nothing but the palette, and not even
    that when it throws. *)
Lemma palette_step (pal : value num) (s : Store.t num) :
  let result :=
    whenTruthy pal
      (eval (getMember pal "colors")
            (fun colors =>
               whenTruthy colors (eval (spread colors) setPaletteColors)))
      s in
  Store.canvas (fst result) = Store.canvas s
  /\ Store.grid (fst result) = Store.grid s
  /\ Store.shape (fst result) = Store.shape s
  /\ Store.pattern (fst result) = Store.pattern s
  /\ Store.animation (fst result) = Store.animation s
  /\ (forall e, snd result = Throw e ->
        Store.palette (fst result) = Store.palette s).
Proof.
  palette_cases; repeat split; try reflexivity; intros e E;
    try reflexivity; discriminate.
Qed.

(** The four configuration objects after [applyPreset] of an object,
    whether or not the palette part throws afterwards. *)
Lemma applyPreset_configuration (isArray : bool) (props : object num)
    (s : Store.t num) :
  let s' := fst (applyPreset (VObj isArray props) s) in
  Store.grid s' = mergedPart (getProp "grid" props) (Store.grid s)
  /\ Store.shape s' = mergedPart (getProp "shape" props) (Store.shape s)
  /\ Store.pattern s'
     = mergedPart (getProp "pattern" props) (Store.pattern s)
  /\ Store.animation s'
     = mergedPart (getProp "animation" props) (Store.animation s).
Proof.
  rewrite applyPreset_object. cbn zeta.
  match goal with
  | |- context [whenTruthy (getProp "palette" props) ?c ?t] =>
      destruct (palette_step (getProp "palette" props) t)
        as (_ & Hg & Hs & Hp & Ha & _);
      destruct (whenTruthy (getProp "palette" props) c t)
        as [coloured [u|e]]
  end;
    cbn [fst snd Store.grid Store.shape Store.pattern Store.animation]
      in *;
    rewrite ?merge_canvas;
    cbn [fst snd Store.grid Store.shape Store.pattern Store.animation];
    repeat split; assumption.
Qed.

(** When [applyPreset] of an object throws, palette and canvas have not
    been touched. *)
Lemma applyPreset_throws_before_palette (isArray : bool)
    (props : object num) (s : Store.t num) (e : jsError) :
  snd (applyPreset (VObj isArray props) s) = Throw e ->
  Store.palette (fst (applyPreset (VObj isArray props) s))
  = Store.palette s
  /\ Store.canvas (fst (applyPreset (VObj isArray props) s))
     = Store.canvas s.
Proof.
  rewrite applyPreset_object. cbn zeta.
  match goal with
  | |- context [whenTruthy (getProp "palette" props) ?c ?t] =>
      destruct (palette_step (getProp "palette" props) t)
        as (Hc & _ & _ & _ & _ & Hpal);
      destruct (whenTruthy (getProp "palette" props) c t)
        as [coloured [u|e']]
  end;
    cbn [fst snd Store.palette Store.canvas] in *.
  - rewrite merge_canvas. discriminate.
  - intros E. split; [now apply (Hpal e')|exact Hc].
Qed.

(** With palette colours that can be spread, [applyPreset] of an object
    completes, and this is the state it leaves. *)
Lemma applyPreset_completes (isArray : bool) (props : object num)
    (s : Store.t num) (colors : value num) (items : list (value num)) :
  getMember (getProp "palette" props) "colors" = Ok colors ->
  truthy colors = true ->
  spread colors = Ok items ->
  applyPreset (VObj isArray props) s
  = (Store.mk
       (mergedPart (getProp "canvas" props) (Store.canvas s))
       (mergedPart (getProp "grid" props) (Store.grid s))
       (mergedPart (getProp "shape" props) (Store.shape s))
       (mergedPart (getProp "pattern" props) (Store.pattern s))
       (mergedPart (getProp "animation" props) (Store.animation s))
       (setProp "colors" (arrayOf items) (Store.palette s)),
     Ok tt).
Proof.
  intros Hmember Htruthy Hspread.
  assert (Hpalette : truthy (getProp "palette" props) = true).
  { destruct (getProp "palette" props); cbn in Hmember |- *;
      try discriminate; try reflexivity;
      injection Hmember as <-; discriminate. }
  rewrite applyPreset_object. cbn zeta.
  unfold whenTruthy at 1. rewrite Hpalette, Hmember.
  unfold eval at 1. unfold whenTruthy at 1. rewrite Htruthy, Hspread.
  unfold eval, setPaletteColors.
  cbn [Store.grid Store.shape Store.pattern Store.animation Store.palette
       Store.canvas].
  rewrite merge_canvas. reflexivity.
Qed.

(** *** [importState] *)

Lemma truthy_member (v : value num) (key : string) (member : value num) :
  getMember v key = Ok member -> truthy member = true -> truthy v = true.
Proof.
  destruct v; cbn; intros E T; try discriminate; try reflexivity;
    injection E as <-; discriminate.
Qed.

(** X22.  A preset file whose palette colours are neither an array nor
    a string (a number, [true], a plain object) makes [importState]
    return [false] half-way: the grid, shape, pattern and animation
    parts of the file have already been merged into the state, while
    palette and canvas are left as they were. *)
Theorem importState_stops_at_palette_colors (isArray : bool)
    (props : object num) (s : Store.t num) (colors : value num)
    (e : jsError) :
  getMember (getProp "palette" props) "colors" = Ok colors ->
  truthy colors = true ->
  spread colors = Throw e ->
  let result := importState (Json (VObj isArray props)) s in
  snd result = false
  /\ Store.grid (fst result)
     = mergedPart (getProp "grid" props) (Store.grid s)
  /\ Store.shape (fst result)
     = mergedPart (getProp "shape" props) (Store.shape s)
  /\ Store.pattern (fst result)
     = mergedPart (getProp "pattern" props) (Store.pattern s)
  /\ Store.animation (fst result)
     = mergedPart (getProp "animation" props) (Store.animation s)
  /\ Store.palette (fst result) = Store.palette s
  /\ Store.canvas (fst result) = Store.canvas s.
Proof.
  intros Hmember Htruthy Hspread.
  pose proof (truthy_member _ _ Hmember Htruthy) as Hpalette.
  assert (Hthrow : snd (applyPreset (VObj isArray props) s) = Throw e).
  { rewrite applyPreset_object. cbn zeta.
    unfold whenTruthy at 1. rewrite Hpalette, Hmember.
    unfold eval at 1. unfold whenTruthy at 1.
    rewrite Htruthy, Hspread. reflexivity. }
  destruct (applyPreset_configuration isArray props s)
    as (Hg & Hs & Hp & Ha).
  destruct (applyPreset_throws_before_palette isArray props s Hthrow)
    as (Hpal & Hc).
  unfold importState, JSON_parse. cbn zeta.
  destruct (applyPreset (VObj isArray props) s) as [s' [u|e']];
    cbn [fst snd] in *; [discriminate|].
  repeat split; assumption.
Qed.

(** X23.  A JSON document that has none of the six parts of a preset
    (any number, string or boolean, an array, an object with other
    members) is imported with result [true] and changes nothing. *)
Theorem importState_without_parts (data : value num) (s : Store.t num) :
  (forall key, In key presetParts ->
     exists v, getMember data key = Ok v /\ truthy v = false) ->
  importState (Json data) s = (s, true).
Proof.
  intros Hparts.
  assert (Part : forall key, In key presetParts ->
            forall (k : value num -> command) (t : Store.t num),
              eval (getMember data key) (fun v => whenTruthy v (k v)) t
              = (t, Ok tt)).
  { intros key Hin k t. destruct (Hparts key Hin) as (v & E & T).
    rewrite E. unfold eval, whenTruthy. now rewrite T. }
  unfold importState, JSON_parse, applyPreset, andThen.
  rewrite !Part by (cbn; tauto).
  reflexivity.
Qed.

(** *** [resetToDefault] *)

Lemma resetToDefault_objects (s : Store.t num) :
  let assignTo fields target :=
    fold_left (fun (o : object num) kv => setProp (fst kv) (snd kv) o)
              fields target in
  resetToDefault s
  = Store.mk
      (assignTo [("background", VStr "#111111")] (Store.canvas s))
      (assignTo gridDefaults (Store.grid s))
      (assignTo shapeDefaults (Store.shape s))
      (assignTo patternDefaults (Store.pattern s))
      (assignTo animationDefaults (Store.animation s))
      (assignTo
         [("colors",
           arrayOf (map VStr ["#4a9eff"; "#ff6b6b"; "#4ecdc4"; "#ffe66d";
                              "#a8e6cf"]))]
         (Store.palette s)).
Proof.
  destruct s. reflexivity.
Qed.

Lemma fold_setProp_other (fields target : object num) (key : string) :
  ~ In key (map fst fields) ->
  lookup key
    (fold_left (fun (o : object num) kv => setProp (fst kv) (snd kv) o)
               fields target)
  = lookup key target.
Proof.
  revert target. induction fields as [|[k v] rest IH]; intros target Hni;
    [reflexivity|].
  cbn [fold_left fst snd]. rewrite IH.
  - apply lookup_setProp_other. intros E. apply Hni. now left.
  - intros Hin. apply Hni. now right.
Qed.

Lemma fold_setProp_present (fields target : object num) (key : string)
    (v : value num) :
  keysDistinct (map fst fields) = true ->
  In (key, v) fields ->
  lookup key
    (fold_left (fun (o : object num) kv => setProp (fst kv) (snd kv) o)
               fields target)
  = Some v.
Proof.
  revert target. induction fields as [|[k w] rest IH]; intros target Hd Hin;
    [contradiction|].
  apply keysDistinct_head in Hd. destruct Hd as [Hk Hd].
  cbn [fold_left fst snd]. destruct Hin as [[= -> ->]|Hin].
  - rewrite fold_setProp_other by exact Hk. apply lookup_setProp_same.
  - now apply IH.
Qed.

Lemma fold_setProp_same (fields target : object num) :
  (forall key v, In (key, v) fields -> lookup key target = Some v) ->
  fold_left (fun (o : object num) kv => setProp (fst kv) (snd kv) o)
            fields target
  = target.
Proof.
  induction fields as [|[k v] rest IH]; intros Hall; [reflexivity|].
  cbn [fold_left fst snd]. rewrite setProp_same.
  - apply IH. intros key w Hin. apply Hall. now right.
  - apply Hall. now left.
Qed.

Lemma fold_setProp_twice (fields target : object num) :
  keysDistinct (map fst fields) = true ->
  let assignTo :=
    fold_left (fun (o : object num) kv => setProp (fst kv) (snd kv) o)
              fields in
  assignTo (assignTo target) = assignTo target.
Proof.
  intros Hd assignTo. apply fold_setProp_same. intros key v Hin.
  now apply fold_setProp_present.
Qed.

(** X24.  [resetToDefault] assigns the listed fields only: every other
    property of the six state objects keeps the value it had, among
    them [shape.rotateMode], [shape.rotationSpeed], [shape.scalePower],
    the stroke settings and the [animate...] flags. *)
Theorem resetToDefault_keeps_unlisted_fields (s : Store.t num)
    (key : string) :
  (~ In key (map fst gridDefaults) ->
   lookup key (Store.grid (resetToDefault s)) = lookup key (Store.grid s))
  /\ (~ In key (map fst shapeDefaults) ->
      lookup key (Store.shape (resetToDefault s))
      = lookup key (Store.shape s))
  /\ (~ In key (map fst patternDefaults) ->
      lookup key (Store.pattern (resetToDefault s))
      = lookup key (Store.pattern s))
  /\ (~ In key (map fst animationDefaults) ->
      lookup key (Store.animation (resetToDefault s))
      = lookup key (Store.animation s))
  /\ (key <> "colors" ->
      lookup key (Store.palette (resetToDefault s))
      = lookup key (Store.palette s))
  /\ (key <> "background" ->
      lookup key (Store.canvas (resetToDefault s))
      = lookup key (Store.canvas s)).
Proof.
  rewrite resetToDefault_objects.
  cbn [Store.grid Store.shape Store.pattern Store.animation Store.palette
       Store.canvas].
  repeat split; intros Hni; apply fold_setProp_other; try exact Hni;
    cbn; intros [E|[]]; now apply Hni.
Qed.

(** X25.  Resetting twice is the same as resetting once. *)
Theorem resetToDefault_is_idempotent (s : Store.t num) :
  resetToDefault (resetToDefault s) = resetToDefault s.
Proof.
  rewrite (resetToDefault_objects (resetToDefault s)).
  rewrite (resetToDefault_objects s).
  cbn [Store.grid Store.shape Store.pattern Store.animation Store.palette
       Store.canvas].
  f_equal; apply fold_setProp_twice; reflexivity.
Qed.

(** *** [loadPreset], [saveUserPreset] and [deleteUserPreset] *)

Lemma lookup_absent (props : object num) (key : string) :
  ~ In key (map fst props) -> lookup key props = None.
Proof.
  induction props as [|[k v] rest IH]; [reflexivity|].
  cbn. intros Hni. destruct (String.eqb_spec k key) as [->|_].
  - exfalso. apply Hni. now left.
  - apply IH. intros Hin. apply Hni. now right.
Qed.

Lemma existsb_absent (names : list string) (name : string) :
  ~ In name names -> existsb (String.eqb name) names = false.
Proof.
  intros Hni. destruct (existsb (String.eqb name) names) eqn:E;
    [|reflexivity].
  apply existsb_exists in E. destruct E as (x & Hin & Heq).
  apply String.eqb_eq in Heq. subst x. contradiction.
Qed.

Lemma builtIn_is_an_object (name : string) :
  In name (map fst builtInPresets) ->
  exists props, readMember builtInPresets None name = VObj false props.
Proof.
  intros Hin. cbn [map fst builtInPresets] in Hin.
  repeat (destruct Hin as [<-|Hin]; [eexists; reflexivity|]).
  contradiction.
Qed.

Lemma no_builtIn (name : string) :
  ~ In name (map fst builtInPresets) ->
  ~ In name objectPrototypeNames ->
  readMember builtInPresets None name = VUndefined.
Proof.
  intros Hb Hp. unfold readMember.
  now rewrite (@lookup_absent _ _ Hb), (@existsb_absent _ _ Hp).
Qed.

(** X26.  A built-in preset shadows a user preset of the same name:
    what [loadPreset] does for a built-in name does not depend on the
    user presets, so a state saved under such a name cannot be loaded
    again. *)
Theorem builtIn_presets_shadow_user_presets
    (users users' : UserPresets.t num) (name : string) (s : Store.t num) :
  In name (map fst builtInPresets) ->
  loadPreset users name s = loadPreset users' name s.
Proof.
  intros Hin. destruct (@builtIn_is_an_object name Hin) as [props E].
  unfold loadPreset. rewrite E. reflexivity.
Qed.

(** X27.  Every built-in preset but ['Neon Circles'] leaves
    [shape.blendMode] as it finds it: the blend mode chosen before, or
    set by ['Neon Circles'], carries over to the preset loaded next. *)
Theorem builtIn_presets_keep_blendMode (users : UserPresets.t num)
    (name : string) (s : Store.t num) :
  In name (map fst builtInPresets) ->
  name <> "Neon Circles" ->
  lookup "blendMode" (Store.shape (fst (loadPreset users name s)))
  = lookup "blendMode" (Store.shape s).
Proof.
  intros Hin Hne. cbn [map fst builtInPresets] in Hin.
  repeat (destruct Hin as [<-|Hin];
    [ try (exfalso; apply Hne; reflexivity);
      unfold loadPreset;
      match goal with
      | |- context [readMember builtInPresets None ?n] =>
          let v := eval cbv [readMember builtInPresets lookup String.eqb
                             Ascii.eqb Bool.eqb] in
                     (readMember builtInPresets None n) in
          change (readMember builtInPresets None n) with v
      end;
      cbn [String.eqb Ascii.eqb Bool.eqb truthy negb];
      match goal with
      | |- context [applyPreset (VObj ?a ?props) s] =>
          destruct (applyPreset_configuration a props s)
            as (_ & Hshape & _);
          destruct (applyPreset (VObj a props) s) as [s' [u|e]];
          cbn [fst snd] in *; rewrite Hshape
      end;
      unfold mergedPart;
      cbn [getProp lookup String.eqb Ascii.eqb Bool.eqb truthy applyState];
      apply fold_assign_other; cbn [map fst];
      intros Hk; repeat (destruct Hk as [Hk|Hk]; [discriminate|]);
      contradiction
    |]).
  contradiction.
Qed.

Lemma lookup_filter_absent (props : object num) (name : string) :
  lookup name (filter (fun kv => negb (fst kv =? name)) props) = None.
Proof.
  induction props as [|[k v] rest IH]; [reflexivity|].
  cbn [filter fst]. destruct (k =? name) eqn:E; cbn [negb];
    [exact IH|]. cbn [lookup]. now rewrite E.
Qed.

(** X28.  After [deleteUserPreset], loading that name fails and leaves
    the state alone, for a name that is not a built-in preset, not a
    member of [Object.prototype], and not found on a prototype set by
    saving under ["__proto__"]. *)
Theorem deleted_preset_cannot_be_loaded (users : UserPresets.t num)
    (name : string) (s : Store.t num) :
  name <> "** Default **" ->
  ~ In name (map fst builtInPresets) ->
  ~ In name objectPrototypeNames ->
  inheritedPreset users name = None ->
  loadPreset (deleteUserPreset name users) name s = (s, Ok false).
Proof.
  intros Hd Hb Hp Hi. unfold loadPreset.
  rewrite (proj2 (String.eqb_neq _ _) Hd).
  rewrite (@no_builtIn _ Hb Hp). cbn [truthy].
  unfold readMember, deleteUserPreset.
  cbn [UserPresets.own UserPresets.proto].
  rewrite lookup_filter_absent, (@existsb_absent _ _ Hp).
  unfold inheritedPreset in Hi.
  destruct (UserPresets.proto users) as [inherited|]; [|reflexivity].
  rewrite Hi.
  assert ((name =? "__proto__") = false) as ->.
  { apply String.eqb_neq. intros ->. apply Hp. cbn. tauto. }
  reflexivity.
Qed.

(** X29.  [loadPreset] called with the name of a member that every
    object inherits from [Object.prototype] (['constructor'],
    ['toString'], ...) finds that member instead of a preset, reports
    success and changes nothing. *)
Theorem inherited_names_load_nothing (users : UserPresets.t num)
    (name : string) (s : Store.t num) :
  In name objectPrototypeNames ->
  loadPreset users name s = (s, Ok true).
Proof.
  intros Hin. unfold objectPrototypeNames in Hin.
  repeat (destruct Hin as [<-|Hin]; [destruct s; reflexivity|]).
  contradiction.
Qed.

Lemma lookup_In (props : object num) (key : string) (v : value num) :
  lookup key props = Some v -> In (key, v) props.
Proof.
  induction props as [|[k w] rest IH]; [discriminate|].
  cbn. destruct (String.eqb_spec k key) as [->|_].
  - intros [= ->]. now left.
  - intros Hl. right. now apply IH.
Qed.

Lemma lookup_not_In (props : object num) (key : string) :
  lookup key props = None -> ~ In key (map fst props).
Proof.
  induction props as [|[k w] rest IH]; [intros _ []|].
  cbn. destruct (String.eqb_spec k key) as [->|Hne]; [discriminate|].
  intros Hl [E|Hin]; [contradiction|]. now apply IH.
Qed.

(** Merging a flat object: its fields replace those of the target, the
    other fields of the target stay. *)
Lemma lookup_applyState_flat (target source : object num) (key : string) :
  keysDistinct (map fst source) = true ->
  forallb (fun kv => isAssigned (snd kv)) source = true ->
  lookup key (applyState target (VObj false source))
  = match lookup key source with
    | Some v => Some v
    | None => lookup key target
    end.
Proof.
  intros Hd Hflat. cbn [applyState].
  destruct (lookup key source) as [v|] eqn:E.
  - apply lookup_In in E.
    rewrite (@fold_assign_present source target key v Hd E).
    rewrite forallb_forall in Hflat. specialize (Hflat _ E).
    cbn [snd] in Hflat.
    destruct v as [| | | | |[|] sp]; try reflexivity. discriminate.
  - apply fold_assign_other. now apply lookup_not_In.
Qed.

(** X30.  Saving the state as a user preset and loading that preset
    later, from whatever state the tool is in by then, succeeds and
    brings back every saved field of the four configuration objects,
    the palette colours and the canvas background; fields the saved
    state did not have stay as they are.  This holds for a state that
    JSON can write and whose configuration objects are flat, under a
    name that is neither a built-in preset nor a member of
    [Object.prototype]. *)
Theorem saved_preset_restores_saved_fields (users : UserPresets.t num)
    (name : string) (s current : Store.t num) :
  name <> "** Default **" ->
  ~ In name (map fst builtInPresets) ->
  ~ In name objectPrototypeNames ->
  persistable s = true ->
  flatStore s = true ->
  exists users',
    saveUserPreset name s users = Ok users'
    /\ let result := loadPreset users' name current in
       let restored (saved now after : object num) :=
         forall key,
           lookup key after
           = match lookup key saved with
             | Some v => Some v
             | None => lookup key now
             end in
       snd result = Ok true
       /\ restored (Store.grid s) (Store.grid current)
                   (Store.grid (fst result))
       /\ restored (Store.shape s) (Store.shape current)
                   (Store.shape (fst result))
       /\ restored (Store.pattern s) (Store.pattern current)
                   (Store.pattern (fst result))
       /\ restored (Store.animation s) (Store.animation current)
                   (Store.animation (fst result))
       /\ getProp "colors" (Store.palette (fst result))
          = getProp "colors" (Store.palette s)
       /\ getProp "background" (Store.canvas (fst result))
          = getProp "background" (Store.canvas s).
Proof.
  intros Hdefault Hbuiltin Hproto Hp Hflat.
  unfold persistable in Hp.
  repeat match type of Hp with
         | (_ && _)%bool = true =>
             let Hlast := fresh "Hr" in
             apply andb_prop in Hp; destruct Hp as [Hp Hlast]
         end.
  unfold flatStore in Hflat.
  repeat match type of Hflat with
         | (_ && _)%bool = true =>
             let Hlast := fresh "Hf" in
             apply andb_prop in Hflat; destruct Hflat as [Hflat Hlast]
         end.
  destruct (getProp "colors" (Store.palette s))
    as [| | | | | [|] items] eqn:Ecolors; try discriminate.
  assert (Hitems : items = indexed 0 (map snd items)).
  { apply keysCount_indexed.
    cbn [representable] in Hr0. apply andb_prop in Hr0.
    now destruct Hr0. }
  assert (Hname : (name =? "__proto__") = false).
  { apply String.eqb_neq. intros ->. apply Hproto. cbn. tauto. }
  assert (Hsnapshot :
    snapshot s
    = Ok (VObj false
            [("grid", VObj false (Store.grid s));
             ("shape", VObj false (Store.shape s));
             ("pattern", VObj false (Store.pattern s));
             ("animation", VObj false (Store.animation s));
             ("palette", VObj false [("colors", VObj true items)]);
             ("canvas",
              VObj false
                [("background",
                  getProp "background" (Store.canvas s))])])).
  { unfold snapshot.
    rewrite !cloneState_representable by assumption. cbn [bind].
    rewrite Ecolors. rewrite Hitems at 1. rewrite spread_dense.
    cbn [bind]. unfold arrayOf. now rewrite <- Hitems. }
  unfold saveUserPreset. rewrite Hsnapshot. cbn [bind].
  eexists. split; [reflexivity|].
  unfold assignPreset. rewrite Hname.
  unfold loadPreset.
  rewrite (proj2 (String.eqb_neq _ _) Hdefault).
  rewrite (@no_builtIn _ Hbuiltin Hproto). cbn [truthy].
  cbn [UserPresets.own UserPresets.proto].
  match goal with
  | |- context [readMember (setProp name ?p ?own) ?proto name] =>
      assert (Hread : readMember (setProp name p own) proto name = p)
        by (unfold readMember; now rewrite lookup_setProp_same);
      rewrite !Hread
  end.
  cbn [truthy negb].
  assert (Hspread : spread (VObj true items) = Ok (map snd items))
    by (rewrite Hitems at 1; apply spread_dense).
  match goal with
  | |- context [applyPreset (VObj false ?parts) current] =>
      rewrite (@applyPreset_completes false parts current
                 (VObj true items) (map snd items)
                 eq_refl eq_refl Hspread)
  end.
  cbn [fst snd Store.grid Store.shape Store.pattern Store.animation
       Store.palette Store.canvas].
  unfold mergedPart.
  cbn [getProp lookup String.eqb Ascii.eqb Bool.eqb truthy].
  unfold arrayOf. rewrite <- Hitems.
  assert (Keys : forall props : object num,
            representable (VObj false props) = true ->
            keysDistinct (map fst props) = true).
  { intros props Hprops. cbn [representable] in Hprops.
    apply andb_prop in Hprops. now destruct Hprops. }
  repeat split.
  - intros key. apply lookup_applyState_flat; [apply Keys|]; assumption.
  - intros key. apply lookup_applyState_flat; [apply Keys|]; assumption.
  - intros key. apply lookup_applyState_flat; [apply Keys|]; assumption.
  - intros key. apply lookup_applyState_flat; [apply Keys|]; assumption.
  - unfold getProp at 1. now rewrite lookup_setProp_same.
  - unfold getProp at 1.
    rewrite lookup_applyState_flat;
      [| reflexivity | cbn [forallb snd]; now rewrite Hf].
    cbn [lookup]. now rewrite String.eqb_refl.
Qed.

End MorePersistence.

(** *** Instances on the initial state of [state.js] *)

Ltac not_listed :=
  cbn; intros Hin;
  repeat (destruct Hin as [Hin|Hin]; [discriminate|]);
  contradiction.



(** A file with three columns, the number 5 as palette colours and a
    white background: the columns are applied, the background is not. *)
Lemma broken_palette_is_half_applied :
  let result :=
    importState (Json (VObj false PresetInputs.brokenPalette))
                (defaultStore (num := float)) in
  snd result = false
  /\ Store.grid (fst result)
     = mergedPart (getProp "grid" PresetInputs.brokenPalette)
                  (Store.grid defaultStore)
  /\ Store.shape (fst result)
     = mergedPart (getProp "shape" PresetInputs.brokenPalette)
                  (Store.shape defaultStore)
  /\ Store.pattern (fst result)
     = mergedPart (getProp "pattern" PresetInputs.brokenPalette)
                  (Store.pattern defaultStore)
  /\ Store.animation (fst result)
     = mergedPart (getProp "animation" PresetInputs.brokenPalette)
                  (Store.animation defaultStore)
  /\ Store.palette (fst result) = Store.palette defaultStore
  /\ Store.canvas (fst result) = Store.canvas defaultStore.
Proof.
  apply (@importState_stops_at_palette_colors float _ false
           PresetInputs.brokenPalette defaultStore (VNum 5%float)
           (TypeError "not iterable"));
    vm_compute; reflexivity.
Defined.

(** The JSON document ["hello"]. *)
Lemma a_string_is_imported_as_nothing :
  importState (Json (VStr "hello")) (defaultStore (num := float))
  = (defaultStore, true).
Proof.
  apply importState_without_parts.
  intros key _. exists VUndefined. split; reflexivity.
Defined.

(** Rotation by distance survives a reset. *)
Lemma reset_keeps_rotateMode :
  lookup "rotateMode" (Store.shape (resetToDefault PresetInputs.tweaked))
  = lookup "rotateMode" (Store.shape PresetInputs.tweaked).
Proof.
  apply (proj1 (proj2 (resetToDefault_keeps_unlisted_fields
                         PresetInputs.tweaked "rotateMode"))).
  not_listed.
Defined.

Lemma star_burst_cannot_be_overwritten :
  loadPreset PresetInputs.shadowed "Star Burst" PresetInputs.tweaked
  = loadPreset PresetInputs.noUsers "Star Burst" PresetInputs.tweaked.
Proof.
  apply builtIn_presets_shadow_user_presets. cbn. tauto.
Defined.

Lemma star_burst_keeps_multiply :
  lookup "blendMode"
    (Store.shape
       (fst (loadPreset PresetInputs.noUsers "Star Burst"
                        PresetInputs.tweaked)))
  = lookup "blendMode" (Store.shape PresetInputs.tweaked).
Proof.
  apply builtIn_presets_keep_blendMode; [cbn; tauto | discriminate].
Defined.

Lemma deleted_mine_cannot_be_loaded :
  loadPreset (deleteUserPreset "mine" PresetInputs.oneUser) "mine"
             (defaultStore (num := float))
  = (defaultStore, Ok false).
Proof.
  apply deleted_preset_cannot_be_loaded;
    [discriminate | not_listed | not_listed | reflexivity].
Defined.

(** Save the tweaked state, go back to the initial state, load. *)
Lemma saved_tweaks_come_back :
  exists users',
    saveUserPreset "mine" PresetInputs.tweaked PresetInputs.noUsers
    = Ok users'
    /\ snd (loadPreset users' "mine" (defaultStore (num := float)))
       = Ok true
    /\ lookup "rotateMode"
         (Store.shape (fst (loadPreset users' "mine" defaultStore)))
       = Some (VStr "linear").
Proof.
  destruct (@saved_preset_restores_saved_fields float _
              PresetInputs.noUsers "mine" PresetInputs.tweaked
              defaultStore)
    as (users' & Hsave & Hload & _ & Hshape & _);
    [discriminate | not_listed | not_listed
    | vm_compute; reflexivity | vm_compute; reflexivity |].
  exists users'. repeat split; [exact Hsave | exact Hload |].
  rewrite Hshape. reflexivity.
Defined.

Lemma constructor_loads_nothing :
  loadPreset PresetInputs.noUsers "constructor" PresetInputs.tweaked
  = (PresetInputs.tweaked, Ok true).
Proof.
  apply inherited_names_load_nothing. cbn. tauto.
Defined.
